(** * pydata_sphinx_theme: configuration normalisation and page-context hooks

    A shallow embedding of [src/pydata_sphinx_theme/__init__.py]: the two
    Sphinx hooks [update_config] (event [builder-inited]) and
    [update_and_remove_templates] (event [html-page-context]).

    Both hooks mutate dictionaries owned by Sphinx and talk to the outside
    world (logger, network, file system, template engine).  The embedding
    threads the mutated objects through a state-and-exception monad and takes
    the outside world as a record of oracles. *)

From Stdlib Require Import ZArith Ascii String.
From stdpp Require Import base option list strings gmap.

Local Open Scope Z_scope.
Local Open Scope string_scope.
Local Open Scope list_scope.

(** ** Python values

    Theme options and context entries are what a [conf.py], a [theme.conf]
    or a JSON document can hold: [None], booleans, integers, strings, lists
    and dicts.  A dict is an association list in insertion order (the order
    Python iterates in); its keys are strings or integers.  Strings are
    sequences of code points below 256. *)

#[local] Set Warnings "-register-all".

Inductive key : Type :=
  | KStr (s : string)
  | KInt (z : Z).

Inductive value : Type :=
  | VNone
  | VBool (b : bool)
  | VInt (z : Z)
  | VStr (s : string)
  | VList (l : list value)
  | VDict (d : list (key * value)).

Global Instance key_eq_dec : EqDecision key.
Proof. solve_decision. Defined.

(** [bool(v)] *)
Definition truthy (v : value) : bool :=
  match v with
  | VNone => false
  | VBool b => b
  | VInt z => negb (z =? 0)%Z
  | VStr s => negb (String.eqb s "")
  | VList l => match l with [] => false | _ => true end
  | VDict d => match d with [] => false | _ => true end
  end.

(** [type(v).__name__] and [repr(type(v))], as an f-string prints it. *)
Definition type_name (v : value) : string :=
  match v with
  | VNone => "NoneType"
  | VBool _ => "bool"
  | VInt _ => "int"
  | VStr _ => "str"
  | VList _ => "list"
  | VDict _ => "dict"
  end.

Definition type_repr (v : value) : string :=
  "<class '" +:+ type_name v +:+ "'>".

Definition is_list (v : value) : bool :=
  match v with VList _ => true | _ => false end.
Definition is_dict (v : value) : bool :=
  match v with VDict _ => true | _ => false end.
Definition is_str (v : value) : bool :=
  match v with VStr _ => true | _ => false end.

(** *** Dict operations on the association list *)

Fixpoint dict_lookup (k : key) (d : list (key * value)) : option value :=
  match d with
  | [] => None
  | (k', v) :: d' => if decide (k' = k) then Some v else dict_lookup k d'
  end.

(** [d[k] = v]: overwrite in place, or append a new entry at the end. *)
Fixpoint dict_set (k : key) (v : value) (d : list (key * value))
  : list (key * value) :=
  match d with
  | [] => [(k, v)]
  | (k', v') :: d' =>
      if decide (k' = k) then (k', v) :: d' else (k', v') :: dict_set k v d'
  end.

Definition dict_mem (k : key) (d : list (key * value)) : bool :=
  match dict_lookup k d with Some _ => true | None => false end.

Definition dict_keys (d : list (key * value)) : list key := d.*1.

Definition key_value (k : key) : value :=
  match k with KStr s => VStr s | KInt z => VInt z end.

(** [d.get(k)] and [d.get(k, dflt)] on a dict value. *)
Definition dict_get (d : list (key * value)) (k : string) : value :=
  default VNone (dict_lookup (KStr k) d).
Definition dict_get_or (d : list (key * value)) (k : string) (dflt : value)
  : value :=
  default dflt (dict_lookup (KStr k) d).

(** [opts.get(k)] and [opts.get(k, dflt)] on a top-level mapping (theme
    options, render context), whose keys are always names. *)
Definition get (opts : gmap string value) (k : string) : value :=
  default VNone (opts !! k).
Definition get_or (opts : gmap string value) (k : string) (dflt : value)
  : value :=
  default dflt (opts !! k).

(** ** Python string methods *)

(** [str.isspace] on one code point below 256. *)
Definition is_space (a : ascii) : bool :=
  let n := nat_of_ascii a in
  ((9 <=? n) && (n <=? 13) || (28 <=? n) && (n <=? 32)
   || (n =? 133) || (n =? 160))%nat.

Fixpoint lstrip (s : string) : string :=
  match s with
  | EmptyString => EmptyString
  | String a s' => if is_space a then lstrip s' else s
  end.

Fixpoint rstrip (s : string) : string :=
  match s with
  | EmptyString => EmptyString
  | String a s' =>
      match rstrip s' with
      | EmptyString => if is_space a then EmptyString else String a EmptyString
      | r => String a r
      end
  end.

(** [s.strip()] *)
Definition strip (s : string) : string := rstrip (lstrip s).

(** [s.split(sep)] for a one-character separator: never an empty list. *)
Fixpoint split (sep : ascii) (s : string) : list string :=
  match s with
  | EmptyString => [EmptyString]
  | String a s' =>
      if Ascii.eqb a sep then EmptyString :: split sep s'
      else match split sep s' with
           | h :: t => String a h :: t
           | [] => [String a EmptyString]
           end
  end.

(** [s.strip(".")] *)
Fixpoint lstrip_char (c : ascii) (s : string) : string :=
  match s with
  | EmptyString => EmptyString
  | String a s' => if Ascii.eqb a c then lstrip_char c s' else s
  end.

Fixpoint rstrip_char (c : ascii) (s : string) : string :=
  match s with
  | EmptyString => EmptyString
  | String a s' =>
      match rstrip_char c s' with
      | EmptyString => if Ascii.eqb a c then EmptyString
                       else String a EmptyString
      | r => String a r
      end
  end.

Definition strip_char (c : ascii) (s : string) : string :=
  rstrip_char c (lstrip_char c s).

(** [sub in s] on strings *)
Fixpoint contains (sub s : string) : bool :=
  String.prefix sub s
  || match s with
     | EmptyString => false
     | String _ s' => contains sub s'
     end.

(** [s.endswith(suffix)] *)
Fixpoint endswith (s suffix : string) : bool :=
  String.eqb s suffix
  || match s with
     | EmptyString => false
     | String _ s' => endswith s' suffix
     end.

(** The characters of a string, as iterating over it yields them. *)
Fixpoint chars (s : string) : list string :=
  match s with
  | EmptyString => []
  | String a s' => String a EmptyString :: chars s'
  end.

(** ** Iteration and membership on arbitrary values *)

(** [iter(v)]: a list yields its items, a dict its keys, a string its
    characters; anything else is not iterable ([None] here). *)
Definition py_iter (v : value) : option (list value) :=
  match v with
  | VList l => Some l
  | VDict d => Some (key_value <$> dict_keys d)
  | VStr s => Some (VStr <$> chars s)
  | _ => None
  end.

Definition is_the_str (name : string) (v : value) : bool :=
  match v with VStr s => String.eqb s name | _ => false end.

(** [name in v] for a string [name]: key test on a dict, item test on a
    list, substring test on a string; [None] stands for the [TypeError] of
    a value that is no container. *)
Definition py_contains (name : string) (v : value) : option bool :=
  match v with
  | VDict d => Some (dict_mem (KStr name) d)
  | VList l => Some (existsb (is_the_str name) l)
  | VStr s => Some (contains name s)
  | _ => None
  end.

(** ** Exceptions, results and the hook monad *)

(** Which of the classes named in [except (ConnectionError, HTTPError,
    RetryError)] an exception raised by [requests] is an instance of. *)
Inductive requests_class : Type :=
  | ReqConnectionError
  | ReqHTTPError
  | ReqRetryError
  | ReqOther.

(** Exceptions the hooks raise or let through.  Those the interpreter
    raises carry no message; [KeyError] carries the missing key; the two
    the theme raises itself carry their message; those of the libraries
    carry their [repr]. *)
Inductive exception : Type :=
  | TypeError
  | AttributeError
  | RuntimeError
  | KeyError (k : string)
  | ExtensionError (msg : string)
  | ValueError (msg : string)
  | RequestsError (c : requests_class) (repr : string)
  | ReadError (file_not_found : bool) (repr : string)
  | JSONDecodeError (repr : string)
  | TemplateError (repr : string).

(** A hook either returns or raises; the objects it mutated in place are in
    the state of both outcomes. *)
Inductive result (S A : Type) : Type :=
  | Return (a : A) (s : S)
  | Raise (e : exception) (s : S).
Arguments Return {S A} a s.
Arguments Raise {S A} e s.

Definition M (S A : Type) : Type := S -> result S A.

Definition ret {S A} (a : A) : M S A := fun s => Return a s.

Definition bind {S A B} (m : M S A) (f : A -> M S B) : M S B :=
  fun s => match m s with
           | Return a s' => f a s'
           | Raise e s' => Raise e s'
           end.

Definition raise {S A} (e : exception) : M S A := fun s => Raise e s.
Definition get_state {S} : M S S := fun s => Return s s.
Definition modify {S} (f : S -> S) : M S unit := fun s => Return tt (f s).

Notation "'let*' x ':=' m 'in' k" := (bind m (fun x => k))
  (at level 10, x name, m at level 100, k at level 200).
Notation "m ;; k" := (bind m (fun _ => k))
  (at level 100, k at level 200, right associativity).

Definition when {S} (b : bool) (m : M S unit) : M S unit :=
  if b then m else ret tt.

(** [for x in xs: body x] *)
Fixpoint for_each {S A} (xs : list A) (body : A -> M S unit) : M S unit :=
  match xs with
  | [] => ret tt
  | x :: xs' => body x ;; for_each xs' body
  end.

Definition state_of {S A} (r : result S A) : S :=
  match r with Return _ s => s | Raise _ s => s end.

Definition returns {S A} (r : result S A) : bool :=
  match r with Return _ _ => true | Raise _ _ => false end.

Definition raised {S A} (r : result S A) : option exception :=
  match r with Return _ _ => None | Raise e _ => Some e end.

(** ** The Sphinx application, seen from the hooks *)

(** Messages passed to [logger.warning]; [warning_text] renders them. *)
Inductive warning : Type :=
  | WLogoText
  | WFooterItems
  | WFavicons
  | WNavigationWithKeys
  | WSwitcherUnreadable (json_url reading_error : string)
  | WSwitcherMalformed (json_url : string).

Global Instance warning_eq_dec : EqDecision warning.
Proof. solve_decision. Defined.

Definition newline : string := String (ascii_of_nat 10) EmptyString.
Definition dquote : string := String (ascii_of_nat 34) EmptyString.

Definition warning_text (w : warning) : string :=
  match w with
  | WLogoText =>
      "The configuration `logo_text` is deprecated."
      +:+ "Use `'logo': {'text': }`."
  | WFooterItems =>
      "`footer_items` is deprecated. Use `footer_start` or `footer_end` instead."
  | WFavicons =>
      "The configuration `favicons` is deprecated."
      +:+ "Use the sphinx-favicon extension instead."
  | WNavigationWithKeys =>
      "The default value for `navigation_with_keys` will change to `False` in "
      +:+ "the next release. If you wish to preserve the old behavior for your site, "
      +:+ "set `navigation_with_keys=True` in the `html_theme_options` dict in your "
      +:+ "`conf.py` file."
      +:+ "Be aware that `navigation_with_keys = True` has negative accessibility implications:"
      +:+ "https://github.com/pydata/pydata-sphinx-theme/issues/1492"
  | WSwitcherUnreadable json_url reading_error =>
      "The version switcher " +:+ dquote +:+ json_url +:+ dquote
      +:+ " file cannot be read due to the following error:" +:+ newline
      +:+ reading_error
  | WSwitcherMalformed json_url =>
      "The version switcher " +:+ dquote +:+ json_url +:+ dquote
      +:+ " file is malformed"
      +:+ " at least one of the items is missing the " +:+ dquote +:+ "url"
      +:+ dquote +:+ " or " +:+ dquote +:+ "version" +:+ dquote +:+ " key"
  end.

(** Calls of [app.add_js_file].  The bodies built by f-strings are kept as
    constructors over the interpolated values. *)
Inductive js_call : Type :=
  | JsPlausible (data_domain filename : value)
      (* add_js_file(loading_method="defer", **{"data-domain": .., "filename": ..}) *)
  | JsGtagLoader (gid : value)
      (* add_js_file(f"https://www.googletagmanager.com/gtag/js?id={gid}", loading_method="async") *)
  | JsGtagConfig (gid : value)
      (* add_js_file(None, body=<the gtag('config', '{gid}') script>) *)
  | JsPagename (pagename : string)
      (* add_js_file(None, body=f"DOCUMENTATION_OPTIONS.pagename = '{pagename}';") *)
  | JsSwitcher (json_url version_match show_banner : value).
      (* add_js_file(None, body=<the theme_switcher script>) *)

(** Calls of [app.add_css_file(href, **opts)]; [opts] in insertion order. *)
Record css_call : Type := CssCall {
  css_href : string;
  css_opts : list (string * value)
}.

(** Reads attempted while validating the switcher. *)
Inductive io_event : Type :=
  | HttpGet (url : string)
  | ReadText (srcdir json_url : string).

Record app : Type := App {
  theme_options : gmap string value;   (* utils.get_theme_options_dict(app) *)
  html_permalinks_icon : value;        (* app.config.html_permalinks_icon *)
  fontawesome_included : value;        (* app.config.fontawesome_included *)
  extensions : list string;            (* app.config.extensions *)
  srcdir : string;                     (* app.srcdir *)
  js_files : list js_call;             (* add_js_file calls, oldest first *)
  css_files : list css_call;           (* add_css_file calls, oldest first *)
  log : list warning;                  (* logger.warning calls, oldest first *)
  io : list io_event                   (* network and file reads, oldest first *)
}.

Definition set_theme_options (f : gmap string value -> gmap string value)
  (a : app) : app :=
  App (f (theme_options a)) (html_permalinks_icon a) (fontawesome_included a)
      (extensions a) (srcdir a) (js_files a) (css_files a) (log a) (io a).
Definition set_html_permalinks_icon (v : value) (a : app) : app :=
  App (theme_options a) v (fontawesome_included a)
      (extensions a) (srcdir a) (js_files a) (css_files a) (log a) (io a).
Definition set_fontawesome_included (v : value) (a : app) : app :=
  App (theme_options a) (html_permalinks_icon a) v
      (extensions a) (srcdir a) (js_files a) (css_files a) (log a) (io a).
Definition push_js (j : js_call) (a : app) : app :=
  App (theme_options a) (html_permalinks_icon a) (fontawesome_included a)
      (extensions a) (srcdir a) (js_files a ++ [j]) (css_files a) (log a) (io a).
Definition push_css (c : css_call) (a : app) : app :=
  App (theme_options a) (html_permalinks_icon a) (fontawesome_included a)
      (extensions a) (srcdir a) (js_files a) (css_files a ++ [c]) (log a) (io a).
Definition push_log (w : warning) (a : app) : app :=
  App (theme_options a) (html_permalinks_icon a) (fontawesome_included a)
      (extensions a) (srcdir a) (js_files a) (css_files a) (log a ++ [w]) (io a).
Definition push_io (e : io_event) (a : app) : app :=
  App (theme_options a) (html_permalinks_icon a) (fontawesome_included a)
      (extensions a) (srcdir a) (js_files a) (css_files a) (log a) (io a ++ [e]).

(** ** The outside world *)

(** What [requests.get(url)] does: raise, or answer.  An answer carries the
    [repr] of the [HTTPError] that [raise_for_status()] raises on it, if its
    status is an error status, and the body [text]. *)
Inductive get_outcome : Type :=
  | GetRaises (c : requests_class) (repr : string)
  | GetResponse (status_error : option string) (text : string).

(** What [Path(srcdir, json_url).read_text()] does. *)
Inductive read_outcome : Type :=
  | ReadRaises (file_not_found : bool) (repr : string)
  | ReadContent (text : string).

Record world : Type := World {
  (* urllib.parse.urlparse(url).scheme: the message of the ValueError that
     urlparse raises on the url, or the scheme *)
  urlparse_scheme : string -> string + string;
  requests_get : string -> get_outcome;
  read_text : string -> string -> read_outcome;
  (* json.loads(content): the repr of the JSONDecodeError, or the value *)
  json_loads : string -> string + value;
  (* utils.config_provided_by_user(app, name); the helper is not part of
     this module and only reads the user's configuration *)
  config_provided_by_user : string -> bool;
  (* os.path.splitext(name)[1] *)
  splitext_ext : string -> string;
  (* pathlib.Path(href).suffix *)
  path_suffix : string -> string;
  (* app.builder.templates.render(tname, context): the repr of the error
     raised, or the rendered text *)
  render : string -> gmap string value -> string + string
}.

(** ** [update_config] *)

Definition warn (x : warning) : M app unit := modify (push_log x).

Definition options : M app (gmap string value) :=
  fun a => Return (theme_options a) a.

(** [theme_options[k] = v] *)
Definition set_option (k : string) (v : value) : M app unit :=
  modify (set_theme_options (<[k := v]>)).

(** [except (ConnectionError, HTTPError, RetryError)] *)
Definition caught (c : requests_class) : bool :=
  match c with
  | ReqConnectionError | ReqHTTPError | ReqRetryError => true
  | ReqOther => false
  end.

(** [[name not in e for e in items]]; [None] when an item is no container. *)
Fixpoint not_in_each (name : string) (items : list value)
  : option (list bool) :=
  match items with
  | [] => Some []
  | e :: es =>
      match py_contains name e with
      | None => None
      | Some b =>
          match not_in_each name es with
          | None => None
          | Some bs => Some (negb b :: bs)
          end
      end
  end.

(** [any([name not in e for e in content])] *)
Definition any_missing (name : string) (content : value) : M app bool :=
  match py_iter content with
  | None => raise TypeError
  | Some items =>
      match not_in_each name items with
      | None => raise TypeError
      | Some bs => ret (existsb id bs)
      end
  end.

Definition shortcuts : list (string * string * string) :=
  [ ("twitter_url", "fa-brands fa-square-twitter", "Twitter");
    ("bitbucket_url", "fa-brands fa-bitbucket", "Bitbucket");
    ("gitlab_url", "fa-brands fa-square-gitlab", "GitLab");
    ("github_url", "fa-brands fa-square-github", "GitHub") ].

Definition shortcut_entry (url : value) (icon name : string) : value :=
  VDict [ (KStr "url", url); (KStr "icon", VStr icon);
          (KStr "name", VStr name); (KStr "type", VStr "fontawesome") ].

(** The loop over [shortcuts] on the local [icon_links]; [None] stands for
    the [AttributeError] of [insert] on a value that is no list. *)
Fixpoint insert_shortcuts (opts : gmap string value)
  (scs : list (string * string * string)) (icon_links : value)
  : option value :=
  match scs with
  | [] => Some icon_links
  | (url, icon, name) :: rest =>
      if truthy (get opts url) then
        match icon_links with
        | VList l =>
            insert_shortcuts opts rest
              (VList (shortcut_entry (get opts url) icon name :: l))
        | _ => None
        end
      else insert_shortcuts opts rest icon_links
  end.

Section UpdateConfig.

Variable w : world.

(** Lines 30-37: the [logo_text] shim. *)
Definition deprecate_logo_text : M app unit :=
  let* opts := options in
  when (truthy (get opts "logo_text"))
    (match get_or opts "logo" (VDict []) with
     | VDict logo =>
         set_option "logo"
           (VDict (dict_set (KStr "text") (get opts "logo_text") logo)) ;;
         warn WLogoText
     | _ => raise TypeError
     end).

(** Lines 39-44: the [footer_items] shim. *)
Definition deprecate_footer_items : M app unit :=
  let* opts := options in
  when (truthy (get opts "footer_items"))
    (set_option "footer_start" (get opts "footer_items") ;;
     warn WFooterItems).

(** Lines 46-51: [favicons]. *)
Definition deprecate_favicons : M app unit :=
  let* opts := options in
  when (truthy (get opts "favicons")) (warn WFavicons).

(** Lines 53-63: the default of [navigation_with_keys]. *)
Definition default_navigation_with_keys : M app unit :=
  let* opts := options in
  match get_or opts "navigation_with_keys" VNone with
  | VNone =>
      warn WNavigationWithKeys ;;
      set_option "navigation_with_keys" (VBool false)
  | _ => ret tt
  end.

(** Lines 65-70. *)
Definition validate_icon_links : M app unit :=
  let* opts := options in
  if negb (is_list (get_or opts "icon_links" (VList []))) then
    raise (ExtensionError
             ("`icon_links` must be a list of dictionaries, you provided "
              +:+ "type " +:+ type_repr (get opts "icon_links") +:+ "."))
  else ret tt.

(** Lines 72-74. *)
Definition default_permalinks_icon : M app unit :=
  when (negb (config_provided_by_user w "html_permalinks_icon"))
    (modify (set_html_permalinks_icon (VStr "#"))).

(** [theme_switcher[k]] *)
Definition getitem (d : list (key * value)) (k : string) : M app value :=
  match dict_lookup (KStr k) d with
  | Some v => ret v
  | None => raise (KeyError k)
  end.

(** [urlparse] and [Path] reject a [json_url] that is no string:
    [urlparse] by calling [decode] on a truthy one, [Path] by its type
    check on a falsy one. *)
Definition url_of (json_url : value) : M app string :=
  match json_url with
  | VStr url => ret url
  | v => if truthy v then raise AttributeError else raise TypeError
  end.

(** Lines 86-101: read the switcher file; the result is the
    [reading_error] (left) or the [content] (right).  [urlparse] is called
    outside the two [try] blocks: a [ValueError] it raises on the url is
    not caught. *)
Definition read_switcher (url : string) : M app (string + string) :=
  match urlparse_scheme w url with
  | inl msg => raise (ValueError msg)
  | inr scheme =>
      if bool_decide (scheme ∈ ["http"; "https"]) then
        modify (push_io (HttpGet url)) ;;
        match requests_get w url with
        | GetRaises c repr =>
            if caught c then ret (inl repr) else raise (RequestsError c repr)
        | GetResponse (Some repr) _ => ret (inl repr)
        | GetResponse None text => ret (inr text)
        end
      else
        let* a := get_state in
        modify (push_io (ReadText (srcdir a) url)) ;;
        match read_text w (srcdir a) url with
        | ReadRaises true repr => ret (inl repr)
        | ReadRaises false repr => raise (ReadError false repr)
        | ReadContent text => ret (inr text)
        end
  end.

(** Lines 108-118: the content of the file that was read. *)
Definition validate_switcher_content (url content : string) : M app unit :=
  match json_loads w content with
  | inl repr => raise (JSONDecodeError repr)
  | inr switcher_content =>
      let* missing_url := any_missing "url" switcher_content in
      let* missing_version := any_missing "version" switcher_content in
      when (missing_url || missing_version) (warn (WSwitcherMalformed url))
  end.

(** Lines 76-118: check the validity of the theme switcher file. *)
Definition check_switcher : M app unit :=
  let* opts := options in
  let is_dict := is_dict (get opts "switcher") in
  let should_test := get_or opts "check_switcher" (VBool true) in
  if is_dict && truthy should_test then
    match get opts "switcher" with
    | VDict theme_switcher =>
        let* json_url := getitem theme_switcher "json_url" in
        getitem theme_switcher "version_match" ;;
        let* url := url_of json_url in
        let* r := read_switcher url in
        match r with
        | inl reading_error => warn (WSwitcherUnreadable url reading_error)
        | inr content => validate_switcher_content url content
        end
    | _ => ret tt
    end
  else ret tt.

(** Lines 120-149: analytics. *)
Definition add_analytics : M app unit :=
  let* opts := options in
  let analytics := get_or opts "analytics" (VDict []) in
  when (truthy analytics)
    (match analytics with
     | VDict d =>
         let plausible_domain := dict_get d "plausible_analytics_domain" in
         let plausible_url := dict_get d "plausible_analytics_url" in
         when (truthy plausible_domain && truthy plausible_url)
           (modify (push_js (JsPlausible plausible_domain plausible_url))) ;;
         let gid := dict_get d "google_analytics_id" in
         when (truthy gid)
           (modify (push_js (JsGtagLoader gid)) ;;
            modify (push_js (JsGtagConfig gid)))
     | _ => raise AttributeError
     end).

(** Lines 151-154: ABlog. *)
Definition default_fontawesome_included : M app unit :=
  let* a := get_state in
  let fa_provided := config_provided_by_user w "fontawesome_included" in
  when (bool_decide ("ablog" ∈ extensions a) && negb fa_provided)
    (modify (set_fontawesome_included (VBool true))).

(** Lines 156-178: icon link shortcuts. *)
Definition add_icon_link_shortcuts : M app unit :=
  let* opts := options in
  match insert_shortcuts opts shortcuts (get_or opts "icon_links" (VList []))
  with
  | Some icon_links => set_option "icon_links" icon_links
  | None => raise AttributeError
  end.

(** Lines 180-187: the logo config dictionary. *)
Definition prepare_logo : M app unit :=
  let* opts := options in
  let theme_logo := get opts "logo" in
  let theme_logo := if truthy theme_logo then theme_logo else VDict [] in
  if negb (is_dict theme_logo) then
    raise (ValueError ("Incorrect logo config type: " +:+ type_repr theme_logo))
  else set_option "logo" theme_logo.

Definition update_config : M app unit :=
  deprecate_logo_text ;;
  deprecate_footer_items ;;
  deprecate_favicons ;;
  default_navigation_with_keys ;;
  validate_icon_links ;;
  default_permalinks_icon ;;
  check_switcher ;;
  add_analytics ;;
  default_fontawesome_included ;;
  add_icon_link_shortcuts ;;
  prepare_logo.

End UpdateConfig.

(** ** [update_and_remove_templates] *)

Definition __version__ : string := "0.14.2dev0".

(** The hook mutates the render [context] of the page and registers assets
    on the application. *)
Record page : Type := Page {
  context : gmap string value;
  page_app : app
}.

Definition set_context (f : gmap string value -> gmap string value)
  (p : page) : page :=
  Page (f (context p)) (page_app p).
Definition set_page_app (f : app -> app) (p : page) : page :=
  Page (context p) (f (page_app p)).

Definition the_context : M page (gmap string value) :=
  fun p => Return (context p) p.

(** [context[k] = v] *)
Definition set_entry (k : string) (v : value) : M page unit :=
  modify (set_context (<[k := v]>)).

Definition template_sections : list string :=
  [ "theme_navbar_start"; "theme_navbar_center"; "theme_navbar_persistent";
    "theme_navbar_end"; "theme_article_header_start";
    "theme_article_header_end"; "theme_article_footer_items";
    "theme_content_footer_items"; "theme_footer_start";
    "theme_footer_center"; "theme_footer_end";
    "theme_secondary_sidebar_items"; "theme_primary_sidebar_end";
    "sidebars" ].

Definition SKIP_EMPTY_TEMPLATE_CHECKS : list string :=
  [ "sidebar-nav-bs.html"; "navbar-nav.html" ].

Definition theme_css_name : string := "_static/styles/pydata-sphinx-theme.css".

(** [[ii.strip() for ii in s.split(",")]] *)
Definition split_entries (s : string) : list string :=
  strip <$> split "," s.

(** [l.remove(name)]: drop the first item equal to the string. *)
Fixpoint remove_first (name : string) (l : list value) : list value :=
  match l with
  | [] => []
  | x :: xs => if is_the_str name x then xs else x :: remove_first name xs
  end.

Section UpdateAndRemoveTemplates.

Variable w : world.

(** [context[section][ii] = v].  A dict that gains a key makes the
    iteration over it fail at its next step, before anything else runs. *)
Definition set_item (section : string) (ii : nat) (v : value)
  : M page unit :=
  let* ctx := the_context in
  match ctx !! section with
  | Some (VList l) => set_entry section (VList (<[ii := v]> l))
  | Some (VDict d) =>
      set_entry section (VDict (dict_set (KInt (Z.of_nat ii)) v d)) ;;
      if dict_mem (KInt (Z.of_nat ii)) d then ret tt else raise RuntimeError
  | Some _ => raise TypeError
  | None => raise (KeyError section)
  end.

(** Lines 219-222: add [.html] to templates with no suffix. *)
Fixpoint add_suffixes (section : string) (ii : nat) (items : list value)
  : M page unit :=
  match items with
  | [] => ret tt
  | VStr template :: rest =>
      when (String.eqb (splitext_ext w template) "")
        (set_item section ii (VStr (template +:+ ".html"))) ;;
      add_suffixes section (S ii) rest
  | _ :: _ => raise TypeError
  end.

(** Lines 225-234: [_remove_empty_templates(tname)]. *)
Definition _remove_empty_templates (tname : value) : M page bool :=
  match tname with
  | VStr tname =>
      if negb (existsb (endswith tname) SKIP_EMPTY_TEMPLATE_CHECKS) then
        let* ctx := the_context in
        match render w tname ctx with
        | inl repr => raise (TemplateError repr)
        | inr rendered =>
            if (String.length (strip rendered) =? 0)%nat then ret false
            else ret true
        end
      else ret true
  | _ => raise AttributeError
  end.

(** [list(filter(_remove_empty_templates, items))] *)
Fixpoint filter_templates (items : list value) : M page (list value) :=
  match items with
  | [] => ret []
  | x :: rest =>
      let* keep := _remove_empty_templates x in
      let* kept := filter_templates rest in
      ret (if keep then x :: kept else kept)
  end.

(** [iter(v)] inside the monad. *)
Definition iterate (v : value) : M page (list value) :=
  match py_iter v with
  | Some items => ret items
  | None => raise TypeError
  end.

(** Lines 212-236: the body of the loop over [template_sections]. *)
Definition update_section (section : string) : M page unit :=
  let* ctx := the_context in
  when (truthy (get ctx section))
    (match get ctx section with
     | VStr s => set_entry section (VList (VStr <$> split_entries s))
     | _ => ret tt
     end ;;
     let* ctx := the_context in
     let* items := iterate (get ctx section) in
     add_suffixes section 0 items ;;
     let* ctx := the_context in
     let* items := iterate (get ctx section) in
     let* kept := filter_templates items in
     set_entry section (VList kept)).

(** Lines 238-244: the duplicate entry of the theme CSS. *)
Definition remove_theme_css : M page unit :=
  let* ctx := the_context in
  match ctx !! "css_files" with
  | Some css_files =>
      match py_contains theme_css_name css_files with
      | None => raise TypeError
      | Some true =>
          match css_files with
          | VList l =>
              set_entry "css_files" (VList (remove_first theme_css_name l))
          | _ => raise AttributeError
          end
      | Some false => ret tt
      end
  | None => ret tt
  end.

(** Lines 247-257: one favicon link. *)
Definition add_favicon (favicon : value) : M page unit :=
  match favicon with
  | VDict d =>
      match dict_lookup (KStr "href") d with
      | None => raise (KeyError "href")
      | Some (VStr href) =>
          let icon_type := strip_char "." (path_suffix w href) in
          let opts :=
            [ ("rel", dict_get_or d "rel" (VStr "icon"));
              ("sizes", dict_get_or d "sizes" (VStr "16x16"));
              ("type", VStr ("image/" +:+ icon_type)) ] in
          let opts :=
            match dict_lookup (KStr "color") d with
            | Some color => opts ++ [("color", color)]
            | None => opts
            end in
          modify (set_page_app (push_css (CssCall href opts)))
      | Some _ => raise TypeError
      end
  | _ => raise TypeError
  end.

(** Lines 262-274: the variables of the version switcher. *)
Definition add_switcher_js : M page unit :=
  let* ctx := the_context in
  match get ctx "theme_switcher" with
  | VDict theme_switcher =>
      match dict_lookup (KStr "json_url") theme_switcher with
      | None => raise (KeyError "json_url")
      | Some json_url =>
          match dict_lookup (KStr "version_match") theme_switcher with
          | None => raise (KeyError "version_match")
          | Some version_match =>
              match ctx !! "theme_show_version_warning_banner" with
              | None => raise (KeyError "theme_show_version_warning_banner")
              | Some banner =>
                  modify (set_page_app
                            (push_js (JsSwitcher json_url version_match banner)))
              end
          end
      end
  | _ => ret tt
  end.

Definition update_and_remove_templates (pagename : string) : M page unit :=
  for_each template_sections update_section ;;
  remove_theme_css ;;
  (let* ctx := the_context in
   let* favicons := iterate (get_or ctx "theme_favicons" (VList [])) in
   for_each favicons add_favicon) ;;
  modify (set_page_app (push_js (JsPagename pagename))) ;;
  add_switcher_js ;;
  set_entry "theme_version" (VStr __version__).

End UpdateAndRemoveTemplates.

(** ** The phases of the hooks

    The statements below speak of the code before, at and after a given
    step; these are the corresponding pieces of the bodies of
    [update_config] and [update_and_remove_templates], and the states in
    which a step runs. *)

Definition before_switcher (w : world) : M app unit :=
  deprecate_logo_text ;;
  deprecate_footer_items ;;
  deprecate_favicons ;;
  default_navigation_with_keys ;;
  validate_icon_links ;;
  default_permalinks_icon w.

Definition after_switcher (w : world) : M app unit :=
  add_analytics ;;
  default_fontawesome_included w ;;
  add_icon_link_shortcuts ;;
  prepare_logo.

Definition before_shortcuts (w : world) : M app unit :=
  before_switcher w ;;
  check_switcher w ;;
  add_analytics ;;
  default_fontawesome_included w.

(** The steps between the shims and the final logo check. *)
Definition from_navigation (w : world) : M app unit :=
  default_navigation_with_keys ;;
  validate_icon_links ;;
  default_permalinks_icon w ;;
  check_switcher w ;;
  add_analytics ;;
  default_fontawesome_included w ;;
  add_icon_link_shortcuts.

(** Everything before the final logo check. *)
Definition before_logo (w : world) : M app unit :=
  deprecate_logo_text ;;
  deprecate_footer_items ;;
  deprecate_favicons ;;
  from_navigation w.

(** The state in which the [icon_links] check runs. *)
Definition deprecated (a : app) : app :=
  state_of (default_navigation_with_keys
    (state_of (deprecate_favicons
      (state_of (deprecate_footer_items
        (state_of (deprecate_logo_text a))))))).

(** The state in which the switcher check runs. *)
Definition at_switcher (w : world) (a : app) : app :=
  state_of (before_switcher w a).

(** What follows the loop over the template sections in the hook. *)
Definition after_sections (w : world) (pagename : string) : M page unit :=
  remove_theme_css ;;
  (let* ctx := the_context in
   let* favicons := iterate (get_or ctx "theme_favicons" (VList [])) in
   for_each favicons (add_favicon w)) ;;
  modify (set_page_app (push_js (JsPagename pagename))) ;;
  add_switcher_js ;;
  set_entry "theme_version" (VStr __version__).

(** What follows the removal of the theme CSS. *)
Definition after_css (w : world) (pagename : string) : M page unit :=
  (let* ctx := the_context in
   let* favicons := iterate (get_or ctx "theme_favicons" (VList [])) in
   for_each favicons (add_favicon w)) ;;
  modify (set_page_app (push_js (JsPagename pagename))) ;;
  add_switcher_js ;;
  set_entry "theme_version" (VStr __version__).

(** ** Observations on the final state *)

(** How often a warning was logged. *)
Definition emitted (x : warning) (a : app) : nat :=
  count_occ warning_eq_dec (log a) x.

Definition is_switcher_warning (x : warning) : bool :=
  match x with
  | WSwitcherUnreadable _ _ | WSwitcherMalformed _ => true
  | _ => false
  end.

(** The switcher warnings logged, oldest first. *)
Definition switcher_log (a : app) : list warning :=
  List.filter is_switcher_warning (log a).

(** ** Conditions on the options given to [update_config] *)

(** The [logo_text] shim runs through: [logo_text] is unset (falsy), or the
    [logo] option it writes into is absent or a dict. *)
Definition shim_ok (opts : gmap string value) : bool :=
  negb (truthy (get opts "logo_text"))
  || is_dict (get_or opts "logo" (VDict [])).

(** [icon_links] is absent or a list. *)
Definition icon_links_ok (opts : gmap string value) : bool :=
  is_list (get_or opts "icon_links" (VList [])).

(** The switcher is validated: it is a dict and [check_switcher] is truthy
    (or absent). *)
Definition switcher_checked (opts : gmap string value) : bool :=
  is_dict (get opts "switcher")
  && truthy (get_or opts "check_switcher" (VBool true)).

(** [analytics] is unset (falsy) or a dict. *)
Definition analytics_ok (opts : gmap string value) : bool :=
  negb (truthy (get_or opts "analytics" (VDict [])))
  || is_dict (get_or opts "analytics" (VDict [])).

(** [logo] is unset (falsy) or a dict. *)
Definition logo_ok (opts : gmap string value) : bool :=
  negb (truthy (get opts "logo")) || is_dict (get opts "logo").

(** The dict the [logo_text] shim writes into: the [logo] option, or a new
    empty dict when there is none. *)
Definition logo_dict (opts : gmap string value) : list (key * value) :=
  match get_or opts "logo" (VDict []) with VDict d => d | _ => [] end.

(** The [icon_links] the user gave: the list, or none. *)
Definition user_icon_links (opts : gmap string value) : list value :=
  match get_or opts "icon_links" (VList []) with VList l => l | _ => [] end.

(** The entries generated for the shortcuts that are set, in the order of
    [shortcuts]. *)
Definition shortcut_links (opts : gmap string value)
  (scs : list (string * string * string)) : list value :=
  flat_map (fun sc =>
              match sc with
              | (url, icon, name) =>
                  if truthy (get opts url)
                  then [shortcut_entry (get opts url) icon name]
                  else []
              end) scs.

(** The error of the [icon_links] check for the offending value [v]. *)
Definition icon_links_error (v : value) : exception :=
  ExtensionError
    ("`icon_links` must be a list of dictionaries, you provided type "
     +:+ type_repr v +:+ ".").

(** After the switcher check, only a malformed [analytics] option (or an
    [icon_links] that is no list) and a malformed [logo] can stop
    [update_config]. *)
Definition late_error (e : exception) : Prop :=
  e = AttributeError \/ exists msg, e = ValueError msg.

(** What C1 promises for [logo_text]: the text is found under [logo['text']]
    afterwards and exactly one [logo_text] warning was added. *)
Definition logo_text_rewritten (a s' : app) : Prop :=
  (exists d,
     theme_options s' !! "logo" = Some (VDict d)
     /\ dict_lookup (KStr "text") d = Some (get (theme_options a) "logo_text"))
  /\ emitted WLogoText s' = S (emitted WLogoText a).

(** ** The switcher file *)

(** [urlparse] accepts the url: it raises nothing on it. *)
Definition parses (w : world) (url : string) : bool :=
  match urlparse_scheme w url with inl _ => false | inr _ => true end.

(** The file is fetched over HTTP(S) rather than read from the source
    directory. *)
Definition uses_http (w : world) (url : string) : bool :=
  match urlparse_scheme w url with
  | inl _ => false
  | inr scheme => bool_decide (scheme ∈ ["http"; "https"])
  end.

(** The read that is attempted. *)
Definition the_read (w : world) (dir url : string) : io_event :=
  if uses_http w url then HttpGet url else ReadText dir url.


(** The file is retrieved with the given content: [urlparse] accepts the
    url and the read answers. *)
Definition retrieved (w : world) (dir url content : string) : Prop :=
  parses w url = true
  /\ if uses_http w url then requests_get w url = GetResponse None content
     else read_text w dir url = ReadContent content.



(** A value on which [in] raises: neither dict, list nor string. *)
Definition is_scalar (v : value) : bool :=
  match v with VNone | VBool _ | VInt _ => true | _ => false end.

(** The parsed content cannot be searched for the keys: it is not
    iterable, or one of its items is no container. *)
Definition unsearchable (content : value) : bool :=
  match py_iter content with
  | None => true
  | Some items => existsb is_scalar items
  end.

(** [name in v] holds, for a value it can be asked of. *)
Definition mentions (name : string) (v : value) : bool :=
  default false (py_contains name v).

(** An item of the switcher file passes the search for the two keys. *)
Definition passes (v : value) : bool :=
  mentions "url" v && mentions "version" v.


(** ** The entries of a template section *)

(** An entry with the default extension appended when it has none. *)
Definition suffixed (w : world) (t : string) : string :=
  if String.eqb (splitext_ext w t) "" then t +:+ ".html" else t.

(** The template is exempt from the check for empty templates. *)
Definition skipped (t : string) : bool :=
  existsb (endswith t) SKIP_EMPTY_TEMPLATE_CHECKS.

(** The template renders to nothing but white space. *)
Definition renders_empty (w : world) (ctx : gmap string value) (t : string)
  : bool :=
  match render w t ctx with
  | inr rendered => (String.length (strip rendered) =? 0)%nat
  | inl _ => false
  end.

(** The template engine raises on the template. *)
Definition render_fails (w : world) (ctx : gmap string value) (t : string)
  : bool :=
  match render w t ctx with inl _ => true | inr _ => false end.

(** The entry survives the removal of empty templates. *)
Definition kept (w : world) (ctx : gmap string value) (t : string) : bool :=
  skipped t || negb (renders_empty w ctx t).

(** The check of the template runs through: it is exempt, or it renders. *)
Definition renderable (w : world) (ctx : gmap string value) (t : string)
  : bool :=
  skipped t || negb (render_fails w ctx t).

(** ** Invariants and footprints

    The elementary changes a hook makes to the application, and what it
    means for a computation to make only changes of a given kind
    ([confined]), to raise only some exceptions ([raises_only]) and to
    leave an entry of the render context alone ([leaves]). *)

(** [I] holds of the state a computation leaves behind, whether it returns
    or raises, when it held before. *)
Definition preserves {St A} (I : St -> Prop) (m : M St A) : Prop :=
  forall s, I s -> I (state_of (m s)).

(** The elementary changes [update_config] makes to the application. *)
Inductive effect : Type :=
  | ESetOption (k : string) (v : value)
  | ELog (x : warning)
  | EJs (j : js_call)
  | ECss (c : css_call)
  | EIo (e : io_event)
  | EPermalinks (v : value)
  | EFontawesome (v : value).

Definition run_effect (e : effect) : app -> app :=
  match e with
  | ESetOption k v => set_theme_options (<[k := v]>)
  | ELog x => push_log x
  | EJs j => push_js j
  | ECss c => push_css c
  | EIo e => push_io e
  | EPermalinks v => set_html_permalinks_icon v
  | EFontawesome v => set_fontawesome_included v
  end.

(** [I] survives every change in the footprint [fp]. *)
Definition stable (I : app -> Prop) (fp : effect -> Prop) : Prop :=
  forall e s, fp e -> I s -> I (run_effect e s).

(** [m] makes only changes in [fp]: it preserves whatever those changes
    preserve. *)
Definition confined {A} (fp : effect -> Prop) (m : M app A) : Prop :=
  forall I, stable I fp -> preserves I m.

(** What a computation can raise. *)
Definition raises_only {St A} (P : exception -> Prop) (m : M St A) : Prop :=
  forall s e s', m s = Raise e s' -> P e.

(** [m] leaves the entry [k] of the render context as it is. *)
Definition leaves {A} (k : string) (m : M page A) : Prop :=
  forall o, preserves (fun p => context p !! k = o) m.

(** What each step of [update_config], and each run of steps used below,
    may change. *)
Definition fp_logo_text (e : effect) : Prop :=
  match e with
  | ESetOption k _ => k = "logo"
  | ELog x => x = WLogoText
  | _ => False
  end.

Definition fp_footer_items (e : effect) : Prop :=
  match e with
  | ESetOption k _ => k = "footer_start"
  | ELog x => x = WFooterItems
  | _ => False
  end.

Definition fp_favicons (e : effect) : Prop :=
  match e with ELog x => x = WFavicons | _ => False end.

Definition fp_navigation_with_keys (e : effect) : Prop :=
  match e with
  | ESetOption k _ => k = "navigation_with_keys"
  | ELog x => x = WNavigationWithKeys
  | _ => False
  end.

Definition fp_none (e : effect) : Prop := False.

Definition fp_permalinks (e : effect) : Prop :=
  match e with EPermalinks _ => True | _ => False end.

Definition fp_check_switcher (e : effect) : Prop :=
  match e with
  | ELog x => is_switcher_warning x = true
  | EIo _ => True
  | _ => False
  end.

Definition fp_analytics (e : effect) : Prop :=
  match e with EJs _ => True | _ => False end.

Definition fp_fontawesome (e : effect) : Prop :=
  match e with EFontawesome _ => True | _ => False end.

Definition fp_shortcuts (e : effect) : Prop :=
  match e with ESetOption k _ => k = "icon_links" | _ => False end.

Definition fp_logo (e : effect) : Prop :=
  match e with ESetOption k _ => k = "logo" | _ => False end.

Definition fp_before_switcher (e : effect) : Prop :=
  match e with
  | ESetOption k _ =>
      k = "logo" \/ k = "footer_start" \/ k = "navigation_with_keys"
  | ELog x => is_switcher_warning x = false
  | EPermalinks _ => True
  | _ => False
  end.

Definition fp_after_switcher (e : effect) : Prop :=
  match e with
  | ESetOption k _ => k = "icon_links" \/ k = "logo"
  | EJs _ | EFontawesome _ => True
  | _ => False
  end.

Definition fp_before_shortcuts (e : effect) : Prop :=
  match e with
  | ESetOption k _ =>
      k = "logo" \/ k = "footer_start" \/ k = "navigation_with_keys"
  | _ => True
  end.

Definition fp_from_navigation (e : effect) : Prop :=
  match e with
  | ESetOption k _ => k = "navigation_with_keys" \/ k = "icon_links"
  | ELog x => x = WNavigationWithKeys \/ is_switcher_warning x = true
  | _ => True
  end.

Definition fp_tail (e : effect) : Prop :=
  match e with
  | ESetOption k _ =>
      k = "navigation_with_keys" \/ k = "icon_links" \/ k = "logo"
  | ELog x => x = WNavigationWithKeys \/ is_switcher_warning x = true
  | _ => True
  end.

Definition fp_after_shim (e : effect) : Prop :=
  match e with
  | ESetOption k _ => k <> "logo"
  | _ => True
  end.

(** ** A reference world

    [os.path.splitext], [Path.suffix] and the scheme of [urlparse] as on a
    POSIX system, and oracles with fixed answers; used to run the hooks on
    concrete inputs. *)

Module Posix.

(** The final component of a path. *)
Definition basename (p : string) : string :=
  List.last (split "/" p) EmptyString.

(** [os.path.splitext(p)[1]]: from the last dot of the final component,
    unless only dots come before it. *)
Definition splitext_ext (p : string) : string :=
  match split "." (lstrip_char "." (basename p)) with
  | [] | [_] => EmptyString
  | parts => "." +:+ List.last parts EmptyString
  end.

(** The name of [Path(p)]: its last component, where empty components and
    the component [.] do not count. *)
Definition path_name (p : string) : string :=
  List.last
    (List.filter (fun x => negb (String.eqb x "") && negb (String.eqb x "."))
       (split "/" p))
    EmptyString.

(** [Path(p).suffix]: from the last dot of the name, unless the dot is its
    first or its last character. *)
Definition path_suffix (p : string) : string :=
  match path_name p with
  | EmptyString => EmptyString
  | String c rest =>
      match split "." rest with
      | [] | [_] => EmptyString
      | parts =>
          match List.last parts EmptyString with
          | EmptyString => EmptyString
          | ext => "." +:+ ext
          end
      end
  end.

Definition is_upper (a : ascii) : bool :=
  let n := nat_of_ascii a in ((65 <=? n) && (n <=? 90))%nat.

Definition is_alpha (a : ascii) : bool :=
  let n := nat_of_ascii a in
  is_upper a || ((97 <=? n) && (n <=? 122))%nat.

(** The characters of a scheme: letters, digits, [+], [-] and [.]. *)
Definition is_scheme_char (a : ascii) : bool :=
  let n := nat_of_ascii a in
  is_alpha a || ((48 <=? n) && (n <=? 57))%nat
  || Ascii.eqb a "+" || Ascii.eqb a "-" || Ascii.eqb a ".".

Fixpoint all_chars (f : ascii -> bool) (s : string) : bool :=
  match s with
  | EmptyString => true
  | String a s' => f a && all_chars f s'
  end.

Fixpoint has_char (c : ascii) (s : string) : bool :=
  match s with
  | EmptyString => false
  | String a s' => Ascii.eqb a c || has_char c s'
  end.

(** [s.lower()] on ASCII letters. *)
Fixpoint lower (s : string) : string :=
  match s with
  | EmptyString => EmptyString
  | String a s' =>
      String (if is_upper a then ascii_of_nat (nat_of_ascii a + 32) else a)
        (lower s')
  end.

(** The text before the first character that [stop] holds of, and the
    text from that character on. *)
Fixpoint break_at (stop : ascii -> bool) (s : string) : string * string :=
  match s with
  | EmptyString => (EmptyString, EmptyString)
  | String a s' =>
      if stop a then (EmptyString, s)
      else let '(before, rest) := break_at stop s' in (String a before, rest)
  end.

(** [url.lstrip(...)] of the C0 control characters and the space. *)
Fixpoint lstrip_c0 (s : string) : string :=
  match s with
  | EmptyString => EmptyString
  | String a s' => if (nat_of_ascii a <=? 32)%nat then lstrip_c0 s' else s
  end.

(** The tabs and line ends of a url are dropped. *)
Fixpoint drop_line_ends (s : string) : string :=
  match s with
  | EmptyString => EmptyString
  | String a s' =>
      let n := nat_of_ascii a in
      if ((n =? 9) || (n =? 10) || (n =? 13))%nat then drop_line_ends s'
      else String a (drop_line_ends s')
  end.

(** The scheme [urlsplit] takes off a url, and the rest of the url: the
    text before the first colon when it starts with a letter and consists
    of scheme characters, in lower case. *)
Definition split_scheme (url : string) : string * string :=
  match break_at (Ascii.eqb ":") url with
  | (String a before, String _ rest) =>
      if is_alpha a && all_chars is_scheme_char before
      then (lower (String a before), rest)
      else (EmptyString, url)
  | _ => (EmptyString, url)
  end.

(** The network location of what follows the scheme: the text between a
    leading [//] and the next [/], [?] or [#]. *)
Definition netloc (rest : string) : string :=
  match rest with
  | String "/" (String "/" after) =>
      fst (break_at (fun a => Ascii.eqb a "/" || Ascii.eqb a "?"
                              || Ascii.eqb a "#") after)
  | _ => EmptyString
  end.

(** [urlparse(url).scheme], as [urlsplit] computes it for a url of ASCII
    characters: the [ValueError] is the one of a network location with one
    square bracket and not the other.  A host in a pair of brackets is not
    checked for being an IP address. *)
Definition urlparse_scheme (url : string) : string + string :=
  let '(scheme, rest) := split_scheme (drop_line_ends (lstrip_c0 url)) in
  let loc := netloc rest in
  if xorb (has_char "[" loc) (has_char "]" loc)
  then inl "Invalid IPv6 URL"
  else inr scheme.

End Posix.

(** ** Example inputs *)

(** An application that has done nothing yet. *)
Definition fresh_app (opts : gmap string value) : app :=
  App opts VNone VNone [] "docs" [] [] [] [].

Definition fresh_page (ctx : gmap string value) : page :=
  Page ctx (fresh_app ∅).

(** A world without network and without files. *)
Definition offline : world :=
  World Posix.urlparse_scheme
    (fun _ => GetRaises ReqConnectionError "ConnectionError()")
    (fun _ _ => ReadRaises true "FileNotFoundError()")
    (fun _ => inl "JSONDecodeError()")
    (fun _ => false)
    Posix.splitext_ext
    Posix.path_suffix
    (fun tname _ => inr tname).

(** A world that serves one switcher file, over HTTP and from disk. *)
Definition serving (text : string) (parsed : value) : world :=
  World Posix.urlparse_scheme
    (fun _ => GetResponse None text)
    (fun _ _ => ReadContent text)
    (fun _ => inr parsed)
    (fun _ => false)
    Posix.splitext_ext
    Posix.path_suffix
    (fun tname _ => inr tname).

(** A world in which the template [empty.html] renders to white space. *)
Definition with_empty_template : world :=
  World Posix.urlparse_scheme
    (fun _ => GetRaises ReqConnectionError "ConnectionError()")
    (fun _ _ => ReadRaises true "FileNotFoundError()")
    (fun _ => inl "JSONDecodeError()")
    (fun _ => false)
    Posix.splitext_ext
    Posix.path_suffix
    (fun tname _ =>
       if String.eqb tname "empty.html" then inr "  " else inr tname).

Definition icon_links_as_text : app :=
  fresh_app {[ "icon_links" := VStr "github" ]}.

Definition all_deprecated : app :=
  fresh_app {[ "logo_text" := VStr "Docs";
               "logo" := VDict [(KStr "image_light", VStr "logo.png")];
               "footer_items" := VList [VStr "copyright"];
               "favicons" := VList [VDict [(KStr "href", VStr "icon.png")]] ]}.

Definition logo_as_path : app :=
  fresh_app {[ "logo_text" := VStr "Docs"; "logo" := VStr "logo.png" ]}.

Definition switcher_without_version_match : app :=
  fresh_app {[ "switcher" :=
                 VDict [(KStr "json_url", VStr "https://example.org/switcher.json")] ]}.

Definition unchecked_switcher : app :=
  fresh_app {[ "switcher" :=
                 VDict [(KStr "json_url", VStr "https://example.org/switcher.json")];
               "check_switcher" := VBool false ]}.

Definition empty_switcher : app := fresh_app {[ "switcher" := VDict [] ]}.

Definition with_switcher (json_url : string) : app :=
  fresh_app {[ "switcher" :=
                 VDict [(KStr "json_url", VStr json_url);
                        (KStr "version_match", VStr "0.14")] ]}.



Definition manifest_with_number : value :=
  VList [ VDict [(KStr "version", VStr "0.14"); (KStr "url", VStr "/0.14/")];
          VInt 7 ].

Definition with_shortcuts : app :=
  fresh_app {[ "twitter_url" := VStr "https://twitter.com/pydata";
               "github_url" := VStr "https://github.com/pydata";
               "gitlab_url" := VStr "";
               "icon_links" :=
                 VList [VDict [(KStr "name", VStr "PyPI");
                               (KStr "url", VStr "https://pypi.org")]] ]}.

Definition empty_logo : app := fresh_app {[ "logo" := VStr "" ]}.

Definition path_logo : app := fresh_app {[ "logo" := VStr "logo.png" ]}.

Definition only_logo_text : app := fresh_app {[ "logo_text" := VStr "Docs" ]}.

Definition navbar_page : page :=
  fresh_page {[ "theme_navbar_start" :=
                  VStr "navbar-logo, version-switcher.html ,navbar-nav" ]}.

Definition footer_page : page :=
  fresh_page {[ "theme_footer_start" := VStr "copyright, empty" ]}.

Definition css_page : page :=
  fresh_page {[ "css_files" :=
                  VList [ VStr "_static/pygments.css"; VStr theme_css_name;
                          VStr "_static/custom.css"; VStr theme_css_name ] ]}.

(** ** Bounds on what [update_config] does *)

(** The options [update_config] assigns. *)
Definition assigned_options : list string :=
  [ "logo"; "footer_start"; "navigation_with_keys"; "icon_links" ].

Definition fp_update_config (e : effect) : Prop :=
  match e with
  | ESetOption k _ => k ∈ assigned_options
  | _ => True
  end.

(** The exceptions [update_config] can end with. *)
Definition may_raise (e : exception) : bool :=
  match e with
  | TypeError | AttributeError => true
  | ExtensionError _ | ValueError _ | JSONDecodeError _ => true
  | KeyError k => bool_decide (k ∈ ["json_url"; "version_match"])
  | RequestsError c _ => negb (caught c)
  | ReadError file_not_found _ => negb file_not_found
  | RuntimeError | TemplateError _ => false
  end.

(** The read of the switcher file is attempted and ends in an error that is
    not caught. *)
Definition read_crashes (w : world) (dir url : string) (e : exception)
  : Prop :=
  parses w url = true
  /\ if uses_http w url then
       exists c repr, requests_get w url = GetRaises c repr
                      /\ caught c = false /\ e = RequestsError c repr
     else
       exists repr, read_text w dir url = ReadRaises false repr
                    /\ e = ReadError false repr.

(** A computation raises a count on the application by at most [n],
    whether it returns or raises. *)
Definition adds_at_most {A} (count : app -> nat) (n : nat) (m : M app A)
  : Prop :=
  forall s, (count (state_of (m s)) <= count s + n)%nat.

(** [update_config] gets to the read of the switcher file at [url]: the
    steps before the switcher check pass, the switcher is validated, has its
    two keys, and its [json_url] is the string [url]. *)
Definition reads_switcher (a : app) (url : string) : Prop :=
  shim_ok (theme_options a) = true
  /\ icon_links_ok (theme_options a) = true
  /\ truthy (get_or (theme_options a) "check_switcher" (VBool true)) = true
  /\ exists d vm,
       theme_options a !! "switcher" = Some (VDict d)
       /\ dict_lookup (KStr "json_url") d = Some (VStr url)
       /\ dict_lookup (KStr "version_match") d = Some vm.

(** A world whose requests time out. *)
Definition timing_out : world :=
  World Posix.urlparse_scheme
    (fun _ => GetRaises ReqOther "ReadTimeout()")
    (fun _ _ => ReadRaises false "IsADirectoryError()")
    (fun _ => inl "JSONDecodeError()")
    (fun _ => false)
    Posix.splitext_ext
    Posix.path_suffix
    (fun tname _ => inr tname).

(** A world that serves a switcher file that is no JSON. *)
Definition serving_text (text : string) : world :=
  World Posix.urlparse_scheme
    (fun _ => GetResponse None text)
    (fun _ _ => ReadContent text)
    (fun _ => inl "JSONDecodeError('Expecting value: line 1 column 1 (char 0)')")
    (fun _ => false)
    Posix.splitext_ext
    Posix.path_suffix
    (fun tname _ => inr tname).

(** The steps of [update_config] before the analytics, and before the
    default of [fontawesome_included]. *)
Definition before_analytics (w : world) : M app unit :=
  before_switcher w ;; check_switcher w.

Definition before_fontawesome (w : world) : M app unit :=
  before_switcher w ;; check_switcher w ;; add_analytics.

(** The scripts registered for an [analytics] option, in their order. *)
Definition analytics_js (analytics : value) : list js_call :=
  match analytics with
  | VDict d =>
      (if truthy (dict_get d "plausible_analytics_domain")
          && truthy (dict_get d "plausible_analytics_url")
       then [JsPlausible (dict_get d "plausible_analytics_domain")
               (dict_get d "plausible_analytics_url")]
       else [])
      ++ (if truthy (dict_get d "google_analytics_id")
          then [JsGtagLoader (dict_get d "google_analytics_id");
                JsGtagConfig (dict_get d "google_analytics_id")]
          else [])
  | _ => []
  end.

Definition fp_after_navigation (e : effect) : Prop :=
  match e with
  | ESetOption k _ => k = "icon_links" \/ k = "logo"
  | ELog x => is_switcher_warning x = true
  | _ => True
  end.

Definition fp_after_permalinks (e : effect) : Prop :=
  match e with EPermalinks _ => False | _ => True end.

Definition fp_no_script (e : effect) : Prop :=
  match e with EJs _ => False | _ => True end.

Definition fp_no_fontawesome (e : effect) : Prop :=
  match e with EFontawesome _ => False | _ => True end.

Definition with_analytics : app :=
  fresh_app {[ "analytics" :=
                 VDict [(KStr "google_analytics_id", VStr "G-XXXX");
                        (KStr "plausible_analytics_domain", VStr "example.org")] ]}.

Definition analytics_as_text : app :=
  fresh_app {[ "analytics" := VStr "G-XXXX" ]}.

Definition with_logo_images : app :=
  fresh_app {[ "logo" := VDict [(KStr "image_light", VStr "logo.png")] ]}.

(** ** The footprint of [update_and_remove_templates] *)

(** The elementary changes [update_and_remove_templates] makes. *)
Inductive page_effect : Type :=
  | PSetEntry (k : string) (v : value)
  | PJs (j : js_call)
  | PCss (c : css_call).

Definition run_page_effect (e : page_effect) : page -> page :=
  match e with
  | PSetEntry k v => set_context (<[k := v]>)
  | PJs j => set_page_app (push_js j)
  | PCss c => set_page_app (push_css c)
  end.

(** [m] makes only changes in [fp] to the page. *)
Definition page_confined {A} (fp : page_effect -> Prop) (m : M page A)
  : Prop :=
  forall I, (forall e p, fp e -> I p -> I (run_page_effect e p)) ->
            preserves I m.

(** The hook as a whole: it writes entries of the context and registers
    scripts and stylesheet links. *)
Definition fp_hook (e : page_effect) : Prop := True.

Definition fp_entries (e : page_effect) : Prop :=
  match e with PSetEntry _ _ => True | _ => False end.

Definition fp_entries_and_links (e : page_effect) : Prop :=
  match e with PJs _ => False | _ => True end.

Definition fp_entries_and_scripts (e : page_effect) : Prop :=
  match e with PCss _ => False | _ => True end.

(** The steps of the hook before the script with the page name. *)
Definition before_pagename (w : world) : M page unit :=
  for_each template_sections (update_section w) ;;
  remove_theme_css ;;
  (let* ctx := the_context in
   let* favicons := iterate (get_or ctx "theme_favicons" (VList [])) in
   for_each favicons (add_favicon w)).

(** The steps of the hook before the favicons. *)
Definition before_favicons (w : world) : M page unit :=
  for_each template_sections (update_section w) ;;
  remove_theme_css.

(** The script of the version switcher for a context, if it has a
    switcher with its two keys and the banner setting. *)
Definition switcher_script (ctx : gmap string value) : list js_call :=
  match get ctx "theme_switcher" with
  | VDict theme_switcher =>
      match dict_lookup (KStr "json_url") theme_switcher,
            dict_lookup (KStr "version_match") theme_switcher,
            ctx !! "theme_show_version_warning_banner" with
      | Some json_url, Some version_match, Some banner =>
          [JsSwitcher json_url version_match banner]
      | _, _, _ => []
      end
  | _ => []
  end.

(** The stylesheet link of a favicon: [None] for a favicon that is no dict
    or whose [href] is missing or no string. *)
Definition favicon_link (w : world) (favicon : value) : option css_call :=
  match favicon with
  | VDict d =>
      match dict_lookup (KStr "href") d with
      | Some (VStr href) =>
          Some (CssCall href
                  ([ ("rel", dict_get_or d "rel" (VStr "icon"));
                     ("sizes", dict_get_or d "sizes" (VStr "16x16"));
                     ("type",
                      VStr ("image/" +:+ strip_char "." (path_suffix w href))) ]
                   ++ match dict_lookup (KStr "color") d with
                      | Some color => [("color", color)]
                      | None => []
                      end))
      | _ => None
      end
  | _ => None
  end.

(** A string that is empty or starts with a character that is no white
    space. *)
Definition starts_clean (s : string) : Prop :=
  match s with EmptyString => True | String a _ => is_space a = false end.

(** The number of commas in a string. *)
Fixpoint commas (s : string) : nat :=
  match s with
  | EmptyString => 0
  | String a s' => (if Ascii.eqb a "," then 1 else 0) + commas s'
  end.

Definition sidebar_page : page :=
  fresh_page {[ "sidebars" := VList [VStr "sidebar-nav-bs"; VStr "search-field.html"];
                "theme_footer_start" := VStr "";
                "title" := VStr "Install" ]}.

Definition switcher_page : page :=
  fresh_page {[ "theme_switcher" :=
                  VDict [(KStr "json_url", VStr "/_static/switcher.json");
                         (KStr "version_match", VStr "0.14")];
                "theme_show_version_warning_banner" := VBool false;
                "theme_favicons" :=
                  VList [VDict [(KStr "href", VStr "favicon.svg")];
                         VDict [(KStr "href", VStr "apple.png");
                                (KStr "rel", VStr "apple-touch-icon");
                                (KStr "sizes", VStr "180x180")]] ]}.

(** * Reasoning about the hooks *)

(** ** The monad *)

Section MonadFacts.

Context {St : Type}.

Lemma bind_return {A B} (m : M St A) (f : A -> M St B) s a s' :
  m s = Return a s' -> bind m f s = f a s'.
Proof. unfold bind. by intros ->. Qed.

Lemma bind_raise {A B} (m : M St A) (f : A -> M St B) s e s' :
  m s = Raise e s' -> bind m f s = Raise e s'.
Proof. unfold bind. by intros ->. Qed.

Lemma bind_assoc {A B C} (m : M St A) (f : A -> M St B) (g : B -> M St C) s :
  bind (bind m f) g s = bind m (fun x => bind (f x) g) s.
Proof. unfold bind. by destruct (m s). Qed.

Lemma unit_run (m : M St unit) s :
  returns (m s) = true -> m s = Return tt (state_of (m s)).
Proof. by destruct (m s) as [[] ?|]. Qed.

Lemma preserves_ret {A} (I : St -> Prop) (a : A) : preserves I (ret a).
Proof. by intros s. Qed.

Lemma preserves_raise {A} (I : St -> Prop) e : preserves I (@raise St A e).
Proof. by intros s. Qed.

Lemma preserves_get_state (I : St -> Prop) : preserves I get_state.
Proof. by intros s. Qed.

Lemma preserves_modify (I : St -> Prop) f :
  (forall s, I s -> I (f s)) -> preserves I (modify f).
Proof. intros H s. apply H. Qed.

Lemma preserves_bind {A B} (I : St -> Prop) (m : M St A) (f : A -> M St B) :
  preserves I m -> (forall a, preserves I (f a)) -> preserves I (bind m f).
Proof.
  intros Hm Hf s Hs. unfold bind.
  specialize (Hm s Hs). destruct (m s) as [a s'|e s']; simpl in *.
  - by apply Hf.
  - done.
Qed.

Lemma preserves_when (I : St -> Prop) b (m : M St unit) :
  preserves I m -> preserves I (when b m).
Proof. destruct b; [done | intros _; apply preserves_ret]. Qed.

Lemma preserves_for_each {A} (I : St -> Prop) (xs : list A) (body : A -> M St unit) :
  (forall x, preserves I (body x)) -> preserves I (for_each xs body).
Proof.
  intros H. induction xs as [|x xs IH]; simpl.
  - apply preserves_ret.
  - apply preserves_bind; [apply H | by intros _].
Qed.

End MonadFacts.

(** ** Footprints *)

Section Confined.

Variable fp : effect -> Prop.

Lemma confined_ret {A} (a : A) : confined fp (ret a).
Proof. intros I _. apply preserves_ret. Qed.

Lemma confined_raise {A} e : confined fp (@raise app A e).
Proof. intros I _. apply preserves_raise. Qed.

Lemma confined_get_state : confined fp get_state.
Proof. intros I _. apply preserves_get_state. Qed.

Lemma confined_options : confined fp options.
Proof. by intros I _ s. Qed.

Lemma confined_effect e : fp e -> confined fp (modify (run_effect e)).
Proof. intros He I HI. apply preserves_modify. intros s. by apply HI. Qed.

Lemma confined_set_option k v :
  fp (ESetOption k v) -> confined fp (set_option k v).
Proof. apply (confined_effect (ESetOption k v)). Qed.

Lemma confined_warn x : fp (ELog x) -> confined fp (warn x).
Proof. apply (confined_effect (ELog x)). Qed.

Lemma confined_bind {A B} (m : M app A) (f : A -> M app B) :
  confined fp m -> (forall a, confined fp (f a)) -> confined fp (bind m f).
Proof.
  intros Hm Hf I HI. apply preserves_bind; [by apply Hm|].
  intros a. by apply Hf.
Qed.

Lemma confined_when b (m : M app unit) :
  confined fp m -> confined fp (when b m).
Proof. intros Hm I HI. apply preserves_when. by apply Hm. Qed.

End Confined.

Lemma confined_mono {A} (fp fp' : effect -> Prop) (m : M app A) :
  (forall e, fp e -> fp' e) -> confined fp m -> confined fp' m.
Proof.
  intros Hsub Hm I HI. apply Hm. intros e s He. apply HI. by apply Hsub.
Qed.

(** Break a computation down to its elementary changes. *)
Ltac confine :=
  repeat first
    [ apply confined_ret
    | apply confined_raise
    | apply confined_get_state
    | apply confined_options
    | apply confined_set_option
    | apply confined_warn
    | apply confined_when
    | apply confined_bind; [| intros ?]
    | match goal with
      | |- confined _ (modify (push_js ?j)) =>
          apply (confined_effect _ (EJs j))
      | |- confined _ (modify (push_io ?e)) =>
          apply (confined_effect _ (EIo e))
      | |- confined _ (modify (set_html_permalinks_icon ?v)) =>
          apply (confined_effect _ (EPermalinks v))
      | |- confined _ (modify (set_fontawesome_included ?v)) =>
          apply (confined_effect _ (EFontawesome v))
      | |- confined _ (match ?x with _ => _ end) => destruct x
      | |- confined _ (if ?x then _ else _) => destruct x
      end ].

(** Each step of [update_config] keeps to its footprint. *)

Lemma deprecate_logo_text_confined : confined fp_logo_text deprecate_logo_text.
Proof. unfold deprecate_logo_text. confine; by simpl. Qed.

Lemma deprecate_footer_items_confined :
  confined fp_footer_items deprecate_footer_items.
Proof. unfold deprecate_footer_items. confine; by simpl. Qed.

Lemma deprecate_favicons_confined : confined fp_favicons deprecate_favicons.
Proof. unfold deprecate_favicons. confine; by simpl. Qed.

Lemma default_navigation_with_keys_confined :
  confined fp_navigation_with_keys default_navigation_with_keys.
Proof. unfold default_navigation_with_keys. confine; by simpl. Qed.

Lemma validate_icon_links_confined : confined fp_none validate_icon_links.
Proof. unfold validate_icon_links. confine. Qed.

Lemma default_permalinks_icon_confined w :
  confined fp_permalinks (default_permalinks_icon w).
Proof. unfold default_permalinks_icon. confine; by simpl. Qed.

Lemma check_switcher_confined w : confined fp_check_switcher (check_switcher w).
Proof.
  unfold check_switcher, getitem, url_of, read_switcher,
    validate_switcher_content, any_missing.
  confine; by simpl.
Qed.

Lemma add_analytics_confined : confined fp_analytics add_analytics.
Proof. unfold add_analytics. confine; by simpl. Qed.

Lemma default_fontawesome_included_confined w :
  confined fp_fontawesome (default_fontawesome_included w).
Proof. unfold default_fontawesome_included. confine; by simpl. Qed.

Lemma add_icon_link_shortcuts_confined :
  confined fp_shortcuts add_icon_link_shortcuts.
Proof. unfold add_icon_link_shortcuts. confine; by simpl. Qed.

Lemma prepare_logo_confined : confined fp_logo prepare_logo.
Proof. unfold prepare_logo. confine; by simpl. Qed.

Create HintDb footprint.
#[export] Hint Resolve deprecate_logo_text_confined
  deprecate_footer_items_confined deprecate_favicons_confined
  default_navigation_with_keys_confined validate_icon_links_confined
  default_permalinks_icon_confined check_switcher_confined
  add_analytics_confined default_fontawesome_included_confined
  add_icon_link_shortcuts_confined prepare_logo_confined : footprint.

(** ** Frame lemmas: what a confined computation leaves alone *)

Section Frames.

Context {A : Type} (m : M app A) (fp : effect -> Prop).
Hypothesis Hm : confined fp m.

Lemma lookup_frame k s :
  (forall v, ~ fp (ESetOption k v)) ->
  theme_options (state_of (m s)) !! k = theme_options s !! k.
Proof.
  intros Hk.
  apply (Hm (fun s' => theme_options s' !! k = theme_options s !! k));
    [|done].
  intros [k' v| | | | | |] s' He Hs'; simpl; try done.
  rewrite lookup_insert_ne; [done|]. intros ->. by apply (Hk v).
Qed.

Lemma get_frame k s :
  (forall v, ~ fp (ESetOption k v)) ->
  get (theme_options (state_of (m s))) k = get (theme_options s) k.
Proof. intros Hk. unfold get. by rewrite lookup_frame. Qed.

Lemma get_or_frame k d s :
  (forall v, ~ fp (ESetOption k v)) ->
  get_or (theme_options (state_of (m s))) k d = get_or (theme_options s) k d.
Proof. intros Hk. unfold get_or. by rewrite lookup_frame. Qed.

Lemma emitted_frame x s :
  ~ fp (ELog x) -> emitted x (state_of (m s)) = emitted x s.
Proof.
  intros Hx.
  apply (Hm (fun s' => emitted x s' = emitted x s)); [|done].
  intros [|x'| | | | |] s' He Hs'; simpl; try done.
  unfold emitted in *. simpl. rewrite count_occ_app. simpl.
  destruct (warning_eq_dec x' x) as [->|]; [done|lia].
Qed.

Lemma switcher_log_frame s :
  (forall x, fp (ELog x) -> is_switcher_warning x = false) ->
  switcher_log (state_of (m s)) = switcher_log s.
Proof.
  intros Hx.
  apply (Hm (fun s' => switcher_log s' = switcher_log s)); [|done].
  intros [|x'| | | | |] s' He Hs'; simpl; try done.
  unfold switcher_log in *. simpl. rewrite List.filter_app. simpl.
  rewrite (Hx x' He). by rewrite app_nil_r.
Qed.

Lemma io_frame s :
  (forall e, ~ fp (EIo e)) -> io (state_of (m s)) = io s.
Proof.
  intros Hio.
  apply (Hm (fun s' => io s' = io s)); [|done].
  intros [| | | |e| |] s' He Hs'; simpl; try done.
  by destruct (Hio e).
Qed.

Lemma srcdir_frame s : srcdir (state_of (m s)) = srcdir s.
Proof.
  apply (Hm (fun s' => srcdir s' = srcdir s)); [|done].
  by intros [] s' He Hs'.
Qed.

End Frames.

(** ** Running [update_config] step by step *)

Lemma seq_returns {St B} (m : M St unit) (k : M St B) s :
  returns (m s) = true -> (m ;; k) s = k (state_of (m s)).
Proof. intros H. unfold bind. by destruct (m s) as [[] ?|]. Qed.

Lemma deprecate_logo_text_returns a :
  shim_ok (theme_options a) = true -> returns (deprecate_logo_text a) = true.
Proof.
  unfold shim_ok, deprecate_logo_text, options, bind, when. simpl.
  destruct (truthy (get (theme_options a) "logo_text")); simpl; [|done].
  by destruct (get_or (theme_options a) "logo" (VDict [])).
Qed.

Lemma deprecate_logo_text_raises a :
  shim_ok (theme_options a) = false ->
  deprecate_logo_text a = Raise TypeError a.
Proof.
  unfold shim_ok, deprecate_logo_text, options, bind, when. simpl.
  destruct (truthy (get (theme_options a) "logo_text")); simpl; [|done].
  by destruct (get_or (theme_options a) "logo" (VDict [])).
Qed.

Lemma deprecate_footer_items_returns a :
  returns (deprecate_footer_items a) = true.
Proof.
  unfold deprecate_footer_items, options, bind, when. simpl.
  by destruct (truthy (get (theme_options a) "footer_items")).
Qed.

Lemma deprecate_favicons_returns a : returns (deprecate_favicons a) = true.
Proof.
  unfold deprecate_favicons, options, bind, when. simpl.
  by destruct (truthy (get (theme_options a) "favicons")).
Qed.

Lemma default_navigation_with_keys_returns a :
  returns (default_navigation_with_keys a) = true.
Proof.
  unfold default_navigation_with_keys, options, bind. simpl.
  by destruct (get_or (theme_options a) "navigation_with_keys" VNone).
Qed.

Lemma validate_icon_links_run a :
  validate_icon_links a =
    if icon_links_ok (theme_options a) then Return tt a
    else Raise (icon_links_error (get (theme_options a) "icon_links")) a.
Proof.
  unfold validate_icon_links, icon_links_ok, options, bind. simpl.
  by destruct (is_list (get_or (theme_options a) "icon_links" (VList []))).
Qed.

Lemma default_permalinks_icon_returns w a :
  returns (default_permalinks_icon w a) = true.
Proof.
  unfold default_permalinks_icon, when.
  by destruct (negb (config_provided_by_user w "html_permalinks_icon")).
Qed.

Lemma default_fontawesome_included_returns w a :
  returns (default_fontawesome_included w a) = true.
Proof.
  unfold default_fontawesome_included, bind, get_state, when.
  by destruct (_ && _).
Qed.

(** Side conditions of the frame lemmas: a key or a warning outside a
    footprint. *)
Ltac outside :=
  solve [ eauto with footprint
        | simpl; intros; intuition (try discriminate; congruence) ].

(** Rewrite the options, the log and the other fields of the state a
    confined step leaves behind into those of the state before it. *)
Ltac frames :=
  repeat first
    [ erewrite lookup_frame by outside
    | erewrite get_frame by outside
    | erewrite get_or_frame by outside
    | erewrite emitted_frame by outside
    | erewrite switcher_log_frame by outside
    | erewrite io_frame by outside
    | erewrite srcdir_frame by outside ].

Lemma update_config_deprecated w a :
  shim_ok (theme_options a) = true ->
  update_config w a =
    (validate_icon_links ;; default_permalinks_icon w ;; check_switcher w ;;
     after_switcher w) (deprecated a).
Proof.
  intros Hshim. unfold update_config.
  rewrite seq_returns by by apply deprecate_logo_text_returns.
  rewrite seq_returns by apply deprecate_footer_items_returns.
  rewrite seq_returns by apply deprecate_favicons_returns.
  rewrite seq_returns by apply default_navigation_with_keys_returns.
  done.
Qed.

(** ** The [icon_links] check *)

Lemma update_config_raises_early w a :
  shim_ok (theme_options a) = false -> update_config w a = Raise TypeError a.
Proof.
  intros Hshim. unfold update_config.
  by rewrite (bind_raise _ _ _ _ _ (deprecate_logo_text_raises a Hshim)).
Qed.

Lemma icon_links_deprecated a :
  theme_options (deprecated a) !! "icon_links" = theme_options a !! "icon_links".
Proof. unfold deprecated. by frames. Qed.

(** C5: an [icon_links] option that is present and is not a list makes
    [update_config] fail: it never returns, and once the deprecation shims
    before the check have run through it raises the [ExtensionError] whose
    message ends in the type of the offending value. *)
Theorem icon_links_not_a_list_raises w a v :
  theme_options a !! "icon_links" = Some v ->
  is_list v = false ->
  returns (update_config w a) = false
  /\ (shim_ok (theme_options a) = true ->
      update_config w a =
        Raise (ExtensionError
                 ("`icon_links` must be a list of dictionaries, you provided type "
                  +:+ type_repr v +:+ "."))
              (deprecated a)).
Proof.
  intros Hv Hlist.
  assert (shim_ok (theme_options a) = true ->
          update_config w a = Raise (icon_links_error v) (deprecated a)) as H.
  { intros Hshim. rewrite update_config_deprecated by done.
    unfold bind at 1. rewrite validate_icon_links_run.
    unfold icon_links_ok, get_or, get. rewrite icon_links_deprecated, Hv.
    simpl. by rewrite Hlist. }
  split; [|exact H].
  destruct (shim_ok (theme_options a)) eqn:Hshim.
  - by rewrite H.
  - by rewrite update_config_raises_early.
Qed.

Lemma icon_links_not_a_list_raises_witness :
  returns (update_config offline icon_links_as_text) = false
  /\ update_config offline icon_links_as_text =
       Raise (ExtensionError
                "`icon_links` must be a list of dictionaries, you provided type <class 'str'>.")
             (deprecated icon_links_as_text).
Proof.
  pose proof (icon_links_not_a_list_raises offline icon_links_as_text
                (VStr "github") eq_refl eq_refl) as [H1 H2].
  split; [exact H1 | apply H2; reflexivity].
Defined.

(** ** The deprecation shims *)

(** Regroup a sequence of steps: both sides run the same steps in the same
    order. *)
Ltac regroup :=
  unfold bind;
  repeat match goal with
         | |- context [match ?m ?s with Return _ _ => _ | Raise _ _ => _ end] =>
             destruct (m s) as [[] ?|? ?]
         end;
  reflexivity.

Lemma update_config_from_navigation w a :
  update_config w a =
    (deprecate_logo_text ;; deprecate_footer_items ;; deprecate_favicons ;;
     (from_navigation w ;; prepare_logo)) a.
Proof. unfold update_config, from_navigation. regroup. Qed.

Lemma from_navigation_confined w :
  confined fp_from_navigation (from_navigation w).
Proof.
  unfold from_navigation.
  repeat (apply confined_bind; [| intros _]);
    (eapply confined_mono; [| eauto with footprint]);
    intros []; unfold fp_none; simpl; intros; subst; auto; try done.
Qed.

#[export] Hint Resolve from_navigation_confined : footprint.

Lemma state_of_seq {St B} (m : M St unit) (k : M St B) s :
  state_of ((m ;; k) s) =
    if returns (m s) then state_of (k (state_of (m s))) else state_of (m s).
Proof. unfold bind. by destruct (m s) as [[] ?|]. Qed.

Lemma deprecate_logo_text_run a :
  shim_ok (theme_options a) = true ->
  deprecate_logo_text a =
    Return tt
      (if truthy (get (theme_options a) "logo_text") then
         push_log WLogoText
           (set_theme_options
              (<["logo" := VDict (dict_set (KStr "text")
                                    (get (theme_options a) "logo_text")
                                    (logo_dict (theme_options a)))]>) a)
       else a).
Proof.
  unfold shim_ok, deprecate_logo_text, logo_dict, options, bind, when. simpl.
  destruct (truthy (get (theme_options a) "logo_text")); simpl; [|done].
  by destruct (get_or (theme_options a) "logo" (VDict [])).
Qed.

Lemma deprecate_footer_items_run a :
  deprecate_footer_items a =
    Return tt
      (if truthy (get (theme_options a) "footer_items") then
         push_log WFooterItems
           (set_theme_options
              (<["footer_start" := get (theme_options a) "footer_items"]>) a)
       else a).
Proof.
  unfold deprecate_footer_items, options, bind, when. simpl.
  by destruct (truthy (get (theme_options a) "footer_items")).
Qed.

Lemma deprecate_favicons_run a :
  deprecate_favicons a =
    Return tt
      (if truthy (get (theme_options a) "favicons") then push_log WFavicons a
       else a).
Proof.
  unfold deprecate_favicons, options, bind, when. simpl.
  by destruct (truthy (get (theme_options a) "favicons")).
Qed.

Lemma dict_lookup_set k v d : dict_lookup k (dict_set k v d) = Some v.
Proof.
  induction d as [|[k' v'] d IH]; simpl.
  - by rewrite decide_True.
  - destruct (decide (k' = k)) as [->|Hne]; simpl.
    + by rewrite decide_True.
    + by rewrite decide_False.
Qed.

Lemma dict_lookup_set_ne k k' v d :
  k <> k' -> dict_lookup k' (dict_set k v d) = dict_lookup k' d.
Proof.
  intros Hne. induction d as [|[k0 v0] d IH]; simpl.
  - by rewrite decide_False.
  - destruct (decide (k0 = k)) as [->|Hne0]; simpl.
    + by rewrite !decide_False.
    + by rewrite IH.
Qed.

Lemma dict_set_truthy k v d : truthy (VDict (dict_set k v d)) = true.
Proof. destruct d as [|[k' v'] d]; simpl; [done|]. by destruct (decide _). Qed.

(** The final logo check keeps a non-empty dict as it is. *)
Lemma prepare_logo_keeps_dict s d :
  theme_options s !! "logo" = Some (VDict d) ->
  truthy (VDict d) = true ->
  theme_options (state_of (prepare_logo s)) !! "logo" = Some (VDict d).
Proof.
  intros Hd Ht. unfold prepare_logo, options, bind, get. simpl. rewrite Hd.
  destruct d; [done|]. simpl. apply lookup_insert_eq.
Qed.

Lemma emitted_push_log x y a :
  emitted x (push_log y a) = (emitted x a + if decide (y = x) then 1 else 0)%nat.
Proof.
  unfold emitted. simpl. rewrite count_occ_app. simpl.
  destruct (warning_eq_dec y x), (decide (y = x)); done.
Qed.

Lemma tail_confined w : confined fp_tail (from_navigation w ;; prepare_logo).
Proof.
  apply confined_bind; [| intros _];
    (eapply confined_mono; [| eauto with footprint]);
    intros []; simpl; intros; subst; auto; tauto.
Qed.

#[export] Hint Resolve tail_confined : footprint.

(** After the [logo_text] shim has written the logo dict, nothing up to the
    end of [update_config] changes it. *)
Lemma tail_keeps_logo_dict w s d :
  theme_options s !! "logo" = Some (VDict d) ->
  truthy (VDict d) = true ->
  theme_options (state_of ((from_navigation w ;; prepare_logo) s)) !! "logo"
    = Some (VDict d).
Proof.
  intros Hd Ht. rewrite state_of_seq.
  destruct (returns (from_navigation w s)).
  - apply prepare_logo_keeps_dict; [|done]. by frames.
  - by frames.
Qed.

(** C1, as amended: when the [logo] option is absent or a dict (so that the
    [logo_text] shim runs through), every deprecated option set to a truthy
    value is rewritten and warned about exactly once, whatever happens in
    the rest of [update_config]: [logo_text] becomes [logo['text']] and the
    other keys of [logo] are kept, [footer_items] becomes [footer_start],
    and each of [logo_text], [footer_items] and [favicons] adds exactly one
    warning of its own to the log. *)
Theorem deprecated_options_are_rewritten w a :
  shim_ok (theme_options a) = true ->
  let opts := theme_options a in
  let s' := state_of (update_config w a) in
  (truthy (get opts "logo_text") = true ->
   (exists d,
      theme_options s' !! "logo" = Some (VDict d)
      /\ dict_lookup (KStr "text") d = Some (get opts "logo_text")
      /\ forall k, k <> KStr "text" ->
                   dict_lookup k d = dict_lookup k (logo_dict opts))
   /\ emitted WLogoText s' = S (emitted WLogoText a))
  /\ (truthy (get opts "footer_items") = true ->
      theme_options s' !! "footer_start" = Some (get opts "footer_items")
      /\ emitted WFooterItems s' = S (emitted WFooterItems a))
  /\ (truthy (get opts "favicons") = true ->
      emitted WFavicons s' = S (emitted WFavicons a)).
Proof.
  intros Hshim opts s'. subst s'.
  rewrite update_config_from_navigation.
  rewrite seq_returns by by apply deprecate_logo_text_returns.
  rewrite seq_returns by apply deprecate_footer_items_returns.
  rewrite seq_returns by apply deprecate_favicons_returns.
  set (s1 := state_of (deprecate_logo_text a)).
  set (s2 := state_of (deprecate_footer_items s1)).
  set (s3 := state_of (deprecate_favicons s2)).
  split; [|split].
  - intros Htext.
    assert (s1 = push_log WLogoText
              (set_theme_options
                 (<["logo" := VDict (dict_set (KStr "text")
                                       (get opts "logo_text") (logo_dict opts))]>)
                 a)) as Hs1.
    { unfold s1. rewrite deprecate_logo_text_run by done.
      fold opts. by rewrite Htext. }
    split.
    + eexists. split; [|split].
      * apply tail_keeps_logo_dict; [|apply dict_set_truthy].
        unfold s3, s2. frames. rewrite Hs1. simpl. apply lookup_insert_eq.
      * apply dict_lookup_set.
      * intros k Hk. by apply dict_lookup_set_ne.
    + frames. unfold s3, s2. frames. rewrite Hs1, emitted_push_log.
      rewrite decide_True by done. unfold emitted. simpl. lia.
  - intros Hfooter.
    assert (get (theme_options s1) "footer_items" = get opts "footer_items")
      as Hget by (unfold s1; by frames).
    assert (s2 = push_log WFooterItems
              (set_theme_options
                 (<["footer_start" := get opts "footer_items"]>) s1)) as Hs2.
    { unfold s2. rewrite deprecate_footer_items_run.
      by rewrite Hget, Hfooter. }
    split.
    + frames. unfold s3. frames. rewrite Hs2. simpl. apply lookup_insert_eq.
    + frames. unfold s3. frames. rewrite Hs2, emitted_push_log.
      rewrite decide_True by done.
      replace (emitted WFooterItems _) with (emitted WFooterItems s1)
        by done.
      unfold s1. frames. lia.
  - intros Hfav.
    assert (get (theme_options s2) "favicons" = get opts "favicons")
      as Hget by (unfold s2, s1; by frames).
    assert (s3 = push_log WFavicons s2) as Hs3.
    { unfold s3. rewrite deprecate_favicons_run. by rewrite Hget, Hfav. }
    frames. rewrite Hs3, emitted_push_log.
    rewrite decide_True by done. unfold s2, s1. frames. lia.
Qed.

Lemma deprecated_options_are_rewritten_witness :
  shim_ok (theme_options all_deprecated) = true
  /\ (exists d,
        theme_options (state_of (update_config offline all_deprecated)) !! "logo"
          = Some (VDict d)
        /\ dict_lookup (KStr "text") d = Some (VStr "Docs")
        /\ dict_lookup (KStr "image_light") d = Some (VStr "logo.png"))
  /\ theme_options (state_of (update_config offline all_deprecated))
       !! "footer_start" = Some (VList [VStr "copyright"])
  /\ emitted WLogoText (state_of (update_config offline all_deprecated)) = 1%nat
  /\ emitted WFooterItems (state_of (update_config offline all_deprecated)) = 1%nat
  /\ emitted WFavicons (state_of (update_config offline all_deprecated)) = 1%nat.
Proof.
  split; [reflexivity|].
  destruct (deprecated_options_are_rewritten offline all_deprecated eq_refl)
    as (Hlogo & Hfooter & Hfav).
  destruct (Hlogo eq_refl) as [(d & Hd & Htext & Hkeys) Hn1].
  destruct (Hfooter eq_refl) as [Hstart Hn2].
  specialize (Hfav eq_refl).
  split; [|split; [|split; [|split]]].
  - exists d. split; [exact Hd|]. split; [exact Htext|].
    rewrite Hkeys by discriminate. reflexivity.
  - exact Hstart.
  - exact Hn1.
  - exact Hn2.
  - exact Hfav.
Defined.

(** C1 fails as stated: with [logo_text] set and a [logo] option that is a
    file name, the shim raises [TypeError] before anything is rewritten or
    logged. *)
Lemma logo_text_with_path_logo_not_rewritten :
  truthy (get (theme_options logo_as_path) "logo_text") = true
  /\ update_config offline logo_as_path = Raise TypeError logo_as_path
  /\ ~ logo_text_rewritten logo_as_path
         (state_of (update_config offline logo_as_path)).
Proof.
  split; [reflexivity|]. split; [reflexivity|].
  intros [_ Hn]. vm_compute in Hn. discriminate.
Qed.

(** ** The switcher check *)

Lemma before_switcher_confined w :
  confined fp_before_switcher (before_switcher w).
Proof.
  unfold before_switcher.
  repeat (apply confined_bind; [| intros _]);
    (eapply confined_mono; [| eauto with footprint]);
    intros []; unfold fp_none; simpl; intros; subst; auto; try done.
Qed.

Lemma after_switcher_confined w :
  confined fp_after_switcher (after_switcher w).
Proof.
  unfold after_switcher.
  repeat (apply confined_bind; [| intros _]);
    (eapply confined_mono; [| eauto with footprint]);
    intros []; unfold fp_none; simpl; intros; subst; auto; try done.
Qed.

#[export] Hint Resolve before_switcher_confined after_switcher_confined
  : footprint.

Lemma update_config_phases w a :
  update_config w a =
    (before_switcher w ;; check_switcher w ;; after_switcher w) a.
Proof. unfold update_config, before_switcher, after_switcher. regroup. Qed.

Lemma before_switcher_returns w a :
  shim_ok (theme_options a) = true ->
  icon_links_ok (theme_options a) = true ->
  returns (before_switcher w a) = true.
Proof.
  intros Hshim Hicon. unfold before_switcher.
  rewrite seq_returns by by apply deprecate_logo_text_returns.
  rewrite seq_returns by apply deprecate_footer_items_returns.
  rewrite seq_returns by apply deprecate_favicons_returns.
  rewrite seq_returns by apply default_navigation_with_keys_returns.
  fold (deprecated a). unfold bind at 1. rewrite validate_icon_links_run.
  unfold icon_links_ok, get_or in *. rewrite icon_links_deprecated, Hicon.
  apply default_permalinks_icon_returns.
Qed.

Lemma update_config_at_switcher w a :
  shim_ok (theme_options a) = true ->
  icon_links_ok (theme_options a) = true ->
  update_config w a = (check_switcher w ;; after_switcher w) (at_switcher w a).
Proof.
  intros Hshim Hicon. rewrite update_config_phases.
  by rewrite seq_returns by by apply before_switcher_returns.
Qed.

Lemma raises_only_bind {St A B} P (m : M St A) (f : A -> M St B) :
  raises_only P m -> (forall a, raises_only P (f a)) ->
  raises_only P (bind m f).
Proof.
  intros Hm Hf s e s'. unfold bind.
  destruct (m s) as [a s1|e1 s1] eqn:Hms.
  - apply Hf.
  - intros [= <- <-]. by eapply Hm.
Qed.

Lemma raises_only_returns {St A} P (m : M St A) :
  (forall s, returns (m s) = true) -> raises_only P m.
Proof. intros H s e s' Hms. specialize (H s). by rewrite Hms in H. Qed.

Lemma after_switcher_raises w : raises_only late_error (after_switcher w).
Proof.
  unfold after_switcher.
  apply raises_only_bind; [| intros _; apply raises_only_bind;
    [| intros _; apply raises_only_bind; [| intros _]]].
  - intros s e s'. unfold add_analytics, options, bind, when, modify. simpl.
    repeat case_match; intros [= <- <-] || intros [=]; by left.
  - apply raises_only_returns, default_fontawesome_included_returns.
  - intros s e s'. unfold add_icon_link_shortcuts, options, bind. simpl.
    case_match; [done|]. intros [= <- <-]. by left.
  - intros s e s'. unfold prepare_logo, options, bind. simpl.
    case_match; [|done]. intros [= <- <-]. right. eauto.
Qed.

(** The read of the switcher file. *)


Lemma read_switcher_retrieved w s url content :
  retrieved w (srcdir s) url content ->
  read_switcher w url s =
    Return (inr content) (push_io (the_read w (srcdir s) url) s).
Proof.
  unfold retrieved, read_switcher, the_read, parses, uses_http.
  destruct (urlparse_scheme w url) as [msg|scheme]; intros [Hparses Hread];
    [done|].
  destruct (bool_decide _); unfold bind, modify, get_state; simpl;
    by rewrite Hread.
Qed.

(** The switcher check up to the read, for a switcher that has its two
    keys and whose [json_url] is a string. *)
Lemma check_switcher_reads w s d url vm :
  theme_options s !! "switcher" = Some (VDict d) ->
  truthy (get_or (theme_options s) "check_switcher" (VBool true)) = true ->
  dict_lookup (KStr "json_url") d = Some (VStr url) ->
  dict_lookup (KStr "version_match") d = Some vm ->
  check_switcher w s =
    (let* r := read_switcher w url in
     match r with
     | inl reading_error => warn (WSwitcherUnreadable url reading_error)
     | inr content => validate_switcher_content w url content
     end) s.
Proof.
  intros Hsw Hcheck Hurl Hvm.
  unfold check_switcher, options, getitem, url_of, get.
  unfold bind at 1. rewrite Hsw. simpl. rewrite Hcheck, Hurl.
  unfold bind at 1. simpl. unfold bind at 1. rewrite Hvm. simpl.
  by unfold bind at 1.
Qed.

Lemma check_switcher_skipped w s :
  switcher_checked (theme_options s) = false ->
  check_switcher w s = Return tt s.
Proof.
  unfold switcher_checked, check_switcher, options, bind. simpl.
  by intros ->.
Qed.

Lemma check_switcher_missing_key w s d :
  theme_options s !! "switcher" = Some (VDict d) ->
  truthy (get_or (theme_options s) "check_switcher" (VBool true)) = true ->
  check_switcher w s =
    match dict_lookup (KStr "json_url") d,
          dict_lookup (KStr "version_match") d with
    | None, _ => Raise (KeyError "json_url") s
    | Some _, None => Raise (KeyError "version_match") s
    | Some _, Some _ => check_switcher w s
    end.
Proof.
  intros Hsw Hcheck.
  destruct (dict_lookup (KStr "json_url") d) as [u|] eqn:Hurl;
    [destruct (dict_lookup (KStr "version_match") d) as [vm|] eqn:Hvm|];
    [done| |];
    unfold check_switcher, options, getitem, get;
    unfold bind at 1; rewrite Hsw; simpl; rewrite Hcheck, Hurl;
    unfold bind at 1; simpl; [|done].
  unfold bind at 1. by rewrite Hvm.
Qed.

(** The options the switcher check reads are those the user gave. *)
Lemma switcher_at_switcher w a :
  theme_options (at_switcher w a) !! "switcher" = theme_options a !! "switcher".
Proof. unfold at_switcher. by frames. Qed.

Lemma check_switcher_at_switcher w a d :
  get_or (theme_options (at_switcher w a)) "check_switcher" d
  = get_or (theme_options a) "check_switcher" d.
Proof. unfold at_switcher. by frames. Qed.

Lemma srcdir_at_switcher w a : srcdir (at_switcher w a) = srcdir a.
Proof. unfold at_switcher. by frames. Qed.

Lemma switcher_log_at_switcher w a :
  switcher_log (at_switcher w a) = switcher_log a.
Proof. unfold at_switcher. by frames. Qed.

Lemma io_at_switcher w a : io (at_switcher w a) = io a.
Proof. unfold at_switcher. by frames. Qed.

(** C2, as amended: when the switcher is validated ([check_switcher] is
    truthy or absent) and the checks before it pass, a switcher dict
    without [json_url] or without [version_match] makes [update_config]
    raise the [KeyError] of the first absent key: that of [json_url] when
    [json_url] is absent, whether [version_match] is there or not, and that
    of [version_match] when only [version_match] is absent; nothing has
    been read by then. *)
Theorem switcher_missing_key_raises w a d :
  shim_ok (theme_options a) = true ->
  icon_links_ok (theme_options a) = true ->
  theme_options a !! "switcher" = Some (VDict d) ->
  truthy (get_or (theme_options a) "check_switcher" (VBool true)) = true ->
  dict_lookup (KStr "json_url") d = None
  \/ dict_lookup (KStr "version_match") d = None ->
  (dict_lookup (KStr "json_url") d = None ->
   update_config w a = Raise (KeyError "json_url") (at_switcher w a))
  /\ (dict_lookup (KStr "json_url") d <> None ->
      update_config w a = Raise (KeyError "version_match") (at_switcher w a))
  /\ io (at_switcher w a) = io a.
Proof.
  intros Hshim Hicon Hsw Hcheck Hmissing.
  rewrite update_config_at_switcher by done.
  assert (check_switcher w (at_switcher w a) =
          match dict_lookup (KStr "json_url") d,
                dict_lookup (KStr "version_match") d with
          | None, _ => Raise (KeyError "json_url") (at_switcher w a)
          | Some _, None => Raise (KeyError "version_match") (at_switcher w a)
          | Some _, Some _ => check_switcher w (at_switcher w a)
          end) as Hrun.
  { apply check_switcher_missing_key.
    - by rewrite switcher_at_switcher.
    - by rewrite check_switcher_at_switcher. }
  destruct (dict_lookup (KStr "json_url") d) as [u|] eqn:Hurl.
  - destruct Hmissing as [|Hvm]; [done|]. rewrite Hvm in Hrun.
    split; [done|]. split; [|apply io_at_switcher].
    intros _. by rewrite (bind_raise _ _ _ _ _ Hrun).
  - split; [|split; [done | apply io_at_switcher]].
    intros _. by rewrite (bind_raise _ _ _ _ _ Hrun).
Qed.

Lemma switcher_missing_key_raises_witness :
  update_config offline switcher_without_version_match
  = Raise (KeyError "version_match")
      (at_switcher offline switcher_without_version_match)
  /\ update_config offline empty_switcher
     = Raise (KeyError "json_url") (at_switcher offline empty_switcher).
Proof.
  split.
  - destruct (switcher_missing_key_raises offline
                switcher_without_version_match
                [(KStr "json_url", VStr "https://example.org/switcher.json")]
                eq_refl eq_refl eq_refl eq_refl (or_intror eq_refl))
      as (_ & Hrun & _).
    apply Hrun. discriminate.
  - destruct (switcher_missing_key_raises offline empty_switcher []
                eq_refl eq_refl eq_refl eq_refl (or_introl eq_refl))
      as (Hrun & _).
    apply Hrun. reflexivity.
Defined.

(** C2 fails as stated: with [check_switcher] set to [False], a switcher
    dict without [version_match] raises nothing; [update_config] returns. *)
Lemma unchecked_switcher_missing_key_returns :
  (exists d, theme_options unchecked_switcher !! "switcher" = Some (VDict d)
             /\ dict_lookup (KStr "version_match") d = None)
  /\ returns (update_config offline unchecked_switcher) = true
  /\ raised (update_config offline unchecked_switcher) = None.
Proof.
  split; [eexists; split; reflexivity|]. split; reflexivity.
Qed.

(** ** The steps after the switcher check *)

Lemma insert_shortcuts_list opts scs l :
  insert_shortcuts opts scs (VList l)
  = Some (VList (rev (shortcut_links opts scs) ++ l)).
Proof.
  revert l. induction scs as [|[[url icon] name] scs IH]; intros l; simpl.
  - done.
  - destruct (truthy (get opts url)); simpl.
    + rewrite IH. by rewrite <- app_assoc.
    + apply IH.
Qed.

Lemma add_analytics_returns s :
  analytics_ok (theme_options s) = true -> returns (add_analytics s) = true.
Proof.
  unfold analytics_ok, add_analytics, options, bind, when, modify. simpl.
  destruct (get_or (theme_options s) "analytics" (VDict [])) as [| | | | |d];
    simpl; [done | | | | |];
    try (rewrite orb_false_r; intros Hfalsy; apply negb_true_iff in Hfalsy;
         by rewrite Hfalsy).
  intros _. destruct d; [done|].
  unfold ret. by repeat case_match.
Qed.

Lemma add_icon_link_shortcuts_returns s :
  icon_links_ok (theme_options s) = true ->
  returns (add_icon_link_shortcuts s) = true.
Proof.
  unfold icon_links_ok, add_icon_link_shortcuts, options, bind.
  destruct (get_or (theme_options s) "icon_links" (VList [])); try done.
  intros _. by rewrite insert_shortcuts_list.
Qed.

Lemma prepare_logo_returns s :
  logo_ok (theme_options s) = true -> returns (prepare_logo s) = true.
Proof.
  unfold logo_ok, prepare_logo, options, bind. simpl.
  destruct (truthy (get (theme_options s) "logo")); simpl; [|done].
  by intros ->.
Qed.

Lemma after_switcher_returns w s :
  analytics_ok (theme_options s) = true ->
  icon_links_ok (theme_options s) = true ->
  logo_ok (theme_options s) = true ->
  returns (after_switcher w s) = true.
Proof.
  intros Han Hicon Hlogo. unfold after_switcher.
  rewrite seq_returns by by apply add_analytics_returns.
  rewrite seq_returns by apply default_fontawesome_included_returns.
  rewrite seq_returns.
  - apply prepare_logo_returns. unfold logo_ok in *. by frames.
  - apply add_icon_link_shortcuts_returns. unfold icon_links_ok in *.
    by frames.
Qed.

(** Walk through a sequence of steps whatever their outcome. *)
Ltac walk :=
  repeat (rewrite state_of_seq; destruct (returns _)); frames.


Lemma switcher_log_push_log x s :
  switcher_log (push_log x s)
  = switcher_log s ++ (if is_switcher_warning x then [x] else []).
Proof. unfold switcher_log. simpl. by rewrite List.filter_app. Qed.

Lemma raised_some {St A} (r : result St A) e :
  raised r = Some e -> exists s, r = Raise e s.
Proof. destruct r; [done|]. intros [= ->]. eauto. Qed.



(** C4 fails as stated: [urlparse] is called outside the [try] blocks.
    Where no file is found and no request gets through, a [json_url] with
    an opening square bracket in its host and no closing one gives no
    warning: [urlparse] raises [ValueError] on it, before anything is read,
    and [update_config] raises it too. *)
Lemma unparsable_json_url_raises :
  (forall dir url,
     read_text offline dir url = ReadRaises true "FileNotFoundError()"
     /\ requests_get offline url
        = GetRaises ReqConnectionError "ConnectionError()")
  /\ update_config offline (with_switcher "//[x/switcher.json")
     = Raise (ValueError "Invalid IPv6 URL")
         (at_switcher offline (with_switcher "//[x/switcher.json"))
  /\ update_config offline (with_switcher "http://[::1/switcher.json")
     = Raise (ValueError "Invalid IPv6 URL")
         (at_switcher offline (with_switcher "http://[::1/switcher.json"))
  /\ state_of (update_config offline (with_switcher "//[x/switcher.json"))
     = at_switcher offline (with_switcher "//[x/switcher.json")
  /\ switcher_log (at_switcher offline (with_switcher "//[x/switcher.json"))
     = [].
Proof. repeat split; reflexivity. Qed.

(** *** The content of the switcher file *)

Lemma not_in_each_scalar name items :
  existsb is_scalar items = true -> not_in_each name items = None.
Proof.
  induction items as [|v items IH]; simpl; [done|].
  intros [Hv|Hitems]%orb_true_iff.
  - by destruct v.
  - rewrite IH by done. by destruct (py_contains name v).
Qed.

Lemma not_in_each_searchable name items :
  existsb is_scalar items = false ->
  not_in_each name items = Some (map (fun v => negb (mentions name v)) items).
Proof.
  induction items as [|v items IH]; simpl; [done|].
  intros [Hv Hitems]%orb_false_iff. rewrite IH by done.
  unfold mentions. by destruct v.
Qed.

Lemma any_missing_searchable name parsed items s :
  py_iter parsed = Some items ->
  existsb is_scalar items = false ->
  any_missing name parsed s
  = Return (existsb (fun v => negb (mentions name v)) items) s.
Proof.
  intros Hiter Hitems. unfold any_missing. rewrite Hiter.
  rewrite not_in_each_searchable by done. unfold ret. f_equal.
  clear. induction items as [|v items IH]; simpl; [done|]. by rewrite IH.
Qed.

Lemma missing_iff_not_passes items :
  existsb (fun v => negb (mentions "url" v)) items
  || existsb (fun v => negb (mentions "version" v)) items
  = negb (forallb passes items).
Proof.
  induction items as [|v items IH]; simpl; [done|].
  rewrite negb_andb, <- IH. unfold passes.
  destruct (mentions "url" v), (mentions "version" v); simpl;
    rewrite ?orb_true_r; try done.
Qed.



Lemma validate_switcher_content_searchable w url content parsed items s :
  json_loads w content = inr parsed ->
  py_iter parsed = Some items ->
  existsb is_scalar items = false ->
  validate_switcher_content w url content s
  = Return tt (if forallb passes items then s
               else push_log (WSwitcherMalformed url) s).
Proof.
  intros Hjson Hiter Hitems. unfold validate_switcher_content. rewrite Hjson.
  unfold bind. rewrite !(any_missing_searchable _ parsed items) by done.
  rewrite missing_iff_not_passes.
  by destruct (forallb passes items).
Qed.

Lemma validate_switcher_content_unsearchable w url content parsed s :
  json_loads w content = inr parsed ->
  unsearchable parsed = true ->
  validate_switcher_content w url content s = Raise TypeError s.
Proof.
  intros Hjson Hbad. unfold validate_switcher_content. rewrite Hjson.
  unfold bind, any_missing, unsearchable in *.
  destruct (py_iter parsed) as [items|]; [|done].
  by rewrite not_in_each_scalar.
Qed.



(** C3 fails as stated: an array with an item that is a number, which has
    neither key, gives no warning about a malformed file; the search of
    that item raises [TypeError] and [update_config] stops. *)
Lemma manifest_with_number_raises :
  raised (update_config (serving "[..]" manifest_with_number)
            (with_switcher "_static/switcher.json"))
  = Some TypeError
  /\ switcher_log
       (state_of (update_config (serving "[..]" manifest_with_number)
                    (with_switcher "_static/switcher.json")))
     = [].
Proof. split; reflexivity. Qed.

(** C10: when [check_switcher] is falsy or the [switcher] option is no dict,
    the switcher check does nothing: [update_config] behaves as the steps
    before the check followed by the steps after it, it reads neither the
    network nor a file, and it logs no switcher warning. *)
Theorem switcher_check_skipped w a :
  truthy (get_or (theme_options a) "check_switcher" (VBool true)) = false
  \/ is_dict (get (theme_options a) "switcher") = false ->
  update_config w a = (before_switcher w ;; after_switcher w) a
  /\ io (state_of (update_config w a)) = io a
  /\ switcher_log (state_of (update_config w a)) = switcher_log a.
Proof.
  intros Hskip.
  assert (switcher_checked (theme_options a) = false) as Hoff.
  { unfold switcher_checked. destruct Hskip as [-> | ->];
      [apply andb_false_r | done]. }
  assert (update_config w a = (before_switcher w ;; after_switcher w) a)
    as Hgo.
  { rewrite update_config_phases. unfold bind at 1 3.
    destruct (before_switcher w a) as [[] s|e s] eqn:Hbefore; [|done].
    rewrite (bind_return _ _ _ tt s); [done|].
    apply check_switcher_skipped.
    replace s with (state_of (before_switcher w a)) by by rewrite Hbefore.
    unfold switcher_checked in *. by frames. }
  split; [done|]. rewrite Hgo. split; by walk.
Qed.

Lemma switcher_check_skipped_witness :
  update_config offline unchecked_switcher
  = (before_switcher offline ;; after_switcher offline) unchecked_switcher
  /\ io (state_of (update_config offline unchecked_switcher)) = []
  /\ switcher_log (state_of (update_config offline unchecked_switcher)) = [].
Proof.
  apply (switcher_check_skipped offline unchecked_switcher).
  left. reflexivity.
Defined.

(** ** The icon link shortcuts *)

Lemma before_shortcuts_confined w :
  confined fp_before_shortcuts (before_shortcuts w).
Proof.
  unfold before_shortcuts.
  repeat (apply confined_bind; [| intros _]);
    (eapply confined_mono; [| eauto with footprint]);
    intros []; unfold fp_none; simpl; intros; subst; auto; try done.
Qed.

#[export] Hint Resolve before_shortcuts_confined : footprint.

Lemma update_config_before_shortcuts w a :
  update_config w a =
    (before_shortcuts w ;; add_icon_link_shortcuts ;; prepare_logo) a.
Proof.
  unfold update_config, before_shortcuts, before_switcher. regroup.
Qed.

Lemma before_shortcuts_checks_icon_links w a :
  returns (before_shortcuts w a) = true ->
  icon_links_ok (theme_options a) = true.
Proof.
  unfold before_shortcuts, before_switcher. intros Hret.
  destruct (shim_ok (theme_options a)) eqn:Hshim.
  - revert Hret. rewrite !bind_assoc.
    rewrite seq_returns by by apply deprecate_logo_text_returns.
    rewrite !bind_assoc.
    rewrite seq_returns by apply deprecate_footer_items_returns.
    rewrite !bind_assoc.
    rewrite seq_returns by apply deprecate_favicons_returns.
    rewrite !bind_assoc.
    rewrite seq_returns by apply default_navigation_with_keys_returns.
    fold (deprecated a). rewrite !bind_assoc. unfold bind at 1.
    rewrite validate_icon_links_run.
    unfold icon_links_ok, get_or. rewrite icon_links_deprecated.
    by destruct (is_list _).
  - revert Hret. rewrite !bind_assoc.
    by rewrite (bind_raise _ _ _ _ _ (deprecate_logo_text_raises a Hshim)).
Qed.

Lemma add_icon_link_shortcuts_run s :
  icon_links_ok (theme_options s) = true ->
  add_icon_link_shortcuts s =
    Return tt
      (set_theme_options
         (<["icon_links" :=
              VList (rev (shortcut_links (theme_options s) shortcuts)
                     ++ user_icon_links (theme_options s))]>) s).
Proof.
  unfold icon_links_ok, add_icon_link_shortcuts, user_icon_links, options, bind.
  destruct (get_or (theme_options s) "icon_links" (VList [])); try done.
  intros _. by rewrite insert_shortcuts_list.
Qed.

(** C8: once [update_config] gets to the icon link shortcuts, the final
    [icon_links] list is the entries generated for the shortcuts that are
    set, in the reverse of the order twitter, bitbucket, gitlab, github,
    followed by the entries the user gave, in their order. *)
Theorem shortcuts_are_prepended w a :
  returns (before_shortcuts w a) = true ->
  theme_options (state_of (update_config w a)) !! "icon_links"
  = Some (VList (rev (shortcut_links (theme_options a) shortcuts)
                 ++ user_icon_links (theme_options a))).
Proof.
  intros Hret. rewrite update_config_before_shortcuts.
  rewrite seq_returns by done.
  set (s := state_of (before_shortcuts w a)).
  assert (icon_links_ok (theme_options s) = true) as Hicon.
  { apply before_shortcuts_checks_icon_links in Hret.
    unfold s, icon_links_ok in *. by frames. }
  assert (shortcut_links (theme_options s) shortcuts
          = shortcut_links (theme_options a) shortcuts) as Hlinks.
  { unfold s, shortcut_links, shortcuts. simpl. by frames. }
  assert (user_icon_links (theme_options s) = user_icon_links (theme_options a))
    as Huser.
  { unfold s, user_icon_links. by frames. }
  rewrite state_of_seq, add_icon_link_shortcuts_run by done.
  cbn [returns state_of]. frames. cbn [theme_options set_theme_options].
  rewrite lookup_insert_eq. by rewrite Hlinks, Huser.
Qed.

Lemma shortcuts_are_prepended_witness :
  theme_options (state_of (update_config offline with_shortcuts)) !! "icon_links"
  = Some (VList
      [ shortcut_entry (VStr "https://github.com/pydata")
          "fa-brands fa-square-github" "GitHub";
        shortcut_entry (VStr "https://twitter.com/pydata")
          "fa-brands fa-square-twitter" "Twitter";
        VDict [(KStr "name", VStr "PyPI"); (KStr "url", VStr "https://pypi.org")] ]).
Proof.
  apply (shortcuts_are_prepended offline with_shortcuts). reflexivity.
Defined.

(** ** The logo check *)

Lemma after_shim_confined w :
  confined fp_after_shim
    (deprecate_footer_items ;; deprecate_favicons ;; from_navigation w).
Proof.
  repeat (apply confined_bind; [| intros _]);
    (eapply confined_mono; [| eauto with footprint]);
    intros []; simpl; intros; subst; auto; intuition discriminate.
Qed.

#[export] Hint Resolve after_shim_confined : footprint.

Lemma update_config_before_logo w a :
  update_config w a = (before_logo w ;; prepare_logo) a.
Proof. unfold update_config, before_logo, from_navigation. regroup. Qed.

Lemma prepare_logo_run s :
  prepare_logo s =
    let theme_logo := get (theme_options s) "logo" in
    if truthy theme_logo then
      if is_dict theme_logo
      then Return tt (set_theme_options (<["logo" := theme_logo]>) s)
      else Raise (ValueError ("Incorrect logo config type: "
                              +:+ type_repr theme_logo)) s
    else Return tt (set_theme_options (<["logo" := VDict []]>) s).
Proof.
  unfold prepare_logo, options, bind. simpl.
  destruct (truthy (get (theme_options s) "logo")); [|done].
  by destruct (is_dict (get (theme_options s) "logo")).
Qed.

(** Without [logo_text], nothing before the logo check touches [logo]. *)
Lemma logo_before_logo w a :
  truthy (get (theme_options a) "logo_text") = false ->
  get (theme_options (state_of (before_logo w a))) "logo"
  = get (theme_options a) "logo".
Proof.
  intros Htext. unfold before_logo.
  assert (shim_ok (theme_options a) = true) as Hshim
    by (unfold shim_ok; by rewrite Htext).
  rewrite seq_returns by by apply deprecate_logo_text_returns.
  rewrite deprecate_logo_text_run by done. rewrite Htext. simpl.
  by frames.
Qed.

Lemma before_logo_passes_shim w a :
  returns (before_logo w a) = true -> shim_ok (theme_options a) = true.
Proof.
  unfold before_logo. intros Hret.
  destruct (shim_ok (theme_options a)) eqn:Hshim; [done|].
  by rewrite (bind_raise _ _ _ _ _ (deprecate_logo_text_raises a Hshim))
    in Hret.
Qed.

(** C9, as amended: after [update_config] has returned, [logo] is a dict;
    it is the empty dict when the [logo] option was missing or falsy
    ([None], the empty string) and [logo_text] was not used; and a truthy
    [logo] option that is no dict keeps [update_config] from returning: it
    raises, and once everything before the logo check has passed, what it
    raises is the [ValueError] that names the type of the value. *)
Theorem logo_is_normalised w a :
  (forall s, update_config w a = Return tt s ->
             exists d, theme_options s !! "logo" = Some (VDict d))
  /\ (truthy (get (theme_options a) "logo") = false ->
      truthy (get (theme_options a) "logo_text") = false ->
      forall s, update_config w a = Return tt s ->
                theme_options s !! "logo" = Some (VDict []))
  /\ (truthy (get (theme_options a) "logo") = true ->
      is_dict (get (theme_options a) "logo") = false ->
      returns (update_config w a) = false
      /\ (returns (before_logo w a) = true ->
          update_config w a =
            Raise (ValueError ("Incorrect logo config type: "
                               +:+ type_repr (get (theme_options a) "logo")))
                  (state_of (before_logo w a)))).
Proof.
  split; [|split].
  - intros s. rewrite update_config_before_logo. unfold bind.
    destruct (before_logo w a) as [[] s0|]; [|done].
    rewrite prepare_logo_run. simpl.
    destruct (truthy (get (theme_options s0) "logo")).
    + destruct (get (theme_options s0) "logo") eqn:Hlogo; try done.
      intros [= <-]. simpl. rewrite lookup_insert_eq. eauto.
    + intros [= <-]. simpl. rewrite lookup_insert_eq. eauto.
  - intros Hlogo Htext s. rewrite update_config_before_logo. unfold bind.
    pose proof (logo_before_logo w a Htext) as Hsame.
    destruct (before_logo w a) as [[] s0|]; [|done]. simpl in Hsame.
    rewrite prepare_logo_run. simpl. rewrite Hsame, Hlogo.
    intros [= <-]. simpl. apply lookup_insert_eq.
  - intros Hlogo Hdict.
    assert (returns (before_logo w a) = true ->
            update_config w a =
              Raise (ValueError ("Incorrect logo config type: "
                                 +:+ type_repr (get (theme_options a) "logo")))
                    (state_of (before_logo w a))) as Hraise.
    { intros Hret. rewrite update_config_before_logo.
      rewrite seq_returns by done. rewrite prepare_logo_run. simpl.
      assert (truthy (get (theme_options a) "logo_text") = false) as Htext.
      { apply before_logo_passes_shim in Hret. unfold shim_ok in Hret.
        destruct (truthy (get (theme_options a) "logo_text")); [|done].
        simpl in Hret. unfold get_or, get in *.
        destruct (theme_options a !! "logo"); simpl in *; [|done].
        by rewrite Hret in Hdict. }
      by rewrite (logo_before_logo w a Htext), Hlogo, Hdict. }
    split; [|done].
    destruct (returns (before_logo w a)) eqn:Hret.
    + by rewrite Hraise.
    + rewrite update_config_before_logo. unfold bind.
      by destruct (before_logo w a).
Qed.

Lemma logo_is_normalised_witness :
  (exists s, update_config offline empty_logo = Return tt s
             /\ theme_options s !! "logo" = Some (VDict []))
  /\ update_config offline path_logo =
       Raise (ValueError "Incorrect logo config type: <class 'str'>")
             (state_of (before_logo offline path_logo)).
Proof.
  split.
  - exists (state_of (update_config offline empty_logo)).
    assert (update_config offline empty_logo
            = Return tt (state_of (update_config offline empty_logo))) as Hrun
      by (apply unit_run; reflexivity).
    split; [exact Hrun|].
    destruct (logo_is_normalised offline empty_logo) as (_ & Hempty & _).
    exact (Hempty eq_refl eq_refl _ Hrun).
  - destruct (logo_is_normalised offline path_logo) as (_ & _ & Hpath).
    destruct (Hpath eq_refl eq_refl) as [_ Hraise].
    exact (Hraise eq_refl).
Defined.

(** C9 fails as stated: with [logo_text] set, a missing [logo] option is not
    replaced by an empty dict; [update_config] returns with the logo
    [{"text": "Docs"}]. *)
Lemma missing_logo_with_logo_text_not_empty :
  theme_options only_logo_text !! "logo" = None
  /\ exists s, update_config offline only_logo_text = Return tt s
               /\ theme_options s !! "logo"
                  = Some (VDict [(KStr "text", VStr "Docs")])
               /\ theme_options s !! "logo" <> Some (VDict []).
Proof.
  split; [reflexivity|].
  exists (state_of (update_config offline only_logo_text)).
  split; [apply unit_run; reflexivity|].
  assert (theme_options (state_of (update_config offline only_logo_text))
            !! "logo" = Some (VDict [(KStr "text", VStr "Docs")])) as H
    by (vm_compute; reflexivity).
  split; [exact H|]. rewrite H. discriminate.
Qed.

(** * The page hook *)

(** ** Entries of the context a computation leaves alone *)

Lemma leaves_ret {A} k (a : A) : leaves k (ret a).
Proof. intros o. apply preserves_ret. Qed.

Lemma leaves_raise {A} k e : leaves k (@raise page A e).
Proof. intros o. apply preserves_raise. Qed.

Lemma leaves_the_context k : leaves k the_context.
Proof. by intros o p. Qed.

Lemma leaves_bind {A B} k (m : M page A) (f : A -> M page B) :
  leaves k m -> (forall a, leaves k (f a)) -> leaves k (bind m f).
Proof. intros Hm Hf o. apply preserves_bind; [apply Hm | intros a; apply Hf]. Qed.

Lemma leaves_when k b (m : M page unit) : leaves k m -> leaves k (when b m).
Proof. intros Hm o. apply preserves_when, Hm. Qed.

Lemma leaves_for_each {A} k (xs : list A) (body : A -> M page unit) :
  (forall x, x ∈ xs -> leaves k (body x)) -> leaves k (for_each xs body).
Proof.
  induction xs as [|x xs IH]; intros H; simpl.
  - apply leaves_ret.
  - apply leaves_bind; [apply H; by left | intros _].
    apply IH. intros y Hy. apply H. by right.
Qed.

Lemma leaves_set_entry k k' v : k' <> k -> leaves k (set_entry k' v).
Proof.
  intros Hne o. apply preserves_modify. intros p Hp. simpl.
  by rewrite lookup_insert_ne.
Qed.

Lemma leaves_app k (f : app -> app) : leaves k (modify (set_page_app f)).
Proof. intros o. by apply preserves_modify. Qed.

Lemma leaves_iterate k v : leaves k (iterate v).
Proof. unfold iterate. destruct (py_iter v); [apply leaves_ret | apply leaves_raise]. Qed.

Lemma leaves_frame {A} k (m : M page A) p :
  leaves k m -> context (state_of (m p)) !! k = context p !! k.
Proof. intros Hm. by apply (Hm (context p !! k)). Qed.

Ltac leave :=
  repeat first
    [ apply leaves_ret
    | apply leaves_raise
    | apply leaves_the_context
    | apply leaves_iterate
    | apply leaves_app
    | apply leaves_set_entry; solve [done | congruence]
    | apply leaves_when
    | apply leaves_bind; [| intros ?]
    | match goal with
      | |- leaves _ (match ?x with _ => _ end) => destruct x
      | |- leaves _ (if ?x then _ else _) => destruct x
      end ].

Section PageFrames.

Variable w : world.

Lemma leaves_set_item k section ii v :
  section <> k -> leaves k (set_item section ii v).
Proof. intros Hne. unfold set_item. leave. Qed.

Lemma leaves_add_suffixes k section ii items :
  section <> k -> leaves k (add_suffixes w section ii items).
Proof.
  intros Hne. revert ii.
  induction items as [|[| | |t| |] items IH]; intros ii; simpl;
    try apply leaves_raise; [apply leaves_ret|].
  apply leaves_bind; [| intros _; apply IH].
  apply leaves_when. by apply leaves_set_item.
Qed.

Lemma leaves_remove_empty_templates k tname :
  leaves k (_remove_empty_templates w tname).
Proof. unfold _remove_empty_templates. leave. Qed.

Lemma leaves_filter_templates k items : leaves k (filter_templates w items).
Proof.
  induction items as [|x items IH]; simpl; [apply leaves_ret|].
  apply leaves_bind; [apply leaves_remove_empty_templates | intros keep].
  apply leaves_bind; [apply IH | intros kept]. apply leaves_ret.
Qed.

Lemma leaves_update_section k section :
  section <> k -> leaves k (update_section w section).
Proof.
  intros Hne. unfold update_section.
  apply leaves_bind; [apply leaves_the_context | intros ctx].
  apply leaves_when.
  apply leaves_bind; [leave | intros _].
  apply leaves_bind; [apply leaves_the_context | intros ctx1].
  apply leaves_bind; [apply leaves_iterate | intros items].
  apply leaves_bind; [by apply leaves_add_suffixes | intros _].
  apply leaves_bind; [apply leaves_the_context | intros ctx2].
  apply leaves_bind; [apply leaves_iterate | intros items2].
  apply leaves_bind; [apply leaves_filter_templates | intros kept].
  by apply leaves_set_entry.
Qed.

Lemma leaves_remove_theme_css k :
  k <> "css_files" -> leaves k remove_theme_css.
Proof. intros Hne. unfold remove_theme_css. leave. Qed.

Lemma leaves_add_favicon k favicon : leaves k (add_favicon w favicon).
Proof. unfold add_favicon. leave. Qed.

Lemma leaves_add_switcher_js k : leaves k add_switcher_js.
Proof. unfold add_switcher_js. leave. Qed.

Lemma leaves_after_css k pagename :
  k <> "theme_version" -> leaves k (after_css w pagename).
Proof.
  intros Hne. unfold after_css.
  apply leaves_bind; [| intros _; apply leaves_bind; [| intros _;
    apply leaves_bind; [| intros _]]].
  - apply leaves_bind; [apply leaves_the_context | intros ctx].
    apply leaves_bind; [apply leaves_iterate | intros favicons].
    apply leaves_for_each. intros x _. apply leaves_add_favicon.
  - apply leaves_app.
  - apply leaves_add_switcher_js.
  - apply leaves_set_entry. congruence.
Qed.

Lemma leaves_after_sections k pagename :
  k <> "css_files" -> k <> "theme_version" ->
  leaves k (after_sections w pagename).
Proof.
  intros Hcss Hver. unfold after_sections.
  apply leaves_bind; [by apply leaves_remove_theme_css | intros _].
  by apply leaves_after_css.
Qed.

End PageFrames.

(** ** The theme CSS *)

Lemma is_the_str_true name x : is_the_str name x = true <-> x = VStr name.
Proof.
  destruct x; simpl; try (split; [discriminate | congruence]).
  rewrite String.eqb_eq. split; congruence.
Qed.

Lemma existsb_is_the_str name l :
  existsb (is_the_str name) l = true <-> VStr name ∈ l.
Proof.
  rewrite existsb_exists. split.
  - intros (x & Hx & Heq). apply is_the_str_true in Heq as ->.
    by apply list_elem_of_In.
  - intros Hin. exists (VStr name). split; [by apply list_elem_of_In|].
    by apply is_the_str_true.
Qed.

Lemma remove_first_absent name l :
  VStr name ∉ l -> remove_first name l = l.
Proof.
  induction l as [|x l IH]; simpl; [done|]. intros Hnot.
  destruct (is_the_str name x) eqn:Hx.
  - apply is_the_str_true in Hx as ->. destruct Hnot. by left.
  - rewrite IH; [done|]. intros Hin. apply Hnot. by right.
Qed.

Lemma remove_first_split name l :
  VStr name ∈ l ->
  exists l1 l2,
    l = l1 ++ VStr name :: l2
    /\ (VStr name ∉ l1)
    /\ remove_first name l = l1 ++ l2.
Proof.
  induction l as [|x l IH]; simpl.
  - intros Hin. by apply elem_of_nil in Hin.
  - intros Hin. destruct (is_the_str name x) eqn:Hx.
    + apply is_the_str_true in Hx as ->. exists [], l.
      split; [done|]. split; [apply not_elem_of_nil | done].
    + apply elem_of_cons in Hin as [Heq|Hin].
      { subst x. assert (is_the_str name (VStr name) = true)
          by by apply is_the_str_true.
        congruence. }
      destruct (IH Hin) as (l1 & l2 & -> & Hnot & Hrem).
      exists (x :: l1), l2. split; [done|]. split.
      * intros Hin1. apply elem_of_cons in Hin1 as [Heq|?]; [|done].
        subst x. assert (is_the_str name (VStr name) = true)
          by by apply is_the_str_true.
        congruence.
      * simpl. by rewrite Hrem.
Qed.

Lemma remove_theme_css_list p l :
  context p !! "css_files" = Some (VList l) ->
  remove_theme_css p =
    Return tt
      (if existsb (is_the_str theme_css_name) l
       then set_context
              (<["css_files" := VList (remove_first theme_css_name l)]>) p
       else p).
Proof.
  intros Hcss. unfold remove_theme_css, the_context, bind. rewrite Hcss.
  simpl. by destruct (existsb _ l).
Qed.

Lemma sections_are_not k :
  k = "css_files" \/ k = "theme_version" ->
  forall section, section ∈ template_sections -> section <> k.
Proof.
  intros Hk section Hin ->. unfold template_sections in Hin.
  destruct Hk as [-> | ->];
    repeat (apply elem_of_cons in Hin as [Hin|Hin]; [discriminate|]);
    by apply elem_of_nil in Hin.
Qed.

Lemma update_and_remove_templates_sections w pagename p :
  update_and_remove_templates w pagename p =
    (for_each template_sections (update_section w) ;;
     after_sections w pagename) p.
Proof. reflexivity. Qed.

(** C7: once the loop over the template sections has run through, a
    [css_files] list that contains the theme stylesheet loses its first
    occurrence and nothing else, and a [css_files] list without it is left
    as it is. *)
Theorem theme_css_is_removed_once w pagename p l :
  context p !! "css_files" = Some (VList l) ->
  returns (for_each template_sections (update_section w) p) = true ->
  let css_files :=
    context (state_of (update_and_remove_templates w pagename p))
      !! "css_files" in
  (VStr theme_css_name ∈ l ->
   exists l1 l2,
     l = l1 ++ VStr theme_css_name :: l2
     /\ (VStr theme_css_name ∉ l1)
     /\ css_files = Some (VList (l1 ++ l2)))
  /\ (VStr theme_css_name ∉ l -> css_files = Some (VList l)).
Proof.
  intros Hcss Hret css_files. subst css_files.
  rewrite update_and_remove_templates_sections.
  rewrite seq_returns by done.
  set (p1 := state_of (for_each template_sections (update_section w) p)).
  assert (context p1 !! "css_files" = Some (VList l)) as Hcss1.
  { unfold p1. rewrite leaves_frame; [done|].
    apply leaves_for_each. intros section Hin.
    apply leaves_update_section. apply sections_are_not; auto. }
  change (after_sections w pagename p1)
    with ((remove_theme_css ;; after_css w pagename) p1).
  rewrite seq_returns by by rewrite (remove_theme_css_list _ l).
  rewrite leaves_frame by (by apply leaves_after_css).
  rewrite (remove_theme_css_list _ l) by done. simpl.
  split.
  - intros Hin. destruct (remove_first_split _ _ Hin) as (l1 & l2 & Hl & Hnot & Hrem).
    exists l1, l2. split; [done|]. split; [done|].
    apply existsb_is_the_str in Hin. rewrite Hin. simpl.
    by rewrite lookup_insert_eq, Hrem.
  - intros Hnot.
    destruct (existsb (is_the_str theme_css_name) l) eqn:Hex; [|done].
    by apply existsb_is_the_str in Hex.
Qed.

(** ** The template sections *)

Lemma for_each_app {St A} (body : A -> M St unit) l1 l2 p :
  for_each (l1 ++ l2) body p = (for_each l1 body ;; for_each l2 body) p.
Proof.
  revert p. induction l1 as [|x l1 IH]; intros p; simpl; [done|].
  rewrite bind_assoc. unfold bind.
  destruct (body x p) as [[] p'|]; [|done].
  rewrite IH. by unfold bind.
Qed.

Lemma insert_after_prefix (pre : list string) t t' ts :
  <[length pre := VStr t']> (VStr <$> (pre ++ t :: ts))
  = VStr <$> ((pre ++ [t']) ++ ts).
Proof.
  rewrite <- app_assoc. simpl. rewrite !fmap_app. simpl.
  replace (length pre) with (length (VStr <$> pre) + 0)%nat
    by (rewrite length_fmap; lia).
  by rewrite insert_app_r.
Qed.

Lemma add_suffixes_strings w section ts : forall pre p,
  context p !! section = Some (VList (VStr <$> (pre ++ ts))) ->
  exists p',
    add_suffixes w section (length pre) (VStr <$> ts) p = Return tt p'
    /\ context p'
       = <[section := VList (VStr <$> (pre ++ (suffixed w <$> ts)))]> (context p).
Proof.
  induction ts as [|t ts IH]; intros pre p Hsec; simpl.
  - exists p. split; [done|]. rewrite app_nil_r in *. by rewrite insert_id.
  - unfold suffixed at 1.
    destruct (String.eqb (splitext_ext w t) "") eqn:Hext; simpl.
    + set (p1 := set_context
                   (<[section := VList (VStr <$> ((pre ++ [t +:+ ".html"]) ++ ts))]>) p).
      destruct (IH (pre ++ [t +:+ ".html"]) p1) as (p' & Hrun & Hctx).
      { unfold p1. simpl. by rewrite lookup_insert_eq. }
      exists p'. split.
      * rewrite length_app in Hrun. simpl in Hrun.
        replace (length pre + 1)%nat with (S (length pre)) in Hrun by lia.
        rewrite <- Hrun. unfold bind at 1.
        unfold set_item, the_context, bind. rewrite Hsec.
        unfold set_entry, modify. by rewrite insert_after_prefix.
      * rewrite Hctx. unfold p1. simpl. rewrite insert_insert_eq.
        by rewrite <- app_assoc.
    + destruct (IH (pre ++ [t]) p) as (p' & Hrun & Hctx).
      { by rewrite <- app_assoc. }
      exists p'. split.
      * rewrite length_app in Hrun. simpl in Hrun.
        replace (length pre + 1)%nat with (S (length pre)) in Hrun by lia.
        by rewrite <- Hrun.
      * rewrite Hctx. by rewrite <- app_assoc.
Qed.

Lemma remove_empty_templates_string w t p :
  renderable w (context p) t = true ->
  _remove_empty_templates w (VStr t) p = Return (kept w (context p) t) p.
Proof.
  unfold renderable, kept, render_fails, renders_empty, skipped,
    _remove_empty_templates, the_context, bind.
  destruct (existsb (endswith t) SKIP_EMPTY_TEMPLATE_CHECKS); simpl; [done|].
  destruct (render w t (context p)) as [repr|rendered]; [done|]. intros _.
  by destruct (String.length (strip rendered) =? 0)%nat.
Qed.

Lemma filter_templates_strings w ts p :
  forallb (renderable w (context p)) ts = true ->
  filter_templates w (VStr <$> ts) p
  = Return (VStr <$> List.filter (kept w (context p)) ts) p.
Proof.
  induction ts as [|t ts IH]; [done|].
  cbn [forallb]. intros [Ht Hts]%andb_true_iff.
  change (VStr <$> t :: ts) with (VStr t :: (VStr <$> ts)).
  cbn [filter_templates List.filter].
  unfold bind at 1. rewrite remove_empty_templates_string by done.
  unfold bind at 1. rewrite IH by done. unfold ret.
  by destruct (kept w (context p) t).
Qed.

Lemma update_section_str w section s p :
  context p !! section = Some (VStr s) ->
  s <> "" ->
  let entries := suffixed w <$> split_entries s in
  let ctx := <[section := VList (VStr <$> entries)]> (context p) in
  forallb (renderable w ctx) entries = true ->
  exists p',
    update_section w section p = Return tt p'
    /\ context p'
       = <[section := VList (VStr <$> List.filter (kept w ctx) entries)]>
           (context p).
Proof.
  intros Hsec Hs entries ctx Hrender.
  set (p0 := set_context (<[section := VList (VStr <$> split_entries s)]>) p).
  destruct (add_suffixes_strings w section (split_entries s) [] p0)
    as (p1 & Hsuffix & Hctx1).
  { unfold p0. simpl. by rewrite lookup_insert_eq. }
  simpl in Hsuffix, Hctx1. unfold p0 in Hctx1. simpl in Hctx1.
  rewrite insert_insert_eq in Hctx1. fold entries in Hctx1. fold ctx in Hctx1.
  exists (set_context
            (<[section := VList (VStr <$> List.filter (kept w ctx) entries)]>)
            p1).
  split.
  - unfold update_section, the_context. unfold bind at 1.
    unfold get. rewrite Hsec. simpl.
    assert (negb (s =? "")%string = true) as ->.
    { apply negb_true_iff. by apply String.eqb_neq. }
    simpl. unfold bind at 1. unfold set_entry, modify. fold p0.
    unfold bind at 1. unfold bind at 1. unfold iterate at 1.
    assert (default VNone (context p0 !! section)
            = VList (VStr <$> split_entries s)) as ->.
    { unfold p0. simpl. by rewrite lookup_insert_eq. }
    simpl. unfold bind at 1. rewrite Hsuffix.
    unfold bind at 1. unfold bind at 1. unfold iterate at 1.
    rewrite Hctx1. unfold ctx at 1. rewrite lookup_insert_eq. simpl.
    unfold bind at 1.
    rewrite filter_templates_strings by by rewrite Hctx1.
    by rewrite Hctx1.
  - simpl. rewrite Hctx1. unfold ctx. by rewrite insert_insert_eq.
Qed.

Lemma template_sections_nodup : NoDup template_sections.
Proof. apply (bool_decide_unpack _). vm_compute. exact I. Qed.

(** C6, as amended: a template section given as a non-empty string is
    replaced by the list of its comma-separated entries, stripped, with
    [.html] appended to those without an extension and the others unchanged,
    in their order, from which the entries whose template renders to nothing
    but whitespace are dropped (the templates exempt from that check are
    always kept). *)
Theorem template_section_is_split w pagename p before section after s :
  template_sections = before ++ section :: after ->
  context p !! section = Some (VStr s) ->
  s <> "" ->
  returns (for_each before (update_section w) p) = true ->
  let entries := suffixed w <$> split_entries s in
  let ctx :=
    <[section := VList (VStr <$> entries)]>
      (context (state_of (for_each before (update_section w) p))) in
  forallb (renderable w ctx) entries = true ->
  context (state_of (update_and_remove_templates w pagename p)) !! section
  = Some (VList (VStr <$> List.filter (kept w ctx) entries)).
Proof.
  intros Hsplit Hsec Hs Hret entries ctx Hrender.
  pose proof template_sections_nodup as Hnodup. rewrite Hsplit in Hnodup.
  apply NoDup_app in Hnodup as (_ & Hbefore & [Hafter _]%NoDup_cons).
  assert (section ∈ template_sections) as Hin
    by (rewrite Hsplit; apply elem_of_app; right; by left).
  set (p1 := state_of (for_each before (update_section w) p)) in *.
  assert (context p1 !! section = Some (VStr s)) as Hsec1.
  { unfold p1. rewrite leaves_frame; [done|].
    apply leaves_for_each. intros x Hx. apply leaves_update_section.
    intros ->. apply (Hbefore section Hx). by left. }
  destruct (update_section_str w section s p1 Hsec1 Hs Hrender)
    as (p2 & Hrun & Hctx2).
  assert (update_and_remove_templates w pagename p
          = (for_each after (update_section w) ;; after_sections w pagename) p2)
    as ->.
  { rewrite update_and_remove_templates_sections, Hsplit.
    unfold bind at 1. rewrite for_each_app.
    rewrite seq_returns by done. fold p1. simpl.
    unfold bind at 1. unfold bind at 1. by rewrite Hrun. }
  rewrite leaves_frame.
  - rewrite Hctx2. apply lookup_insert_eq.
  - apply leaves_bind; [| intros _].
    + apply leaves_for_each. intros x Hx. apply leaves_update_section.
      by intros ->.
    + apply leaves_after_sections.
      * by apply (sections_are_not "css_files"); [left|].
      * by apply (sections_are_not "theme_version"); [right|].
Qed.

Lemma template_section_is_split_witness :
  context (state_of (update_and_remove_templates offline "index" navbar_page))
    !! "theme_navbar_start"
  = Some (VList [ VStr "navbar-logo.html"; VStr "version-switcher.html";
                  VStr "navbar-nav.html" ]).
Proof.
  pose proof (template_section_is_split offline "index" navbar_page
                [] "theme_navbar_start" (tail template_sections)
                "navbar-logo, version-switcher.html ,navbar-nav"
                eq_refl eq_refl) as H.
  apply H; [discriminate | reflexivity | reflexivity].
Defined.

(** C6 fails as stated: the section does not end up as the list of all its
    entries; the entry whose template renders empty is gone. *)
Lemma empty_template_is_dropped :
  context footer_page !! "theme_footer_start" = Some (VStr "copyright, empty")
  /\ context (state_of (update_and_remove_templates with_empty_template
                          "index" footer_page)) !! "theme_footer_start"
     = Some (VList [VStr "copyright.html"])
  /\ context (state_of (update_and_remove_templates with_empty_template
                          "index" footer_page)) !! "theme_footer_start"
     <> Some (VList (VStr <$> (suffixed with_empty_template
                                 <$> split_entries "copyright, empty"))).
Proof.
  split; [reflexivity|].
  assert (context (state_of (update_and_remove_templates with_empty_template
                               "index" footer_page)) !! "theme_footer_start"
          = Some (VList [VStr "copyright.html"])) as H
    by (vm_compute; reflexivity).
  split; [exact H|]. rewrite H. vm_compute. discriminate.
Qed.

Lemma theme_css_is_removed_once_witness :
  exists l1 l2,
    [ VStr "_static/pygments.css"; VStr theme_css_name;
      VStr "_static/custom.css"; VStr theme_css_name ]
    = l1 ++ VStr theme_css_name :: l2
    /\ (VStr theme_css_name ∉ l1)
    /\ context (state_of (update_and_remove_templates offline "index" css_page))
         !! "css_files" = Some (VList (l1 ++ l2)).
Proof.
  destruct (theme_css_is_removed_once offline "index" css_page _
              eq_refl eq_refl) as [Hpresent _].
  apply Hpresent. apply list_elem_of_further, list_elem_of_here.
Defined.

(** * Further properties of [update_config] *)

Lemma update_config_confined w : confined fp_update_config (update_config w).
Proof.
  unfold update_config.
  repeat (apply confined_bind; [| intros _]);
    (eapply confined_mono; [| eauto with footprint]);
    intros []; unfold fp_none, fp_update_config, assigned_options; simpl;
    try done; intros ->; repeat constructor.
Qed.

(** X1: [update_config] assigns no other option than [logo],
    [footer_start], [navigation_with_keys] and [icon_links]: every other
    option has its value from before, whether [update_config] returns or
    raises. *)
Theorem update_config_keeps_other_options w a k :
  k ∉ assigned_options ->
  theme_options (state_of (update_config w a)) !! k = theme_options a !! k.
Proof.
  intros Hk. apply (lookup_frame _ _ (update_config_confined w)).
  intros v Hin. by apply Hk.
Qed.

Lemma update_config_keeps_other_options_witness :
  theme_options (state_of (update_config offline all_deprecated)) !! "logo_text"
  = Some (VStr "Docs").
Proof.
  apply (update_config_keeps_other_options offline all_deprecated "logo_text").
  unfold assigned_options. intros Hin.
  repeat (apply elem_of_cons in Hin as [Hin|Hin]; [discriminate|]).
  by apply elem_of_nil in Hin.
Defined.

(** X2: [update_config] removes no option: the deprecated options stay in
    place next to their replacements. *)
Theorem update_config_removes_no_option w a k :
  is_Some (theme_options a !! k) ->
  is_Some (theme_options (state_of (update_config w a)) !! k).
Proof.
  apply (update_config_confined w (fun s => is_Some (theme_options s !! k))).
  intros [k' v| | | | | |] s _ Hs; simpl; try done.
  destruct (decide (k' = k)) as [->|Hne].
  - rewrite lookup_insert_eq. eauto.
  - by rewrite lookup_insert_ne.
Qed.

Lemma update_config_removes_no_option_witness :
  is_Some (theme_options (state_of (update_config offline all_deprecated))
             !! "footer_items").
Proof.
  apply (update_config_removes_no_option offline all_deprecated "footer_items").
  eexists. reflexivity.
Defined.

(** Open a step and go through its branches. *)
Ltac branches :=
  unfold options, getitem, url_of, read_switcher, validate_switcher_content,
    any_missing, warn, set_option, when, modify, get_state, raise, ret, bind;
  simpl;
  repeat (case_match; simpl; try done).

Lemma before_switcher_raises w :
  raises_only (fun e => may_raise e = true) (before_switcher w).
Proof.
  unfold before_switcher.
  repeat (apply raises_only_bind; [| intros _]).
  - intros s e s'. unfold deprecate_logo_text. branches; by intros [= <- <-].
  - apply raises_only_returns, deprecate_footer_items_returns.
  - apply raises_only_returns, deprecate_favicons_returns.
  - apply raises_only_returns, default_navigation_with_keys_returns.
  - intros s e s'. rewrite validate_icon_links_run.
    case_match; [done|]. by intros [= <- <-].
  - apply raises_only_returns, default_permalinks_icon_returns.
Qed.

Lemma check_switcher_raises w :
  raises_only (fun e => may_raise e = true) (check_switcher w).
Proof.
  intros s e s'. unfold check_switcher. branches;
    intros; simplify_eq; simpl; try done;
    match goal with H : caught _ = false |- _ => by rewrite H end.
Qed.

Lemma late_error_may_raise e : late_error e -> may_raise e = true.
Proof. by intros [->|[msg ->]]. Qed.

(** X3: whatever [update_config] raises is a [TypeError], an
    [AttributeError], the [ExtensionError] of the [icon_links] check, the
    [KeyError] of [json_url] or [version_match], a [JSONDecodeError], a
    [ValueError] (of [urlparse] or of the logo check), or an error of the
    read of the switcher file that is not caught; a [ConnectionError],
    [HTTPError] or [RetryError] of the request and a [FileNotFoundError] of
    the local read never reach the caller. *)
Theorem update_config_raises_only w a e :
  raised (update_config w a) = Some e -> may_raise e = true.
Proof.
  intros [s He]%raised_some. revert He. rewrite update_config_phases.
  revert a e s. apply raises_only_bind; [apply before_switcher_raises|].
  intros _. apply raises_only_bind; [apply check_switcher_raises|].
  intros _ s e s' He. apply late_error_may_raise.
  by eapply after_switcher_raises.
Qed.

Lemma update_config_raises_only_witness :
  raised (update_config offline path_logo)
  = Some (ValueError "Incorrect logo config type: <class 'str'>")
  /\ may_raise (ValueError "Incorrect logo config type: <class 'str'>")
     = true.
Proof.
  split; [reflexivity|].
  apply (update_config_raises_only offline path_logo). reflexivity.
Defined.

Lemma get_is_dict opts k d :
  get opts k = VDict d -> opts !! k = Some (VDict d).
Proof. unfold get. destruct (opts !! k) as [v|]; simpl; [by intros ->|done]. Qed.

Lemma check_switcher_reads_once w s :
  io (state_of (check_switcher w s)) = io s
  \/ exists d url,
       theme_options s !! "switcher" = Some (VDict d)
       /\ dict_lookup (KStr "json_url") d = Some (VStr url)
       /\ io (state_of (check_switcher w s))
          = io s ++ [the_read w (srcdir s) url].
Proof.
  unfold check_switcher. branches; intros; simplify_eq; simpl;
    try (by left);
    right; eexists _, _; (split; [by apply get_is_dict|]);
    (split; [done|]); unfold the_read, uses_http;
    match goal with H : urlparse_scheme _ _ = _ |- _ => rewrite H end;
    match goal with H : bool_decide _ = _ |- _ => by rewrite H end.
Qed.

(** X4: [update_config] reads at most once, and only the switcher file:
    over HTTP when the scheme of its [json_url] is [http] or [https],
    from the source directory otherwise. *)
Theorem update_config_reads_at_most_once w a :
  io (state_of (update_config w a)) = io a
  \/ exists d url,
       theme_options a !! "switcher" = Some (VDict d)
       /\ dict_lookup (KStr "json_url") d = Some (VStr url)
       /\ io (state_of (update_config w a))
          = io a ++ [the_read w (srcdir a) url].
Proof.
  rewrite update_config_phases. rewrite state_of_seq.
  destruct (returns (before_switcher w a)); [|left; by frames].
  rewrite state_of_seq.
  set (s := state_of (before_switcher w a)).
  assert (io s = io a) as Hio by (unfold s; by frames).
  assert (srcdir s = srcdir a) as Hdir by (unfold s; by frames).
  assert (theme_options s !! "switcher" = theme_options a !! "switcher")
    as Hsw by (unfold s; by frames).
  destruct (check_switcher_reads_once w s) as [Hsame|(d & url & Hd & Hurl & Hread)].
  - left. destruct (returns (check_switcher w s)); frames; congruence.
  - right. exists d, url. split; [congruence|]. split; [done|].
    destruct (returns (check_switcher w s)); frames; congruence.
Qed.

Lemma adds_bind {A B} count n k (m : M app A) (f : A -> M app B) :
  adds_at_most count n m -> (forall a, adds_at_most count k (f a)) ->
  adds_at_most count (n + k) (bind m f).
Proof.
  intros Hm Hf s. unfold bind. specialize (Hm s).
  destruct (m s) as [a s'|e s']; simpl in *; [|lia].
  specialize (Hf a s'). lia.
Qed.

Lemma adds_nothing_confined {A} fp (m : M app A) x :
  confined fp m -> ~ fp (ELog x) -> adds_at_most (emitted x) 0 m.
Proof. intros Hm Hx s. erewrite emitted_frame by done. lia. Qed.

Lemma log_length_frame {A} fp (m : M app A) s :
  confined fp m -> (forall x, ~ fp (ELog x)) ->
  length (log (state_of (m s))) = length (log s).
Proof.
  intros Hm Hfp.
  apply (Hm (fun s' => length (log s') = length (log s))); [|done].
  intros [|x| | | | |] s' He Hs'; simpl; try done. by destruct (Hfp x).
Qed.

(** Count the warnings a step adds, branch by branch. *)
Ltac count_warnings :=
  intros s; branches; intros; simplify_eq; simpl;
  unfold emitted; simpl; rewrite ?count_occ_app, ?length_app; simpl;
  repeat case_match; simplify_eq; simpl; lia.

Lemma deprecate_logo_text_adds x :
  adds_at_most (emitted x) (if decide (x = WLogoText) then 1 else 0)
    deprecate_logo_text.
Proof. unfold deprecate_logo_text. count_warnings. Qed.

Lemma deprecate_footer_items_adds x :
  adds_at_most (emitted x) (if decide (x = WFooterItems) then 1 else 0)
    deprecate_footer_items.
Proof. unfold deprecate_footer_items. count_warnings. Qed.

Lemma deprecate_favicons_adds x :
  adds_at_most (emitted x) (if decide (x = WFavicons) then 1 else 0)
    deprecate_favicons.
Proof. unfold deprecate_favicons. count_warnings. Qed.

Lemma default_navigation_with_keys_adds x :
  adds_at_most (emitted x) (if decide (x = WNavigationWithKeys) then 1 else 0)
    default_navigation_with_keys.
Proof. unfold default_navigation_with_keys. count_warnings. Qed.

Lemma check_switcher_adds w x :
  adds_at_most (emitted x) (if is_switcher_warning x then 1 else 0)
    (check_switcher w).
Proof. unfold check_switcher. count_warnings. Qed.

Lemma check_switcher_adds_one w :
  adds_at_most (fun s => length (log s)) 1 (check_switcher w).
Proof. unfold check_switcher. count_warnings. Qed.

Lemma adds_no_warning_confined {A} fp (m : M app A) :
  confined fp m -> (forall x, ~ fp (ELog x)) ->
  adds_at_most (fun s => length (log s)) 0 m.
Proof. intros Hm Hfp s. erewrite log_length_frame by done. lia. Qed.

Lemma deprecate_logo_text_adds_one :
  adds_at_most (fun s => length (log s)) 1 deprecate_logo_text.
Proof. unfold deprecate_logo_text. count_warnings. Qed.

Lemma deprecate_footer_items_adds_one :
  adds_at_most (fun s => length (log s)) 1 deprecate_footer_items.
Proof. unfold deprecate_footer_items. count_warnings. Qed.

Lemma deprecate_favicons_adds_one :
  adds_at_most (fun s => length (log s)) 1 deprecate_favicons.
Proof. unfold deprecate_favicons. count_warnings. Qed.

Lemma default_navigation_with_keys_adds_one :
  adds_at_most (fun s => length (log s)) 1 default_navigation_with_keys.
Proof. unfold default_navigation_with_keys. count_warnings. Qed.

(** Bound a sequence of steps by the sum of the bounds of its steps. *)
Ltac sum_steps tac :=
  first [ eapply adds_bind; [ solve [tac] | intros _; sum_steps tac ]
        | solve [tac] ].

(** X5: [update_config] logs at most five warnings, and none of them
    twice: each of the three deprecation warnings, the notice about
    [navigation_with_keys] and any one warning about the switcher file is
    logged at most once, whether [update_config] returns or raises. *)
Theorem update_config_warns_at_most_once w a :
  (length (log (state_of (update_config w a))) <= length (log a) + 5)%nat
  /\ forall x,
       (emitted x (state_of (update_config w a)) <= emitted x a + 1)%nat.
Proof.
  split.
  - assert (exists n, adds_at_most (fun s => length (log s)) n (update_config w)
                      /\ (n <= 5)%nat) as (n & Hn & Hle).
    { eexists. split.
      - unfold update_config.
        sum_steps ltac:(
          first [ apply deprecate_logo_text_adds_one
                | apply deprecate_footer_items_adds_one
                | apply deprecate_favicons_adds_one
                | apply default_navigation_with_keys_adds_one
                | apply check_switcher_adds_one
                | eapply adds_no_warning_confined;
                  [solve [eauto with footprint]
                  | intros ?; unfold fp_none; simpl; tauto] ]).
      - simpl. lia. }
    specialize (Hn a). simpl in Hn. lia.
  - intros x.
    assert (exists n, adds_at_most (emitted x) n (update_config w)
                      /\ (n <= 1)%nat) as (n & Hn & Hle).
    { eexists. split.
      - unfold update_config.
        sum_steps ltac:(
          first [ apply deprecate_logo_text_adds
                | apply deprecate_footer_items_adds
                | apply deprecate_favicons_adds
                | apply default_navigation_with_keys_adds
                | apply check_switcher_adds
                | eapply adds_nothing_confined;
                  [solve [eauto with footprint]
                  | unfold fp_none; simpl; tauto] ]).
      - destruct x; simpl; lia. }
    specialize (Hn a). lia.
Qed.

(** ** Errors of the switcher check that stop the build *)

Lemma update_config_reads w a url :
  reads_switcher a url ->
  update_config w a =
    ((let* r := read_switcher w url in
      match r with
      | inl reading_error => warn (WSwitcherUnreadable url reading_error)
      | inr content => validate_switcher_content w url content
      end) ;; after_switcher w) (at_switcher w a).
Proof.
  intros (Hshim & Hicon & Hcheck & d & vm & Hsw & Hurl & Hvm).
  rewrite update_config_at_switcher by done. unfold bind at 1.
  rewrite (check_switcher_reads w _ d url vm);
    [done | by rewrite switcher_at_switcher
     | by rewrite check_switcher_at_switcher | done | done].
Qed.

Lemma read_switcher_crashes w s url e :
  read_crashes w (srcdir s) url e ->
  read_switcher w url s = Raise e (push_io (the_read w (srcdir s) url) s).
Proof.
  unfold read_crashes, read_switcher, the_read, parses, uses_http.
  destruct (urlparse_scheme w url) as [msg|scheme]; intros [Hparses Hread];
    [done|].
  destruct (bool_decide _); unfold bind, modify, get_state; simpl.
  - destruct Hread as (c & repr & -> & Hc & ->). by rewrite Hc.
  - by destruct Hread as (repr & -> & ->).
Qed.

(** X6: an error of the read of the switcher file other than those the
    check catches (a timeout of the request, a local path that is a
    directory) is not turned into a warning: [update_config] raises it
    right after the read. *)
Theorem uncaught_read_error_stops_update_config w a url e :
  reads_switcher a url ->
  read_crashes w (srcdir a) url e ->
  update_config w a
  = Raise e (push_io (the_read w (srcdir a) url) (at_switcher w a))
  /\ switcher_log (state_of (update_config w a)) = switcher_log a.
Proof.
  intros Hreads Hcrash.
  assert (update_config w a
          = Raise e (push_io (the_read w (srcdir a) url) (at_switcher w a)))
    as Hrun.
  { rewrite (update_config_reads w a url) by done. unfold bind.
    rewrite (read_switcher_crashes w _ url e);
      rewrite srcdir_at_switcher; done. }
  split; [done|]. rewrite Hrun. simpl. apply switcher_log_at_switcher.
Qed.

Lemma with_switcher_reads url : reads_switcher (with_switcher url) url.
Proof.
  split; [reflexivity|]. split; [reflexivity|]. split; [reflexivity|].
  eexists _, _. split; [reflexivity|]. split; reflexivity.
Defined.

Lemma uncaught_read_error_stops_update_config_witness :
  update_config timing_out (with_switcher "https://example.org/switcher.json")
  = Raise (RequestsError ReqOther "ReadTimeout()")
      (push_io (HttpGet "https://example.org/switcher.json")
         (at_switcher timing_out
            (with_switcher "https://example.org/switcher.json"))).
Proof.
  apply (uncaught_read_error_stops_update_config timing_out
           (with_switcher "https://example.org/switcher.json")
           "https://example.org/switcher.json").
  - apply with_switcher_reads.
  - split; [reflexivity|].
    exists ReqOther, "ReadTimeout()". split; [reflexivity|]. split; reflexivity.
Defined.

(** X7: a switcher file that is retrieved but is no JSON stops
    [update_config] with the error of the parser; no warning is logged. *)
Theorem non_json_switcher_stops_update_config w a url content repr :
  reads_switcher a url ->
  retrieved w (srcdir a) url content ->
  json_loads w content = inl repr ->
  update_config w a
  = Raise (JSONDecodeError repr)
      (push_io (the_read w (srcdir a) url) (at_switcher w a)).
Proof.
  intros Hreads Hget Hjson.
  rewrite (update_config_reads w a url) by done. unfold bind.
  rewrite (read_switcher_retrieved w _ url content);
    rewrite srcdir_at_switcher; [|done].
  unfold validate_switcher_content. by rewrite Hjson.
Qed.

Lemma non_json_switcher_stops_update_config_witness :
  update_config (serving_text "<html>") (with_switcher "_static/switcher.json")
  = Raise (JSONDecodeError
             "JSONDecodeError('Expecting value: line 1 column 1 (char 0)')")
      (push_io (ReadText "docs" "_static/switcher.json")
         (at_switcher (serving_text "<html>")
            (with_switcher "_static/switcher.json"))).
Proof.
  apply (non_json_switcher_stops_update_config (serving_text "<html>")
           (with_switcher "_static/switcher.json") "_static/switcher.json"
           "<html>").
  - apply with_switcher_reads.
  - split; reflexivity.
  - reflexivity.
Defined.

(** X8: a switcher file whose JSON is not a collection (a number, [null]),
    or one of whose items is a number, a boolean or [null], does not give
    the warning about a malformed file: the search for the keys raises
    [TypeError] and [update_config] stops. *)
Theorem unsearchable_switcher_stops_update_config w a url content parsed :
  reads_switcher a url ->
  retrieved w (srcdir a) url content ->
  json_loads w content = inr parsed ->
  unsearchable parsed = true ->
  update_config w a
  = Raise TypeError (push_io (the_read w (srcdir a) url) (at_switcher w a)).
Proof.
  intros Hreads Hget Hjson Hbad.
  rewrite (update_config_reads w a url) by done. unfold bind.
  rewrite (read_switcher_retrieved w _ url content);
    rewrite srcdir_at_switcher; [|done].
  by rewrite (validate_switcher_content_unsearchable _ _ _ parsed).
Qed.

Lemma unsearchable_switcher_stops_update_config_witness :
  update_config (serving "[{}, null]" (VList [VDict []; VNone]))
    (with_switcher "_static/switcher.json")
  = Raise TypeError
      (push_io (ReadText "docs" "_static/switcher.json")
         (at_switcher (serving "[{}, null]" (VList [VDict []; VNone]))
            (with_switcher "_static/switcher.json"))).
Proof.
  apply (unsearchable_switcher_stops_update_config
           (serving "[{}, null]" (VList [VDict []; VNone]))
           (with_switcher "_static/switcher.json") "_static/switcher.json"
           "[{}, null]" (VList [VDict []; VNone])).
  - apply with_switcher_reads.
  - split; reflexivity.
  - reflexivity.
  - reflexivity.
Defined.

(** ** The defaults [update_config] fills in *)

Section FieldFrames.

Context {A : Type} (m : M app A) (fp : effect -> Prop).
Hypothesis Hm : confined fp m.

Lemma permalinks_frame s :
  (forall v, ~ fp (EPermalinks v)) ->
  html_permalinks_icon (state_of (m s)) = html_permalinks_icon s.
Proof.
  intros Hfp.
  apply (Hm (fun s' => html_permalinks_icon s' = html_permalinks_icon s));
    [|done].
  intros [| | | | |v|] s' He Hs'; simpl; try done. by destruct (Hfp v).
Qed.

Lemma fontawesome_frame s :
  (forall v, ~ fp (EFontawesome v)) ->
  fontawesome_included (state_of (m s)) = fontawesome_included s.
Proof.
  intros Hfp.
  apply (Hm (fun s' => fontawesome_included s' = fontawesome_included s));
    [|done].
  intros [| | | | | |v] s' He Hs'; simpl; try done. by destruct (Hfp v).
Qed.

Lemma js_files_frame s :
  (forall j, ~ fp (EJs j)) -> js_files (state_of (m s)) = js_files s.
Proof.
  intros Hfp.
  apply (Hm (fun s' => js_files s' = js_files s)); [|done].
  intros [| |j| | | |] s' He Hs'; simpl; try done. by destruct (Hfp j).
Qed.

Lemma extensions_frame s : extensions (state_of (m s)) = extensions s.
Proof.
  apply (Hm (fun s' => extensions s' = extensions s)); [|done].
  by intros [] s' He Hs'.
Qed.

End FieldFrames.

(** Footprint of a run of steps from the footprints of the steps. *)
Ltac confine_steps :=
  repeat (apply confined_bind; [| intros _]);
  (eapply confined_mono; [| solve [eauto with footprint]]);
  intros []; unfold fp_none; simpl; intros; subst; auto; try done;
  intuition discriminate.

Lemma default_navigation_with_keys_run s :
  default_navigation_with_keys s =
    Return tt
      (match get (theme_options s) "navigation_with_keys" with
       | VNone =>
           set_theme_options (<["navigation_with_keys" := VBool false]>)
             (push_log WNavigationWithKeys s)
       | _ => s
       end).
Proof.
  unfold default_navigation_with_keys, options, bind, get_or, get. simpl.
  by destruct (default VNone (theme_options s !! "navigation_with_keys")).
Qed.

Lemma after_navigation_confined w :
  confined fp_after_navigation
    (validate_icon_links ;; default_permalinks_icon w ;; check_switcher w ;;
     after_switcher w).
Proof. confine_steps. Qed.

(** X9: once the [logo_text] shim has run through, an option
    [navigation_with_keys] that is missing or [None] is set to [False] with
    exactly one notice in the log; any other value, [False] included, is
    kept and no notice is logged. *)
Theorem navigation_with_keys_is_defaulted w a :
  shim_ok (theme_options a) = true ->
  let s' := state_of (update_config w a) in
  (get (theme_options a) "navigation_with_keys" = VNone ->
   theme_options s' !! "navigation_with_keys" = Some (VBool false)
   /\ emitted WNavigationWithKeys s' = S (emitted WNavigationWithKeys a))
  /\ (get (theme_options a) "navigation_with_keys" <> VNone ->
      theme_options s' !! "navigation_with_keys"
      = theme_options a !! "navigation_with_keys"
      /\ emitted WNavigationWithKeys s' = emitted WNavigationWithKeys a).
Proof.
  intros Hshim s'. subst s'.
  rewrite update_config_deprecated by done.
  pose proof (after_navigation_confined w) as Htail.
  set (s3 := state_of (deprecate_favicons
               (state_of (deprecate_footer_items
                  (state_of (deprecate_logo_text a)))))).
  assert (get (theme_options s3) "navigation_with_keys"
          = get (theme_options a) "navigation_with_keys") as Hget
    by (unfold s3; by frames).
  assert (theme_options s3 !! "navigation_with_keys"
          = theme_options a !! "navigation_with_keys") as Hlook
    by (unfold s3; by frames).
  assert (emitted WNavigationWithKeys s3 = emitted WNavigationWithKeys a)
    as Hlog by (unfold s3; by frames).
  assert (deprecated a = state_of (default_navigation_with_keys s3)) as Hdep
    by done.
  rewrite default_navigation_with_keys_run, Hget in Hdep. simpl in Hdep.
  split.
  - intros Hnone. rewrite Hnone in Hdep.
    erewrite (lookup_frame _ _ Htail) by (simpl; intuition discriminate).
    erewrite (emitted_frame _ _ Htail) by (simpl; intuition discriminate).
    rewrite Hdep. split; [simpl; apply lookup_insert_eq|].
    change (emitted WNavigationWithKeys
              (push_log WNavigationWithKeys s3)
            = S (emitted WNavigationWithKeys a)).
    rewrite emitted_push_log, decide_True, Hlog by done. lia.
  - intros Hset.
    erewrite (lookup_frame _ _ Htail) by (simpl; intuition discriminate).
    erewrite (emitted_frame _ _ Htail) by (simpl; intuition discriminate).
    assert (deprecated a = s3) as ->.
    { rewrite Hdep.
      by destruct (get (theme_options a) "navigation_with_keys"). }
    done.
Qed.

Lemma navigation_with_keys_is_defaulted_witness :
  theme_options (state_of (update_config offline all_deprecated))
    !! "navigation_with_keys" = Some (VBool false)
  /\ emitted WNavigationWithKeys (state_of (update_config offline all_deprecated))
     = 1%nat.
Proof.
  destruct (navigation_with_keys_is_defaulted offline all_deprecated eq_refl)
    as [Hnone _].
  exact (Hnone eq_refl).
Defined.

(** A kind of change outside a footprint. *)
Ltac untouched := solve [intros ?; unfold fp_none; simpl; tauto].

Lemma check_and_after_confined w :
  confined fp_after_permalinks (check_switcher w ;; after_switcher w).
Proof. confine_steps. Qed.

Lemma permalinks_deprecated a :
  html_permalinks_icon (deprecated a) = html_permalinks_icon a.
Proof.
  unfold deprecated.
  erewrite (permalinks_frame _ _ default_navigation_with_keys_confined)
    by untouched.
  erewrite (permalinks_frame _ _ deprecate_favicons_confined) by untouched.
  erewrite (permalinks_frame _ _ deprecate_footer_items_confined)
    by untouched.
  by erewrite (permalinks_frame _ _ deprecate_logo_text_confined)
    by untouched.
Qed.

(** X10: [update_config] sets the permalink icon to ["#"] exactly when it
    gets there (the [logo_text] shim and the [icon_links] check pass) and
    the user has not configured [html_permalinks_icon]; otherwise the icon
    is the one from before. *)
Theorem permalinks_icon_is_defaulted w a :
  html_permalinks_icon (state_of (update_config w a))
  = if shim_ok (theme_options a) && icon_links_ok (theme_options a)
       && negb (config_provided_by_user w "html_permalinks_icon")
    then VStr "#"
    else html_permalinks_icon a.
Proof.
  destruct (shim_ok (theme_options a)) eqn:Hshim; simpl;
    [|by rewrite update_config_raises_early].
  rewrite update_config_deprecated by done. unfold bind at 1.
  rewrite validate_icon_links_run.
  unfold icon_links_ok at 1, get_or. rewrite icon_links_deprecated.
  fold (get_or (theme_options a) "icon_links" (VList [])).
  fold (icon_links_ok (theme_options a)).
  destruct (icon_links_ok (theme_options a)); simpl;
    [|apply permalinks_deprecated].
  rewrite seq_returns by apply default_permalinks_icon_returns.
  erewrite (permalinks_frame _ _ (check_and_after_confined w)) by untouched.
  unfold default_permalinks_icon, when.
  destruct (config_provided_by_user w "html_permalinks_icon"); simpl;
    [apply permalinks_deprecated | done].
Qed.

(** ** Analytics and ABlog *)

Lemma before_analytics_confined w :
  confined fp_no_script (before_analytics w).
Proof. unfold before_analytics, before_switcher. confine_steps. Qed.

Lemma after_analytics_confined w :
  confined fp_no_script
    (default_fontawesome_included w ;; add_icon_link_shortcuts ;; prepare_logo).
Proof. confine_steps. Qed.

Lemma update_config_before_analytics w a :
  update_config w a =
    (before_analytics w ;; add_analytics ;;
     default_fontawesome_included w ;; add_icon_link_shortcuts ;;
     prepare_logo) a.
Proof.
  unfold update_config, before_analytics, before_switcher. regroup.
Qed.

Lemma add_analytics_run s :
  analytics_ok (theme_options s) = true ->
  exists s',
    add_analytics s = Return tt s'
    /\ js_files s'
       = js_files s
         ++ analytics_js (get_or (theme_options s) "analytics" (VDict [])).
Proof.
  unfold analytics_ok, add_analytics, analytics_js, options, bind, when,
    modify, ret. simpl.
  destruct (get_or (theme_options s) "analytics" (VDict [])) as [| | | | |d];
    simpl;
    try (rewrite orb_false_r; intros Hfalsy; apply negb_true_iff in Hfalsy;
         rewrite ?Hfalsy; eexists; split; [done|]; by rewrite app_nil_r).
  { intros _. eexists. split; [done|]. by rewrite app_nil_r. }
  intros _. destruct d as [|kv d].
  { eexists. split; [done|]. by rewrite app_nil_r. }
  set (analytics := kv :: d).
  destruct (truthy (dict_get analytics "plausible_analytics_domain")
            && truthy (dict_get analytics "plausible_analytics_url"));
    destruct (truthy (dict_get analytics "google_analytics_id"));
    eexists; (split; [done|]); simpl;
    rewrite <- ?app_assoc, ?app_nil_r; done.
Qed.

Lemma add_analytics_raises s :
  analytics_ok (theme_options s) = false ->
  add_analytics s = Raise AttributeError s.
Proof.
  unfold analytics_ok, add_analytics, options, bind, when. simpl.
  destruct (get_or (theme_options s) "analytics" (VDict [])) as [| | | | |d];
    simpl; try done;
    try (rewrite orb_true_r; done);
    rewrite orb_false_r; intros Hfalsy; apply negb_false_iff in Hfalsy;
    by rewrite ?Hfalsy.
Qed.

(** X11: once [update_config] gets to the analytics, a well-formed
    [analytics] option registers the Plausible script when both its domain
    and its URL are set, then the two Google scripts (loader, then
    configuration) when [google_analytics_id] is set, and nothing else is
    ever registered as a script by [update_config]. *)
Theorem analytics_scripts_are_registered w a :
  returns (before_analytics w a) = true ->
  analytics_ok (theme_options a) = true ->
  js_files (state_of (update_config w a))
  = js_files a
    ++ analytics_js (get_or (theme_options a) "analytics" (VDict [])).
Proof.
  intros Hret Han. rewrite update_config_before_analytics.
  rewrite seq_returns by done.
  set (s := state_of (before_analytics w a)).
  pose proof (before_analytics_confined w) as Hbefore.
  assert (js_files s = js_files a) as Hjs
    by (unfold s; by erewrite (js_files_frame _ _ Hbefore) by untouched).
  assert (get_or (theme_options s) "analytics" (VDict [])
          = get_or (theme_options a) "analytics" (VDict [])) as Hopt.
  { unfold s, before_analytics.
    rewrite state_of_seq. destruct (returns (before_switcher w a)); by frames. }
  destruct (add_analytics_run s) as (s1 & Hrun & Hjs1).
  { unfold analytics_ok. by rewrite Hopt. }
  rewrite (bind_return _ _ _ _ _ Hrun).
  erewrite (js_files_frame _ _ (after_analytics_confined w)) by untouched.
  by rewrite Hjs1, Hjs, Hopt.
Qed.

Lemma analytics_scripts_are_registered_witness :
  js_files (state_of (update_config offline with_analytics))
  = [JsGtagLoader (VStr "G-XXXX"); JsGtagConfig (VStr "G-XXXX")].
Proof.
  apply (analytics_scripts_are_registered offline with_analytics);
    reflexivity.
Defined.

(** X12: an [analytics] option that is set but is no dict (an identifier
    given as a plain string, say) makes [update_config] raise
    [AttributeError] when it gets to the analytics. *)
Theorem analytics_must_be_a_dict w a :
  returns (before_analytics w a) = true ->
  analytics_ok (theme_options a) = false ->
  update_config w a = Raise AttributeError (state_of (before_analytics w a)).
Proof.
  intros Hret Han. rewrite update_config_before_analytics.
  rewrite seq_returns by done.
  set (s := state_of (before_analytics w a)).
  assert (get_or (theme_options s) "analytics" (VDict [])
          = get_or (theme_options a) "analytics" (VDict [])) as Hopt.
  { unfold s, before_analytics.
    rewrite state_of_seq. destruct (returns (before_switcher w a)); by frames. }
  rewrite (bind_raise _ _ _ AttributeError s); [done|].
  apply add_analytics_raises. unfold analytics_ok. by rewrite Hopt.
Qed.

Lemma analytics_must_be_a_dict_witness :
  update_config offline analytics_as_text
  = Raise AttributeError (state_of (before_analytics offline analytics_as_text)).
Proof.
  apply (analytics_must_be_a_dict offline analytics_as_text); reflexivity.
Defined.

Lemma before_fontawesome_confined w :
  confined fp_no_fontawesome (before_fontawesome w).
Proof. unfold before_fontawesome, before_switcher. confine_steps. Qed.

Lemma after_fontawesome_confined :
  confined fp_no_fontawesome (add_icon_link_shortcuts ;; prepare_logo).
Proof. confine_steps. Qed.

Lemma update_config_before_fontawesome w a :
  update_config w a =
    (before_fontawesome w ;; default_fontawesome_included w ;;
     add_icon_link_shortcuts ;; prepare_logo) a.
Proof.
  unfold update_config, before_fontawesome, before_switcher. regroup.
Qed.

(** X13: [update_config] switches [fontawesome_included] to [True] exactly
    when it gets there, the extension [ablog] is loaded and the user has
    not configured [fontawesome_included]; otherwise the setting is the one
    from before. *)
Theorem fontawesome_included_is_defaulted w a :
  fontawesome_included (state_of (update_config w a))
  = if returns (before_fontawesome w a)
       && bool_decide ("ablog" ∈ extensions a)
       && negb (config_provided_by_user w "fontawesome_included")
    then VBool true
    else fontawesome_included a.
Proof.
  rewrite update_config_before_fontawesome, state_of_seq.
  pose proof (before_fontawesome_confined w) as Hbefore.
  destruct (returns (before_fontawesome w a)); simpl;
    [|by erewrite (fontawesome_frame _ _ Hbefore) by untouched].
  set (s := state_of (before_fontawesome w a)).
  assert (fontawesome_included s = fontawesome_included a) as Hfa
    by (unfold s; by erewrite (fontawesome_frame _ _ Hbefore) by untouched).
  assert (extensions s = extensions a) as Hext
    by (unfold s; by erewrite (extensions_frame _ _ Hbefore)).
  rewrite seq_returns by apply default_fontawesome_included_returns.
  erewrite (fontawesome_frame _ _ after_fontawesome_confined) by untouched.
  unfold default_fontawesome_included, bind, get_state, when. rewrite Hext.
  by destruct (bool_decide ("ablog" ∈ extensions a)
               && negb (config_provided_by_user w "fontawesome_included")).
Qed.

(** ** The logo and the outcome of [update_config] *)

(** X14: without [logo_text], a [logo] option that is a non-empty dict is
    the logo afterwards, unchanged, whether [update_config] returns or
    raises. *)
Theorem logo_dict_is_kept w a d :
  truthy (get (theme_options a) "logo_text") = false ->
  theme_options a !! "logo" = Some (VDict d) ->
  d <> [] ->
  theme_options (state_of (update_config w a)) !! "logo" = Some (VDict d).
Proof.
  intros Htext Hlogo Hd.
  assert (theme_options (state_of (before_logo w a)) !! "logo"
          = Some (VDict d)) as Hbefore.
  { apply get_is_dict. rewrite logo_before_logo by done.
    unfold get. by rewrite Hlogo. }
  rewrite update_config_before_logo, state_of_seq.
  destruct (returns (before_logo w a)); [|done].
  apply prepare_logo_keeps_dict; [done|]. by destruct d.
Qed.

Lemma logo_dict_is_kept_witness :
  theme_options (state_of (update_config offline with_logo_images)) !! "logo"
  = Some (VDict [(KStr "image_light", VStr "logo.png")]).
Proof.
  apply (logo_dict_is_kept offline with_logo_images);
    [reflexivity | reflexivity | discriminate].
Defined.

Lemma prepare_logo_raises s :
  logo_ok (theme_options s) = false -> returns (prepare_logo s) = false.
Proof.
  unfold logo_ok. rewrite prepare_logo_run. simpl.
  destruct (truthy (get (theme_options s) "logo")); simpl; [|done].
  by intros ->.
Qed.

Lemma logo_ok_after_shim a :
  shim_ok (theme_options a) = true ->
  logo_ok (theme_options (state_of (deprecate_logo_text a)))
  = logo_ok (theme_options a).
Proof.
  intros Hshim. rewrite deprecate_logo_text_run by done.
  destruct (truthy (get (theme_options a) "logo_text")) eqn:Htext; [|done].
  unfold shim_ok in Hshim. rewrite Htext in Hshim. simpl in Hshim.
  unfold logo_ok at 1. cbn [state_of theme_options push_log set_theme_options].
  assert (forall v, get (<["logo" := v]> (theme_options a)) "logo" = v) as Hget
    by (intros v; unfold get; by rewrite lookup_insert_eq).
  rewrite !Hget. cbn [is_dict]. rewrite orb_true_r.
  unfold logo_ok, get, get_or in *.
  destruct (theme_options a !! "logo") as [v|]; simpl in *; [|done].
  by rewrite Hshim, orb_true_r.
Qed.

Lemma logo_ok_at_switcher_eq w a :
  shim_ok (theme_options a) = true ->
  icon_links_ok (theme_options a) = true ->
  logo_ok (theme_options (at_switcher w a)) = logo_ok (theme_options a).
Proof.
  intros Hshim Hicon. rewrite <- (logo_ok_after_shim a) by done.
  unfold at_switcher, before_switcher, logo_ok.
  rewrite seq_returns by by apply deprecate_logo_text_returns.
  by walk.
Qed.

(** X15: with the switcher check off, [update_config] returns exactly when
    the options are well-formed: [logo_text] comes with no [logo] or with a
    dict, [icon_links] is absent or a list, and [analytics] and [logo] are
    each unset or a dict. *)
Theorem update_config_returns_iff_well_formed w a :
  switcher_checked (theme_options a) = false ->
  returns (update_config w a)
  = shim_ok (theme_options a) && icon_links_ok (theme_options a)
    && analytics_ok (theme_options a) && logo_ok (theme_options a).
Proof.
  intros Hoff.
  destruct (shim_ok (theme_options a)) eqn:Hshim; simpl;
    [|by rewrite update_config_raises_early].
  destruct (icon_links_ok (theme_options a)) eqn:Hicon; simpl.
  2:{ rewrite update_config_deprecated by done. unfold bind at 1.
      rewrite validate_icon_links_run.
      unfold icon_links_ok in *. unfold get_or in *.
      by rewrite icon_links_deprecated, Hicon. }
  rewrite update_config_at_switcher by done.
  set (s := at_switcher w a).
  assert (analytics_ok (theme_options s) = analytics_ok (theme_options a))
    as Han by (unfold s, at_switcher, analytics_ok; by frames).
  assert (icon_links_ok (theme_options s) = true) as Hicon'
    by (unfold s, at_switcher, icon_links_ok in *; by frames).
  assert (logo_ok (theme_options s) = logo_ok (theme_options a)) as Hlogo
    by by apply logo_ok_at_switcher_eq.
  rewrite (bind_return _ _ _ tt s).
  2:{ apply check_switcher_skipped.
      unfold s, at_switcher, switcher_checked in *. by frames. }
  rewrite <- Han, <- Hlogo.
  destruct (analytics_ok (theme_options s)) eqn:Han'; simpl.
  2:{ unfold after_switcher.
      by rewrite (bind_raise _ _ _ _ _ (add_analytics_raises s Han')). }
  destruct (logo_ok (theme_options s)) eqn:Hlogo'.
  { by apply after_switcher_returns. }
  unfold after_switcher.
  rewrite seq_returns by by apply add_analytics_returns.
  rewrite seq_returns by apply default_fontawesome_included_returns.
  rewrite seq_returns.
  - apply prepare_logo_raises. unfold logo_ok in *. by frames.
  - apply add_icon_link_shortcuts_returns. unfold icon_links_ok in *.
    by frames.
Qed.

Lemma update_config_returns_iff_well_formed_witness :
  returns (update_config offline unchecked_switcher) = true
  /\ returns (update_config offline analytics_as_text) = false.
Proof.
  split.
  - apply (update_config_returns_iff_well_formed offline unchecked_switcher).
    reflexivity.
  - apply (update_config_returns_iff_well_formed offline analytics_as_text).
    reflexivity.
Defined.

(** * Further properties of [update_and_remove_templates] *)

Lemma update_section_falsy w section p :
  truthy (get (context p) section) = false ->
  update_section w section p = Return tt p.
Proof.
  intros Hfalsy. unfold update_section, the_context, bind. simpl.
  by rewrite Hfalsy.
Qed.

Lemma preserves_for_each_in {St A} (I : St -> Prop) (xs : list A)
  (body : A -> M St unit) :
  (forall x, x ∈ xs -> preserves I (body x)) ->
  preserves I (for_each xs body).
Proof.
  induction xs as [|x xs IH]; intros H; simpl.
  - apply preserves_ret.
  - apply preserves_bind; [apply H; by left | intros _].
    apply IH. intros y Hy. apply H. by right.
Qed.

(** X16: the hook writes no other entry of the context than the template
    sections that are set, [css_files] and [theme_version]: every other
    entry, and every template section that is missing, [None] or empty, is
    as before, whether the hook returns or raises. *)
Theorem other_entries_are_untouched w pagename p k :
  k <> "css_files" ->
  k <> "theme_version" ->
  (k ∈ template_sections -> truthy (get (context p) k) = false) ->
  context (state_of (update_and_remove_templates w pagename p)) !! k
  = context p !! k.
Proof.
  intros Hcss Hver Hfalsy.
  apply (preserves_bind (fun p' => context p' !! k = context p !! k));
    [| intros _; by apply leaves_after_sections | done].
  apply preserves_for_each_in. intros section Hin.
  destruct (decide (section = k)) as [->|Hne];
    [| by apply leaves_update_section].
  intros p' Hp'. rewrite update_section_falsy; [done|].
  unfold get in *. rewrite Hp'. by apply Hfalsy.
Qed.

Lemma other_entries_are_untouched_witness :
  context (state_of (update_and_remove_templates offline "install"
                       sidebar_page)) !! "title" = Some (VStr "Install")
  /\ context (state_of (update_and_remove_templates offline "install"
                          sidebar_page)) !! "theme_footer_start"
     = Some (VStr "").
Proof.
  split.
  - apply (other_entries_are_untouched offline "install" sidebar_page "title");
      [discriminate | discriminate |].
    intros Hin. unfold template_sections in Hin.
    repeat (apply elem_of_cons in Hin as [Hin|Hin]; [discriminate|]).
    by apply elem_of_nil in Hin.
  - apply (other_entries_are_untouched offline "install" sidebar_page
             "theme_footer_start"); [discriminate | discriminate |].
    intros _. reflexivity.
Defined.

Lemma update_section_list w section ts p :
  context p !! section = Some (VList (VStr <$> ts)) ->
  ts <> [] ->
  let entries := suffixed w <$> ts in
  let ctx := <[section := VList (VStr <$> entries)]> (context p) in
  forallb (renderable w ctx) entries = true ->
  exists p',
    update_section w section p = Return tt p'
    /\ context p'
       = <[section := VList (VStr <$> List.filter (kept w ctx) entries)]>
           (context p).
Proof.
  intros Hsec Hts entries ctx Hrender.
  destruct (add_suffixes_strings w section ts [] p) as (p1 & Hsuffix & Hctx1);
    [done|].
  simpl in Hsuffix, Hctx1. fold entries in Hctx1. fold ctx in Hctx1.
  exists (set_context
            (<[section := VList (VStr <$> List.filter (kept w ctx) entries)]>)
            p1).
  split.
  - unfold update_section, the_context. unfold bind at 1.
    unfold get. rewrite Hsec. simpl.
    assert (match VStr <$> ts with [] => false | _ :: _ => true end = true)
      as -> by by destruct ts.
    simpl. unfold bind at 1. unfold ret at 1.
    unfold bind at 1. unfold bind at 1. unfold iterate at 1.
    rewrite Hsec. simpl. unfold bind at 1. rewrite Hsuffix.
    unfold bind at 1. unfold bind at 1. unfold iterate at 1.
    rewrite Hctx1. unfold ctx at 1. rewrite lookup_insert_eq. simpl.
    unfold bind at 1.
    rewrite filter_templates_strings by by rewrite Hctx1.
    by rewrite Hctx1.
  - simpl. rewrite Hctx1. unfold ctx. by rewrite insert_insert_eq.
Qed.

(** X17: a template section given as a non-empty list of names is
    replaced by the list of the names, with [.html] appended to those
    without an extension, in their order, without those whose template
    renders to nothing but white space; the names are not stripped and not
    split at commas. *)
Theorem template_list_is_suffixed_and_pruned w pagename p before section
  after ts :
  template_sections = before ++ section :: after ->
  context p !! section = Some (VList (VStr <$> ts)) ->
  ts <> [] ->
  returns (for_each before (update_section w) p) = true ->
  let entries := suffixed w <$> ts in
  let ctx :=
    <[section := VList (VStr <$> entries)]>
      (context (state_of (for_each before (update_section w) p))) in
  forallb (renderable w ctx) entries = true ->
  context (state_of (update_and_remove_templates w pagename p)) !! section
  = Some (VList (VStr <$> List.filter (kept w ctx) entries)).
Proof.
  intros Hsplit Hsec Hts Hret entries ctx Hrender.
  pose proof template_sections_nodup as Hnodup. rewrite Hsplit in Hnodup.
  apply NoDup_app in Hnodup as (_ & Hbefore & [Hafter _]%NoDup_cons).
  assert (section ∈ template_sections) as Hin
    by (rewrite Hsplit; apply elem_of_app; right; by left).
  set (p1 := state_of (for_each before (update_section w) p)) in *.
  assert (context p1 !! section = Some (VList (VStr <$> ts))) as Hsec1.
  { unfold p1. rewrite leaves_frame; [done|].
    apply leaves_for_each. intros x Hx. apply leaves_update_section.
    intros ->. apply (Hbefore section Hx). by left. }
  destruct (update_section_list w section ts p1 Hsec1 Hts Hrender)
    as (p2 & Hrun & Hctx2).
  assert (update_and_remove_templates w pagename p
          = (for_each after (update_section w) ;; after_sections w pagename) p2)
    as ->.
  { rewrite update_and_remove_templates_sections, Hsplit.
    unfold bind at 1. rewrite for_each_app.
    rewrite seq_returns by done. fold p1. simpl.
    unfold bind at 1. unfold bind at 1. by rewrite Hrun. }
  rewrite leaves_frame.
  - rewrite Hctx2. apply lookup_insert_eq.
  - apply leaves_bind; [| intros _].
    + apply leaves_for_each. intros x Hx. apply leaves_update_section.
      by intros ->.
    + apply leaves_after_sections.
      * by apply (sections_are_not "css_files"); [left|].
      * by apply (sections_are_not "theme_version"); [right|].
Qed.

Lemma template_list_is_suffixed_and_pruned_witness :
  context (state_of (update_and_remove_templates with_empty_template
                       "install" sidebar_page)) !! "sidebars"
  = Some (VList [VStr "sidebar-nav-bs.html"; VStr "search-field.html"]).
Proof.
  pose proof (template_list_is_suffixed_and_pruned with_empty_template
                "install" sidebar_page
                (removelast template_sections) "sidebars" []
                ["sidebar-nav-bs"; "search-field.html"]
                eq_refl eq_refl) as H.
  apply H; [discriminate | reflexivity | reflexivity].
Defined.

(** X18: [theme_version] is the version of the theme after the hook has
    returned; it is written last, so a hook that raises leaves the entry as
    it was. *)
Theorem theme_version_is_set_on_return w pagename p :
  context (state_of (update_and_remove_templates w pagename p))
    !! "theme_version"
  = if returns (update_and_remove_templates w pagename p)
    then Some (VStr __version__)
    else context p !! "theme_version".
Proof.
  set (prefix :=
         for_each template_sections (update_section w) ;;
         remove_theme_css ;;
         (let* ctx := the_context in
          let* favicons := iterate (get_or ctx "theme_favicons" (VList [])) in
          for_each favicons (add_favicon w)) ;;
         modify (set_page_app (push_js (JsPagename pagename))) ;;
         add_switcher_js).
  assert (forall q, update_and_remove_templates w pagename q
                    = (prefix ;; set_entry "theme_version" (VStr __version__)) q)
    as Hsplit.
  { intros q. unfold update_and_remove_templates, prefix. regroup. }
  assert (leaves "theme_version" prefix) as Hleaves.
  { unfold prefix.
    apply leaves_bind; [| intros _; apply leaves_bind; [| intros _;
      apply leaves_bind; [| intros _; apply leaves_bind; [| intros _]]]].
    - apply leaves_for_each. intros section Hin. apply leaves_update_section.
      by apply (sections_are_not "theme_version"); [right|].
    - by apply leaves_remove_theme_css.
    - apply leaves_bind; [apply leaves_the_context | intros ctx].
      apply leaves_bind; [apply leaves_iterate | intros favicons].
      apply leaves_for_each. intros x _. apply leaves_add_favicon.
    - apply leaves_app.
    - apply leaves_add_switcher_js. }
  rewrite !Hsplit. unfold bind.
  pose proof (leaves_frame "theme_version" prefix p Hleaves) as Hframe.
  destruct (prefix p) as [[] p'|e p']; simpl in *; [|done].
  apply lookup_insert_eq.
Qed.

(** ** What the hook registers *)

Section PageConfined.

Variable fp : page_effect -> Prop.

Lemma page_confined_ret {A} (a : A) : page_confined fp (ret a).
Proof. intros I _. apply preserves_ret. Qed.

Lemma page_confined_raise {A} e : page_confined fp (@raise page A e).
Proof. intros I _. apply preserves_raise. Qed.

Lemma page_confined_the_context : page_confined fp the_context.
Proof. by intros I _ p. Qed.

Lemma page_confined_iterate v : page_confined fp (iterate v).
Proof.
  unfold iterate.
  destruct (py_iter v); [apply page_confined_ret | apply page_confined_raise].
Qed.

Lemma page_confined_effect e :
  fp e -> page_confined fp (modify (run_page_effect e)).
Proof. intros He I HI. apply preserves_modify. intros p. by apply HI. Qed.

Lemma page_confined_set_entry k v :
  fp (PSetEntry k v) -> page_confined fp (set_entry k v).
Proof. apply (page_confined_effect (PSetEntry k v)). Qed.

Lemma page_confined_bind {A B} (m : M page A) (f : A -> M page B) :
  page_confined fp m -> (forall a, page_confined fp (f a)) ->
  page_confined fp (bind m f).
Proof.
  intros Hm Hf I HI. apply preserves_bind; [by apply Hm|].
  intros a. by apply Hf.
Qed.

Lemma page_confined_when b (m : M page unit) :
  page_confined fp m -> page_confined fp (when b m).
Proof. intros Hm I HI. apply preserves_when. by apply Hm. Qed.

Lemma page_confined_for_each {A} (xs : list A) (body : A -> M page unit) :
  (forall x, page_confined fp (body x)) ->
  page_confined fp (for_each xs body).
Proof. intros H I HI. apply preserves_for_each. intros x. by apply H. Qed.

End PageConfined.

Ltac page_confine :=
  repeat first
    [ apply page_confined_ret
    | apply page_confined_raise
    | apply page_confined_the_context
    | apply page_confined_iterate
    | apply page_confined_set_entry; solve [done]
    | apply page_confined_when
    | apply page_confined_bind; [| intros ?]
    | match goal with
      | |- page_confined _ (modify (set_page_app (push_js ?j))) =>
          apply (page_confined_effect _ (PJs j)); solve [done]
      | |- page_confined _ (modify (set_page_app (push_css ?c))) =>
          apply (page_confined_effect _ (PCss c)); solve [done]
      | |- page_confined _ (match ?x with _ => _ end) => destruct x
      | |- page_confined _ (if ?x then _ else _) => destruct x
      end ].

Section HookFootprints.

Variable w : world.

Lemma add_suffixes_confined section ii items :
  page_confined fp_entries (add_suffixes w section ii items).
Proof.
  revert ii.
  induction items as [|[| | |t| |] items IH]; intros ii; simpl;
    try apply page_confined_raise; [apply page_confined_ret|].
  apply page_confined_bind; [| intros _; apply IH].
  apply page_confined_when. unfold set_item. page_confine.
Qed.

Lemma filter_templates_confined items :
  page_confined fp_entries (filter_templates w items).
Proof.
  induction items as [|x items IH]; simpl; [apply page_confined_ret|].
  apply page_confined_bind; [| intros keep].
  - unfold _remove_empty_templates. page_confine.
  - apply page_confined_bind; [apply IH | intros kept].
    apply page_confined_ret.
Qed.

Lemma update_section_confined section :
  page_confined fp_entries (update_section w section).
Proof.
  unfold update_section.
  apply page_confined_bind; [apply page_confined_the_context | intros ctx].
  apply page_confined_when.
  apply page_confined_bind; [page_confine | intros _].
  apply page_confined_bind; [apply page_confined_the_context | intros ctx1].
  apply page_confined_bind; [apply page_confined_iterate | intros items].
  apply page_confined_bind; [apply add_suffixes_confined | intros _].
  apply page_confined_bind; [apply page_confined_the_context | intros ctx2].
  apply page_confined_bind; [apply page_confined_iterate | intros items2].
  apply page_confined_bind; [apply filter_templates_confined | intros kept].
  by apply page_confined_set_entry.
Qed.

Lemma before_favicons_confined :
  page_confined fp_entries (before_favicons w).
Proof.
  unfold before_favicons. apply page_confined_bind; [| intros _].
  - apply page_confined_for_each. intros section.
    apply update_section_confined.
  - unfold remove_theme_css. page_confine.
Qed.

Lemma before_pagename_confined :
  page_confined fp_entries_and_links (before_pagename w).
Proof.
  assert (page_confined fp_entries_and_links (before_favicons w)) as Hbefore.
  { intros I HI. apply before_favicons_confined.
    intros [] q He; [by apply HI | done | done]. }
  assert (page_confined fp_entries_and_links
            (let* ctx := the_context in
             let* favicons :=
               iterate (get_or ctx "theme_favicons" (VList [])) in
             for_each favicons (add_favicon w))) as Hfavicons.
  { apply page_confined_bind; [apply page_confined_the_context | intros ctx].
    apply page_confined_bind; [apply page_confined_iterate | intros favicons].
    apply page_confined_for_each. intros favicon.
    unfold add_favicon. page_confine. }
  unfold before_pagename, before_favicons in *.
  intros I HI q Hq. rewrite <- bind_assoc. revert q Hq.
  apply preserves_bind; [by apply Hbefore | intros _]. by apply Hfavicons.
Qed.

Lemma hook_confined pagename :
  page_confined fp_hook (update_and_remove_templates w pagename).
Proof.
  assert (forall q, update_and_remove_templates w pagename q
                    = (before_pagename w ;;
                       modify (set_page_app (push_js (JsPagename pagename))) ;;
                       add_switcher_js ;;
                       set_entry "theme_version" (VStr __version__)) q)
    as Hsplit.
  { intros q. unfold update_and_remove_templates, before_pagename. regroup. }
  intros I HI p Hp. rewrite Hsplit. revert p Hp.
  apply preserves_bind; [| intros _; apply preserves_bind; [| intros _;
    apply preserves_bind; [| intros _]]].
  - apply before_pagename_confined. intros e q _. by apply HI.
  - by apply (page_confined_effect fp_hook (PJs (JsPagename pagename))).
  - assert (page_confined fp_hook add_switcher_js) as H
      by (unfold add_switcher_js; page_confine).
    by apply H.
  - by apply (page_confined_set_entry fp_hook).
Qed.

End HookFootprints.

(** X19: the hook changes nothing of the application but the scripts and
    stylesheet links registered on it, to which it only appends: the theme
    options, the configuration and the log are as before, whether the hook
    returns or raises. *)
Theorem hook_only_registers_assets w pagename p :
  let a := page_app p in
  let a' := page_app (state_of (update_and_remove_templates w pagename p)) in
  theme_options a' = theme_options a
  /\ html_permalinks_icon a' = html_permalinks_icon a
  /\ fontawesome_included a' = fontawesome_included a
  /\ extensions a' = extensions a
  /\ log a' = log a
  /\ io a' = io a
  /\ (exists scripts, js_files a' = js_files a ++ scripts)
  /\ (exists links, css_files a' = css_files a ++ links).
Proof.
  intros a a'. subst a a'.
  apply (hook_confined w pagename
           (fun p' =>
              theme_options (page_app p') = theme_options (page_app p)
              /\ html_permalinks_icon (page_app p')
                 = html_permalinks_icon (page_app p)
              /\ fontawesome_included (page_app p')
                 = fontawesome_included (page_app p)
              /\ extensions (page_app p') = extensions (page_app p)
              /\ log (page_app p') = log (page_app p)
              /\ io (page_app p') = io (page_app p)
              /\ (exists scripts,
                    js_files (page_app p') = js_files (page_app p) ++ scripts)
              /\ (exists links,
                    css_files (page_app p') = css_files (page_app p) ++ links))).
  - intros [k v|j|c] p' _ (H1 & H2 & H3 & H4 & H5 & H6 & [js Hjs] & [css Hcss]);
      simpl; repeat split; try done; eauto.
    + exists (js ++ [j]). by rewrite Hjs, app_assoc.
    + exists (css ++ [c]). by rewrite Hcss, app_assoc.
  - repeat split; try done; exists []; by rewrite app_nil_r.
Qed.

Lemma before_favicons_leaves w k :
  k ∉ template_sections -> k <> "css_files" ->
  leaves k (before_favicons w).
Proof.
  intros Hk Hcss. unfold before_favicons. apply leaves_bind; [| intros _].
  - apply leaves_for_each. intros section Hin. apply leaves_update_section.
    by intros ->.
  - by apply leaves_remove_theme_css.
Qed.

Lemma before_pagename_leaves w k :
  k ∉ template_sections -> k <> "css_files" ->
  leaves k (before_pagename w).
Proof.
  intros Hk Hcss. unfold before_pagename.
  apply leaves_bind; [| intros _; apply leaves_bind; [| intros _]].
  - apply leaves_for_each. intros section Hin. apply leaves_update_section.
    by intros ->.
  - by apply leaves_remove_theme_css.
  - apply leaves_bind; [apply leaves_the_context | intros ctx].
    apply leaves_bind; [apply leaves_iterate | intros favicons].
    apply leaves_for_each. intros x _. apply leaves_add_favicon.
Qed.

Lemma not_a_section k :
  bool_decide (k ∈ template_sections) = false -> k ∉ template_sections.
Proof. intros H Hin. by apply bool_decide_eq_false in H. Qed.

Lemma add_switcher_js_returns q q' :
  add_switcher_js q = Return tt q' ->
  js_files (page_app q')
  = js_files (page_app q) ++ switcher_script (context q).
Proof.
  unfold add_switcher_js, switcher_script, the_context, bind, modify, raise,
    ret.
  destruct (get (context q) "theme_switcher") as [| | | | |d];
    try (intros [= <-]; by rewrite app_nil_r).
  destruct (dict_lookup (KStr "json_url") d); [|done].
  destruct (dict_lookup (KStr "version_match") d); [|done].
  destruct (context q !! "theme_show_version_warning_banner"); [|done].
  by intros [= <-].
Qed.

(** X20: a hook that returns has registered the script with the page name
    and, after it, the script of the version switcher when the context has a
    [theme_switcher] dict; it registers no other script. *)
Theorem hook_registers_page_scripts w pagename p :
  returns (update_and_remove_templates w pagename p) = true ->
  js_files (page_app (state_of (update_and_remove_templates w pagename p)))
  = js_files (page_app p)
    ++ JsPagename pagename :: switcher_script (context p).
Proof.
  assert (forall q, update_and_remove_templates w pagename q
                    = (before_pagename w ;;
                       modify (set_page_app (push_js (JsPagename pagename))) ;;
                       add_switcher_js ;;
                       set_entry "theme_version" (VStr __version__)) q)
    as Hsplit.
  { intros q. unfold update_and_remove_templates, before_pagename. regroup. }
  rewrite !Hsplit. intros Hret.
  assert (js_files (page_app (state_of (before_pagename w p)))
          = js_files (page_app p)) as Hjs.
  { apply (before_pagename_confined w
             (fun p' => js_files (page_app p') = js_files (page_app p)));
      [|done].
    by intros [] q He. }
  assert (switcher_script (context (state_of (before_pagename w p)))
          = switcher_script (context p)) as Hscript.
  { unfold switcher_script, get.
    rewrite !leaves_frame; [done | |];
      apply before_pagename_leaves; try discriminate;
      by apply not_a_section. }
  destruct (before_pagename w p) as [[] p1|e p1] eqn:Hbefore;
    [|by rewrite (bind_raise _ _ _ _ _ Hbefore) in Hret].
  simpl in Hjs, Hscript.
  rewrite (bind_return _ _ _ _ _ Hbefore) in Hret.
  rewrite (bind_return _ _ _ _ _ Hbefore).
  set (p2 := set_page_app (push_js (JsPagename pagename)) p1).
  rewrite (bind_return
             (modify (set_page_app (push_js (JsPagename pagename))))
             _ p1 tt p2 eq_refl) in Hret.
  rewrite (bind_return
             (modify (set_page_app (push_js (JsPagename pagename))))
             _ p1 tt p2 eq_refl).
  destruct (add_switcher_js p2) as [[] p3|e p3] eqn:Hrun;
    [|by rewrite (bind_raise _ _ _ _ _ Hrun) in Hret].
  rewrite (bind_return _ _ _ _ _ Hrun). simpl.
  apply add_switcher_js_returns in Hrun. rewrite Hrun.
  unfold p2. simpl. rewrite Hjs, Hscript. by rewrite <- app_assoc.
Qed.

Lemma hook_registers_page_scripts_witness :
  js_files (page_app (state_of (update_and_remove_templates offline "index"
                                  switcher_page)))
  = [ JsPagename "index";
      JsSwitcher (VStr "/_static/switcher.json") (VStr "0.14") (VBool false) ].
Proof.
  apply (hook_registers_page_scripts offline "index" switcher_page).
  reflexivity.
Defined.

Lemma add_favicon_links w favicon link q :
  favicon_link w favicon = Some link ->
  add_favicon w favicon q = Return tt (set_page_app (push_css link) q).
Proof.
  unfold favicon_link, add_favicon.
  destruct favicon as [| | | | |d]; try done.
  destruct (dict_lookup (KStr "href") d) as [[| | |href| |]|]; try done.
  intros [= <-]. unfold modify. do 3 f_equal.
  by destruct (dict_lookup (KStr "color") d).
Qed.

Lemma add_favicons_link w favicons : forall links q,
  mapM (favicon_link w) favicons = Some links ->
  exists q',
    for_each favicons (add_favicon w) q = Return tt q'
    /\ context q' = context q
    /\ css_files (page_app q') = css_files (page_app q) ++ links.
Proof.
  induction favicons as [|favicon favicons IH]; intros links q; simpl.
  - intros [= <-]. exists q. by rewrite app_nil_r.
  - destruct (favicon_link w favicon) as [link|] eqn:Hlink; [|done]. simpl.
    destruct (mapM (favicon_link w) favicons) as [rest|] eqn:Hrest; [|done].
    intros [= <-].
    destruct (IH rest (set_page_app (push_css link) q) eq_refl)
      as (q' & Hrun & Hctx & Hcss).
    exists q'. split; [|split].
    + unfold bind. by rewrite (add_favicon_links w _ link).
    + by rewrite Hctx.
    + rewrite Hcss. simpl. by rewrite <- app_assoc.
Qed.

(** X21: once the hook gets to the favicons, favicons that are dicts with
    a string [href] give one stylesheet link each, in their order: to the
    [href], with [rel] defaulting to [icon], [sizes] to [16x16], the type
    [image/] followed by the suffix of the [href] without its dots, and the
    [color] when there is one; the hook registers no other link. *)
Theorem favicons_are_linked w pagename p favicons links :
  returns (before_favicons w p) = true ->
  py_iter (get_or (context p) "theme_favicons" (VList [])) = Some favicons ->
  mapM (favicon_link w) favicons = Some links ->
  css_files (page_app (state_of (update_and_remove_templates w pagename p)))
  = css_files (page_app p) ++ links.
Proof.
  intros Hret Hiter Hlinks.
  set (rest :=
         modify (set_page_app (push_js (JsPagename pagename))) ;;
         add_switcher_js ;;
         set_entry "theme_version" (VStr __version__)).
  assert (forall q, update_and_remove_templates w pagename q
                    = (before_favicons w ;;
                       (let* ctx := the_context in
                        let* favicons :=
                          iterate (get_or ctx "theme_favicons" (VList [])) in
                        for_each favicons (add_favicon w)) ;; rest) q)
    as Hsplit.
  { intros q. unfold update_and_remove_templates, before_favicons, rest.
    regroup. }
  rewrite Hsplit. rewrite seq_returns by done.
  set (p1 := state_of (before_favicons w p)).
  assert (css_files (page_app p1) = css_files (page_app p)) as Hcss1.
  { unfold p1.
    apply (before_favicons_confined w
             (fun p' => css_files (page_app p') = css_files (page_app p)));
      [|done].
    by intros [] q He. }
  assert (get_or (context p1) "theme_favicons" (VList [])
          = get_or (context p) "theme_favicons" (VList [])) as Hfav.
  { unfold p1, get_or. rewrite leaves_frame; [done|].
    apply before_favicons_leaves; [by apply not_a_section | discriminate]. }
  destruct (add_favicons_link w favicons links p1 Hlinks)
    as (p2 & Hrun & Hctx & Hcss2).
  assert ((let* ctx := the_context in
           let* favicons := iterate (get_or ctx "theme_favicons" (VList [])) in
           for_each favicons (add_favicon w)) p1 = Return tt p2) as Hloop.
  { unfold the_context, iterate. unfold bind at 1. rewrite Hfav, Hiter.
    by unfold bind at 1. }
  rewrite (bind_return _ _ _ _ _ Hloop).
  assert (page_confined fp_entries_and_scripts rest) as Hrest.
  { unfold rest. apply page_confined_bind; [| intros _;
      apply page_confined_bind; [| intros _]].
    - by apply (page_confined_effect _ (PJs (JsPagename pagename))).
    - unfold add_switcher_js. page_confine.
    - by apply page_confined_set_entry. }
  rewrite (Hrest (fun p' => css_files (page_app p') = css_files (page_app p2)));
    [by rewrite Hcss2, Hcss1 | | done].
  by intros [] q He.
Qed.

Lemma favicons_are_linked_witness :
  css_files (page_app (state_of (update_and_remove_templates offline "index"
                                   switcher_page)))
  = [ CssCall "favicon.svg"
        [("rel", VStr "icon"); ("sizes", VStr "16x16");
         ("type", VStr "image/svg")];
      CssCall "apple.png"
        [("rel", VStr "apple-touch-icon"); ("sizes", VStr "180x180");
         ("type", VStr "image/png")] ].
Proof.
  apply (favicons_are_linked offline "index" switcher_page
           [VDict [(KStr "href", VStr "favicon.svg")];
            VDict [(KStr "href", VStr "apple.png");
                   (KStr "rel", VStr "apple-touch-icon");
                   (KStr "sizes", VStr "180x180")]]);
    reflexivity.
Defined.

(** ** The entries of a section given as text *)

Lemma split_cons sep s : exists h t, split sep s = h :: t.
Proof.
  induction s as [|a s IH]; simpl; [by eauto|].
  destruct (Ascii.eqb a sep); [by eauto|].
  destruct IH as (h & t & ->). eauto.
Qed.

Lemma split_length s : length (split "," s) = S (commas s).
Proof.
  induction s as [|a s IH]; simpl; [done|].
  destruct (Ascii.eqb a ","); simpl; [by rewrite IH|].
  destruct (split_cons "," s) as (h & t & Hs). rewrite Hs in *. simpl in *.
  done.
Qed.

Lemma split_pieces s : Forall (fun e => commas e = 0%nat) (split "," s).
Proof.
  induction s as [|a s IH]; simpl; [by constructor|].
  destruct (Ascii.eqb a ",") eqn:Ha; [by constructor|].
  destruct (split_cons "," s) as (h & t & Hs). rewrite Hs in *.
  apply Forall_cons in IH as [Hh Ht]. constructor; [|done].
  simpl. by rewrite Ha.
Qed.

Lemma commas_lstrip s : commas s = 0%nat -> commas (lstrip s) = 0%nat.
Proof.
  induction s as [|a s IH]; simpl; [done|].
  destruct (is_space a); [|done]. intros H. apply IH. lia.
Qed.

Lemma commas_rstrip s : commas s = 0%nat -> commas (rstrip s) = 0%nat.
Proof.
  induction s as [|a s IH]; simpl; [done|]. intros H.
  assert (commas (rstrip s) = 0%nat) as Hr by (apply IH; lia).
  destruct (rstrip s) as [|b r]; simpl in *.
  - destruct (is_space a); simpl; lia.
  - lia.
Qed.

Lemma rstrip_rstrip s : rstrip (rstrip s) = rstrip s.
Proof.
  induction s as [|a s IH]; simpl; [done|].
  destruct (rstrip s) as [|b r] eqn:Hr.
  - destruct (is_space a) eqn:Ha; simpl; [done|]. by rewrite Ha.
  - change (rstrip (String a (String b r)) = String a (String b r)).
    cbn [rstrip] in *. by rewrite IH.
Qed.

Lemma lstrip_starts_clean s : starts_clean (lstrip s).
Proof.
  induction s as [|a s IH]; simpl; [done|].
  by destruct (is_space a) eqn:Ha.
Qed.

Lemma rstrip_starts_clean s :
  starts_clean s -> starts_clean (rstrip s).
Proof.
  destruct s as [|a s]; simpl; [done|]. intros Ha.
  destruct (rstrip s); simpl; [|done]. by rewrite Ha.
Qed.

Lemma lstrip_clean s : starts_clean s -> lstrip s = s.
Proof. destruct s as [|a s]; simpl; [done|]. by intros ->. Qed.

Lemma strip_strip s : strip (strip s) = strip s.
Proof.
  unfold strip.
  rewrite (lstrip_clean (rstrip (lstrip s)))
    by apply rstrip_starts_clean, lstrip_starts_clean.
  apply rstrip_rstrip.
Qed.

Lemma contains_comma s : contains "," s = negb (commas s =? 0)%nat.
Proof.
  induction s as [|a s IH]; [done|].
  cbn [contains commas String.prefix]. rewrite IH.
  destruct (Ascii.ascii_dec "," a) as [<-|Hne].
  - assert (String.prefix "" s = true) as -> by by destruct s.
    done.
  - assert (Ascii.eqb a "," = false) as ->
      by (apply Ascii.eqb_neq; congruence).
    done.
Qed.

(** X22: a section given as text has one entry more than it has commas:
    empty pieces (two commas in a row, a comma at the end) are kept as
    empty entries; no entry contains a comma, and none has white space
    left around it. *)
Theorem split_entries_are_clean s :
  length (split_entries s) = S (commas s)
  /\ Forall (fun e => contains "," e = false /\ strip e = e)
       (split_entries s).
Proof.
  unfold split_entries. split.
  - by rewrite length_fmap, split_length.
  - apply Forall_fmap. eapply Forall_impl; [apply split_pieces|].
    intros e He. simpl. split; [|apply strip_strip].
    rewrite contains_comma. unfold strip.
    by rewrite commas_rstrip by by apply commas_lstrip.
Qed.

(** ** More on the switcher file and the deprecation shims *)

(** X23: the search for the two keys is Python's [in] on whatever the
    switcher file holds: a JSON object is searched by its keys, and an item
    that is a string passes when it has [url] and [version] as substrings,
    an item that is a list when it has them as items.  The warning about a
    malformed file is logged exactly when some item does not pass. *)
Theorem switcher_items_are_searched_with_in w a url content parsed items :
  reads_switcher a url ->
  retrieved w (srcdir a) url content ->
  json_loads w content = inr parsed ->
  py_iter parsed = Some items ->
  existsb is_scalar items = false ->
  switcher_log (state_of (update_config w a))
  = switcher_log a
    ++ (if forallb passes items then [] else [WSwitcherMalformed url]).
Proof.
  intros Hreads Hget Hjson Hiter Hitems.
  rewrite (update_config_reads w a url) by done.
  set (s0 := push_io (the_read w (srcdir a) url) (at_switcher w a)).
  assert ((let* r := read_switcher w url in
           match r with
           | inl reading_error => warn (WSwitcherUnreadable url reading_error)
           | inr content => validate_switcher_content w url content
           end) (at_switcher w a)
          = Return tt (if forallb passes items then s0
                       else push_log (WSwitcherMalformed url) s0)) as Hrun.
  { unfold bind at 1.
    rewrite (read_switcher_retrieved w _ url content);
      rewrite srcdir_at_switcher; [|done].
    by apply (validate_switcher_content_searchable _ _ _ parsed). }
  rewrite (bind_return _ _ _ _ _ Hrun). frames.
  destruct (forallb passes items).
  - rewrite app_nil_r. apply switcher_log_at_switcher.
  - rewrite switcher_log_push_log. simpl.
    by rewrite <- (switcher_log_at_switcher w a).
Qed.

Lemma switcher_items_are_searched_with_in_witness :
  switcher_log
    (state_of (update_config
                 (serving "{}"
                    (VDict [(KStr "versions", VList []);
                            (KStr "url", VStr "/")]))
                 (with_switcher "_static/switcher.json")))
  = [WSwitcherMalformed "_static/switcher.json"].
Proof.
  apply (switcher_items_are_searched_with_in
           (serving "{}" (VDict [(KStr "versions", VList []);
                                 (KStr "url", VStr "/")]))
           (with_switcher "_static/switcher.json") "_static/switcher.json"
           "{}" (VDict [(KStr "versions", VList []); (KStr "url", VStr "/")])
           [VStr "versions"; VStr "url"]).
  - apply with_switcher_reads.
  - split; reflexivity.
  - reflexivity.
  - reflexivity.
  - reflexivity.
Defined.

(** X24: a deprecated option that is missing or falsy (an empty string, an
    empty list) is passed over in silence: no warning of its own is logged,
    and without [footer_items] the option [footer_start] keeps its value,
    whether [update_config] returns or raises. *)
Theorem unused_deprecated_options_are_silent w a :
  let opts := theme_options a in
  let s' := state_of (update_config w a) in
  (truthy (get opts "logo_text") = false ->
   emitted WLogoText s' = emitted WLogoText a)
  /\ (truthy (get opts "footer_items") = false ->
      theme_options s' !! "footer_start" = theme_options a !! "footer_start"
      /\ emitted WFooterItems s' = emitted WFooterItems a)
  /\ (truthy (get opts "favicons") = false ->
      emitted WFavicons s' = emitted WFavicons a).
Proof.
  intros opts s'. subst opts s'. rewrite update_config_from_navigation.
  split; [|split].
  - intros Htext.
    assert (shim_ok (theme_options a) = true) as Hshim
      by (unfold shim_ok; by rewrite Htext).
    rewrite seq_returns by by apply deprecate_logo_text_returns.
    rewrite deprecate_logo_text_run, Htext by done. simpl. by walk.
  - intros Hfooter. rewrite state_of_seq.
    destruct (returns (deprecate_logo_text a)); [|by frames].
    set (s1 := state_of (deprecate_logo_text a)).
    assert (get (theme_options s1) "footer_items"
            = get (theme_options a) "footer_items") as Hget
      by (unfold s1; by frames).
    rewrite seq_returns by apply deprecate_footer_items_returns.
    rewrite deprecate_footer_items_run, Hget, Hfooter. simpl.
    split; walk; unfold s1; by frames.
  - intros Hfav. rewrite state_of_seq.
    destruct (returns (deprecate_logo_text a)); [|by frames].
    rewrite seq_returns by apply deprecate_footer_items_returns.
    set (s2 := state_of (deprecate_footer_items
                           (state_of (deprecate_logo_text a)))).
    assert (get (theme_options s2) "favicons"
            = get (theme_options a) "favicons") as Hget
      by (unfold s2; by frames).
    rewrite seq_returns by apply deprecate_favicons_returns.
    rewrite deprecate_favicons_run, Hget, Hfav. simpl.
    walk; unfold s2; by frames.
Qed.

Lemma unused_deprecated_options_are_silent_witness :
  emitted WLogoText (state_of (update_config offline path_logo)) = 0%nat
  /\ emitted WFooterItems (state_of (update_config offline path_logo)) = 0%nat
  /\ emitted WFavicons (state_of (update_config offline path_logo)) = 0%nat.
Proof.
  destruct (unused_deprecated_options_are_silent offline path_logo)
    as (Htext & Hfooter & Hfavicons).
  split; [exact (Htext eq_refl)|]. split.
  - destruct (Hfooter eq_refl) as [_ H]. exact H.
  - exact (Hfavicons eq_refl).
Defined.

Lemma read_switcher_rejected w s url msg :
  urlparse_scheme w url = inl msg ->
  read_switcher w url s = Raise (ValueError msg) s.
Proof. unfold read_switcher. by intros ->. Qed.

(** X25: a [json_url] that [urlparse] rejects stops [update_config] with
    the [ValueError] of [urlparse]: nothing is read, and no warning about
    the switcher file is logged. *)
Theorem rejected_json_url_stops_update_config w a url msg :
  reads_switcher a url ->
  urlparse_scheme w url = inl msg ->
  update_config w a = Raise (ValueError msg) (at_switcher w a)
  /\ io (state_of (update_config w a)) = io a
  /\ switcher_log (state_of (update_config w a)) = switcher_log a.
Proof.
  intros Hreads Hparse.
  assert (update_config w a = Raise (ValueError msg) (at_switcher w a))
    as Hrun.
  { rewrite (update_config_reads w a url) by done. unfold bind.
    by rewrite (read_switcher_rejected w _ url msg). }
  split; [done|]. rewrite Hrun. simpl.
  split; [apply io_at_switcher | apply switcher_log_at_switcher].
Qed.

Lemma rejected_json_url_stops_update_config_witness :
  update_config offline (with_switcher "http://[::1/switcher.json")
  = Raise (ValueError "Invalid IPv6 URL")
      (at_switcher offline (with_switcher "http://[::1/switcher.json"))
  /\ io (state_of (update_config offline
                     (with_switcher "http://[::1/switcher.json"))) = []
  /\ switcher_log
       (state_of (update_config offline
                    (with_switcher "http://[::1/switcher.json"))) = [].
Proof.
  apply (rejected_json_url_stops_update_config offline
           (with_switcher "http://[::1/switcher.json")
           "http://[::1/switcher.json" "Invalid IPv6 URL").
  - apply with_switcher_reads.
  - reflexivity.
Defined.
